(** * Silver price movement analysis: the core pipeline

    A shallow embedding of the pipeline of [analyze_silver_prices_v2.py] and
    [analyze_silver_prices_REAL.py]: [process_data], [rank_movements],
    [calculate_statistics], [calculate_sigma], [save_results] and [main];
    of [process_data] of [analyze_silver_prices_v3.py]; and of what
    [fetch_real_silver_data] and [fetch_alpha_vantage_data] do with a
    parsed response.

    Modelling choices.
    - A raw row is a Python [dict] from column name to text: a
      [gmap string string].  A cell that is not text (the [None] that
      [csv.DictReader] gives a short line) is outside the model.
    - A Python [float] is modelled by an exact rational ([Q]): rounding,
      overflow, infinities and NaN are outside the model.  So [float] reads
      a text as a finite number or rejects it, [int(float(text))] never
      overflows and [(x - avg) ** 2] never raises.  Properties that need
      more than that say so: they are stated for the calls that return, for
      an arbitrary coercion of the rows, or in exact arithmetic.  Numeric
      equality ([==] in Python) is [Qeq_bool], ordering is [Qle_bool].
      True division raises [ZeroDivisionError] on a zero divisor, as in
      Python.
    - Python exceptions are values of [exn]; a computation that may raise
      returns a [result].  The [try ... except (ValueError, KeyError)] of
      [process_data] is the match in [for_rows]: it is written for any
      coercion of a row, and lets every other exception through.
    - The builtins [float] (text to number), [x ** 0.5], the format
      specifications and the conversion of a timestamp to a date are
      parameters of the development.
    - The functions are pure up to the lists they build.  For the question
      whether two runs can differ they are modelled a second time on a
      store of objects ([main_st]), and shown to compute what the functions
      on values compute ([main_st_refines]). *)

From Stdlib Require Import QArith Ascii String DecimalString.
From stdpp Require Import gmap strings list sorting.

Open Scope Q_scope.

(** ** Exceptions and results *)

Inductive exn : Set :=
| KeyError
| ValueError
| IndexError
| ZeroDivisionError
| TypeError
| StopIteration.

Inductive result (A : Type) : Type :=
| Ok (a : A)
| Raise (e : exn).

Arguments Ok {A} a.
Arguments Raise {A} e.

Definition bind {A B : Type} (m : result A) (k : A -> result B) : result B :=
  match m with
  | Ok a => k a
  | Raise e => Raise e
  end.

Notation "'let*' x ':=' m 'in' k" := (bind m (fun x => k))
  (at level 10, x pattern, m at level 100, k at level 200).

(** ** Rows and entries *)

(** A raw row, as [csv.DictReader] or the fetch functions build it. *)
Abbreviation row := (gmap string string).

(** A processed day: the dict appended to [data] by [process_data].  The
    REAL variant has no ['adj_close'] key: [adj_close] is [None] there. *)
Record entry : Set := Entry {
  date : string;
  close : Q;
  adj_close : option Q;
  volume : Z;
  daily_change : option Q;
  daily_change_pct : option Q
}.

(** What the first statements of the [try] body of [process_data] coerce
    from a row. *)
Record observation : Set := Observation {
  ob_date : string;
  ob_close : Q;
  ob_adj_close : option Q;
  ob_volume : Z
}.

(** The dict returned by [calculate_statistics]. *)
Record statistics : Set := Statistics {
  max_gain_pct : Q;
  max_gain_date : string;
  max_loss_pct : Q;
  max_loss_date : string;
  avg_daily_change_pct : Q;
  volatility_std : Q;
  total_days : nat
}.

(** One entry of ['top_gains'] / ['top_losses'] in the JSON document; the
    v2 variant has no ['Sigma'] key. *)
Record movement : Set := Movement {
  Date : string;
  Close_Price : string;
  Daily_Change : string;
  Daily_Change_Pct : string;
  Sigma : option string;
  Volume : string
}.

(** The [results] dict. *)
Record report : Set := Report {
  analysis_date : string;
  data_source : option string;
  period_start : string;
  period_end : string;
  period_total_days : nat;
  top_gains : list movement;
  top_losses : list movement;
  stat_max_gain_pct : string;
  stat_max_gain_date : string;
  stat_max_loss_pct : string;
  stat_max_loss_date : string;
  stat_avg_daily_change_pct : string;
  stat_volatility_std : string
}.

(** What [save_results] writes: the JSON document (the text report renders
    the same values) and the three CSV files. *)
Record artifacts : Set := Artifacts {
  json : report;
  csv_full : list entry;
  csv_gains : list entry;
  csv_losses : list entry
}.

(** How a run that raises nothing ends: one of the two early returns after
    an error message, or the files of [save_results]. *)
Inductive run : Set :=
| NoRows
| NoValidData
| Saved (a : artifacts).

(** The parsed response of the v3 fetch: the two keys that make it give
    up, and the dict of daily values under ['Time Series (Daily)'] (empty
    when the key is absent). *)
Record response : Type := Response {
  error_message : option string;
  note : option string;
  time_series : gmap string row
}.

(** A row with the three columns every variant reads. *)
Definition mkrow (d c v : string) : row :=
  list_to_map [("Date", d); ("Close", c); ("Volume", v)]%string.

(** ** Python primitives *)

(** [row[k]]: [KeyError] when the key is absent. *)
Definition getitem (r : row) (k : string) : result string :=
  match r !! k with
  | Some v => Ok v
  | None => Raise KeyError
  end.

(** Truth value of [row.get(k)]: present and not the empty text. *)
Definition get_truthy (r : row) (k : string) : bool :=
  match r !! k with
  | Some v => negb (String.eqb v "")
  | None => false
  end.

(** [int(x)] for a number: truncation toward zero. *)
Definition int (x : Q) : Z := Z.quot (Qnum x) (Z.pos (Qden x)).

(** [x / y]: [ZeroDivisionError] when [y] is zero. *)
Definition truediv (x y : Q) : result Q :=
  if Qeq_bool y 0 then Raise ZeroDivisionError else Ok (x / y).

(** [data[-1]]: [IndexError] on the empty list. *)
Definition last_item {A : Type} (l : list A) : result A :=
  match last l with
  | Some x => Ok x
  | None => Raise IndexError
  end.

(** [l[:stop]] for a Python integer [stop]. *)
Definition slice_to {A : Type} (l : list A) (stop : Z) : list A :=
  if (0 <=? stop)%Z then take (Z.to_nat stop) l
  else take (length l - Z.to_nat (- stop)) l.

(** [l[start:]] for a Python integer [start]. *)
Definition slice_from {A : Type} (l : list A) (start : Z) : list A :=
  if (0 <=? start)%Z then drop (Z.to_nat start) l
  else drop (length l - Z.to_nat (- start)) l.

(** A reader of plain decimal text, used to run the pipeline on concrete
    rows: an optional sign, digits, and at most one decimal point. *)
Definition digit_val (c : ascii) : option Z :=
  let n := nat_of_ascii c in
  if ((48 <=? n) && (n <=? 57))%nat then Some (Z.of_nat (n - 48)) else None.

Fixpoint read_digits (s : string) (acc : Z) (scale : positive)
    (frac seen : bool) : option Q :=
  match s with
  | EmptyString => if seen then Some (Qred (acc # scale)) else None
  | String c s' =>
      if Ascii.eqb c "." && negb frac then read_digits s' acc scale true seen
      else
        match digit_val c with
        | Some d =>
            read_digits s' (acc * 10 + d)%Z
              (if frac then (scale * 10)%positive else scale) frac true
        | None => None
        end
  end.

Definition parse_decimal (s : string) : option Q :=
  match s with
  | String c s' =>
      if Ascii.eqb c "-" then Qopp <$> read_digits s' 0 1 false false
      else read_digits s 0 1 false false
  | EmptyString => None
  end.

(** An approximation of [x ** 0.5] to six decimal places, exact at zero. *)
Definition sqrt_approx (x : Q) : Q :=
  Z.sqrt (Qnum x * 10 ^ 12 / Z.pos (Qden x)) # (10 ^ 6).

(** Fixed-point formatting ([".2f"], [".4f"]) of an exact number, rounding
    half to even, and thousands grouping ([","]) of an integer. *)
Definition digits (n : Z) : string :=
  NilZero.string_of_uint (N.to_uint (Z.to_N n)).

Definition string_tail (s : string) : string :=
  match s with
  | String _ s' => s'
  | EmptyString => EmptyString
  end.

Definition round_half_even (x : Q) : Z :=
  let d := Z.pos (Qden x) in
  let q := (Qnum x / d)%Z in
  match (2 * (Qnum x mod d) ?= d)%Z with
  | Lt => q
  | Gt => (q + 1)%Z
  | Eq => if Z.even q then q else (q + 1)%Z
  end.

Definition fixed (places : Z) (x : Q) : string :=
  let p := (10 ^ places)%Z in
  let a := Z.abs (round_half_even (x * inject_Z p)) in
  ((if (Qnum x <? 0)%Z then "-" else "") +:+
   digits (a / p) +:+ "." +:+ string_tail (digits (p + a mod p)))%string.

Definition format_fixed (spec : string) (x : Q) : string :=
  if String.eqb spec ".4f" then fixed 4 x else fixed 2 x.

Fixpoint grouped (fuel : nat) (n : Z) : string :=
  match fuel with
  | O => digits n
  | S fuel' =>
      if (n <? 1000)%Z then digits n
      else (grouped fuel' (n / 1000) +:+ "," +:+
            string_tail (digits (1000 + n mod 1000)))%string
  end.

Definition format_grouped (n : Z) : string :=
  ((if (n <? 0)%Z then "-" else "") +:+ grouped 64 (Z.abs n))%string.

(** ** Concrete rows and days

    Inputs on which the pipeline is run below. *)

Definition scenario_rows : list row :=
  [mkrow "d0" "10.00" "1"; mkrow "d1" "10.00" "2";
   mkrow "d2" "11.00" "3"; mkrow "d3" "9.90" "4"].

Definition scenario_obs_REAL : list observation :=
  [Observation "d0" 10 None 1; Observation "d1" 10 None 2;
   Observation "d2" 11 None 3; Observation "d3" (99 # 10) None 4].

Definition two_rows : list row :=
  [mkrow "d0" "10.00" "1"; mkrow "d1" "11.00" "2"].

Definition two_obs : list observation :=
  [Observation "d0" 10 (Some 10) 1; Observation "d1" 11 (Some 11) 2].

Definition zero_close_rows : list row :=
  [mkrow "d0" "0" "1"; mkrow "d1" "5" "1"].

Definition constant_rows : list row :=
  [mkrow "d0" "10" "1"; mkrow "d1" "10" "1"; mkrow "d2" "10" "1"].

Definition one_row : list row := [mkrow "d0" "10" "1"].

(** A feed whose first row has no readable close and whose second closes
    at zero, and the scenario with an unreadable row in the middle. *)
Definition rejected_first_rows : list row :=
  [mkrow "d0" "null" "1"; mkrow "d1" "0" "1"; mkrow "d2" "5" "1"].

Definition scenario_gap_rows : list row :=
  [mkrow "d0" "10.00" "1"; mkrow "d1" "oops" "2";
   mkrow "d2" "11.00" "3"; mkrow "d3" "9.90" "4"].

(** Two days with the same loss, and a day that is both the first gain
    and tied with a later one. *)
Definition day (d : string) (pct : Q) : entry :=
  Entry d 10 None 0 (Some pct) (Some pct).

Definition tied_days : list entry := [day "d1" (-1); day "d2" (-1)].

Definition gain_days : list entry := [day "d1" 1; day "d2" 3; day "d3" 3].

Definition flat_statistics : statistics :=
  Statistics 0 "d1" 0 "d1" 0 0 1.

(** More inputs: a feed with an unreadable close in the middle, the
    expected returns of the scenario, a chart response with a day without
    a close, and a daily-values response listed latest day first. *)
Definition gap_rows : list row :=
  [mkrow "d0" "10" "1"; mkrow "d1" "oops" "1"; mkrow "d2" "11" "1"].

Definition scenario_returns : list entry :=
  [Entry "d1" 10 (Some 10) 2 (Some (10 - 10)) (Some ((10 - 10) / 10 * 100));
   Entry "d2" 11 (Some 11) 3 (Some (11 - 10)) (Some ((11 - 10) / 10 * 100));
   Entry "d3" (99 # 10) (Some (99 # 10)) 4 (Some ((99 # 10) - 11))
     (Some (((99 # 10) - 11) / 11 * 100))].

Definition scenario_returns_REAL : list entry :=
  [Entry "d1" 10 None 2 (Some (10 - 10)) (Some ((10 - 10) / 10 * 100));
   Entry "d2" 11 None 3 (Some (11 - 10)) (Some ((11 - 10) / 10 * 100));
   Entry "d3" (99 # 10) None 4 (Some ((99 # 10) - 11))
     (Some (((99 # 10) - 11) / 11 * 100))].

Definition flat_days : list entry := [day "d1" 0; day "d2" 0].

Definition day_name (ts : Z) : result string :=
  if ((0 <=? ts) && (ts <? 253402300800))%Z
  then Ok ("day" +:+ digits (ts / 86400))%string
  else Raise ValueError.

Definition chart_timestamps : list Z := [0; 86400; 172800]%Z.
Definition chart_closes : list (option Q) := [Some 10; None; Some 11].
Definition chart_volumes : list (option Q) := [Some 5; None; Some 7].

Definition daily_values (c : string) : row :=
  list_to_map [("1. open", c); ("2. high", c); ("3. low", c);
               ("4. close", c); ("5. volume", "100")]%string.

Definition daily_response : response :=
  Response None None
    (list_to_map [("2024-01-03", daily_values "11");
                  ("2024-01-02", daily_values "10")]%string).

Definition unreadable_response : response :=
  Response None None (list_to_map [("2024-01-02", daily_values "n/a")]%string).

Definition unreadable_row : row :=
  list_to_map [("Date", "2024-01-02"); ("Open", "n/a"); ("High", "n/a");
               ("Low", "n/a"); ("Close", "n/a"); ("Volume", "100")]%string.

Definition broken_response : response :=
  Response None None
    (list_to_map [("2024-01-03", daily_values "11");
                  ("2024-01-02", mkrow "x" "y" "z")]%string).

(** ** Python's objects

    For the question whether two runs can differ, the pipeline is modelled
    once more on a store of objects: a row and an entry are dicts, a list
    holds references to its items, [data.append] updates a list in place,
    and [sorted] and the slices build new lists of the same references.  A
    reference is the index of its object in the store; a new object is
    placed at the end. *)
Inductive object : Type :=
| RowDict (r : row)
| EntryDict (e : entry)
| ListObject (items : list nat).

Abbreviation store := (list object).

(** A statement run in a store: the store it leaves, and what it returns
    or raises. *)
Definition prog (A : Type) : Type := store -> store * result A.

Definition ret {A : Type} (a : A) : prog A := fun h => (h, Ok a).

Definition lift {A : Type} (m : result A) : prog A := fun h => (h, m).

Definition bind_prog {A B : Type} (m : prog A) (k : A -> prog B) : prog B :=
  fun h =>
    match m h with
    | (h', Ok a) => k a h'
    | (h', Raise e) => (h', Raise e)
    end.

Notation "'let!' x ':=' m 'in' k" := (bind_prog m (fun x => k))
  (at level 10, x pattern, m at level 100, k at level 200).

(** A new object. *)
Definition alloc (o : object) : prog nat := fun h => (h ++ [o], Ok (length h)).

(** The object behind a reference, as the dict or list the code expects;
    an object of another kind raises [TypeError]. *)
Definition get_row (l : nat) : prog row := fun h =>
  match h !! l with
  | Some (RowDict r) => (h, Ok r)
  | _ => (h, Raise TypeError)
  end.

Definition get_entry (l : nat) : prog entry := fun h =>
  match h !! l with
  | Some (EntryDict e) => (h, Ok e)
  | _ => (h, Raise TypeError)
  end.

Definition get_list (l : nat) : prog (list nat) := fun h =>
  match h !! l with
  | Some (ListObject items) => (h, Ok items)
  | _ => (h, Raise TypeError)
  end.

(** [l.append(x)]: the list object is updated in place. *)
Definition append (l x : nat) : prog unit := fun h =>
  match h !! l with
  | Some (ListObject items) => (<[l := ListObject (items ++ [x])]> h, Ok tt)
  | _ => (h, Raise TypeError)
  end.

Fixpoint for_each_prog {A B : Type} (f : A -> prog B) (l : list A)
    : prog (list B) :=
  match l with
  | [] => ret []
  | x :: l' =>
      let! y := f x in
      let! ys := for_each_prog f l' in
      ret (y :: ys)
  end.

(** The entries a list object refers to, in order. *)
Definition contents (l : nat) : prog (list entry) :=
  let! items := get_list l in for_each_prog get_entry items.

(** The store holds, at [l], a list of references to the rows [rs]. *)
Definition rows_at (h : store) (l : nat) (rs : list row) : Prop :=
  exists items, h !! l = Some (ListObject items) /\
    Forall2 (fun x r => h !! x = Some (RowDict r)) items rs.

(** The store holds, at [l], a list of references to the entries [es]. *)
Definition entries_at (h : store) (l : nat) (es : list entry) : Prop :=
  exists items, h !! l = Some (ListObject items) /\
    Forall2 (fun x e => h !! x = Some (EntryDict e)) items es.

(** The store while [process_data] runs in [h0]: the objects of [h0], the
    list [data], and the entries appended so far. *)
Definition building (h0 : store) (es : list entry) : store :=
  h0 ++ ListObject (seq (S (length h0)) (length es)) :: (EntryDict <$> es).

(** A small store: three row dicts and the list of them. *)
Definition store_rows : list row :=
  [mkrow "d0" "10.00" "1"; mkrow "d1" "11.00" "2"; mkrow "d2" "9.90" "3"].

Definition scenario_store : store :=
  [RowDict (mkrow "d0" "10.00" "1"); RowDict (mkrow "d1" "11.00" "2");
   RowDict (mkrow "d2" "9.90" "3"); ListObject [0; 1; 2]%nat].

(** The same rows in another store, behind other references and beside
    an object that is none of them. *)
Definition shifted_store : store :=
  [ListObject [2; 3; 4]%nat; EntryDict (Entry "old" 5 None 0 None None);
   RowDict (mkrow "d0" "10.00" "1"); RowDict (mkrow "d1" "11.00" "2");
   RowDict (mkrow "d2" "9.90" "3")].

Section Pipeline.

(** [float(text)]: [None] stands for [ValueError].  Every number it reads
    is finite: a text Python reads as an infinity or a NaN is outside the
    model, and with it the [OverflowError] of [int(float(text))]. *)
Variable float : string -> option Q.

(** [x ** 0.5]. *)
Variable pow_half : Q -> Q.

(** [format(x, spec)] for a number and [format(n, ",")] for an integer. *)
Variable format_float : string -> Q -> string.
Variable format_int : Z -> string.

Definition to_float (s : string) : result Q :=
  match float s with
  | Some x => Ok x
  | None => Raise ValueError
  end.

(** ** [process_data] *)

Definition coerce (r : row) : result observation :=
  let* d := getitem r "Date" in
  let* c := bind (getitem r "Close") to_float in
  let* a :=
    if get_truthy r "Adj Close" then bind (getitem r "Adj Close") to_float
    else Ok c in
  let* v :=
    if get_truthy r "Volume" then
      let* s := getitem r "Volume" in
      if negb (String.eqb s "null") then
        let* x := to_float s in Ok (int x)
      else Ok 0%Z
    else Ok 0%Z in
  Ok (Observation d c (Some a) v).

(** The same statements in the REAL variant: no adjusted close, and the
    volume is required. *)
Definition coerce_REAL (r : row) : result observation :=
  let* d := getitem r "Date" in
  let* c := bind (getitem r "Close") to_float in
  let* v := bind (bind (getitem r "Volume") to_float) (fun x => Ok (int x)) in
  Ok (Observation d c None v).

(** The rest of the [try] body: the change against [data[-1]], guarded by
    the raw index [i], and the dict that is appended. *)
Definition make_entry (i : nat) (data : list entry) (o : observation)
    : result entry :=
  let* changes :=
    if (0 <? i)%nat then
      let* prev := last_item data in
      let prev_close := close prev in
      let change := ob_close o - prev_close in
      let* ratio := truediv change prev_close in
      Ok (Some change, Some (ratio * 100))
    else Ok (None, None) in
  Ok (Entry (ob_date o) (ob_close o) (ob_adj_close o) (ob_volume o)
        changes.1 changes.2).

Definition try_body (co : row -> result observation) (i : nat)
    (data : list entry) (r : row) : result entry :=
  let* o := co r in make_entry i data o.

(** [for i, row in enumerate(rows)]: a [ValueError] or [KeyError] of the
    body skips the row, any other exception leaves the function. *)
Fixpoint for_rows (co : row -> result observation) (i : nat)
    (rows : list row) (data : list entry) : result (list entry) :=
  match rows with
  | [] => Ok data
  | r :: rows' =>
      match try_body co i data r with
      | Ok e => for_rows co (S i) rows' (data ++ [e])
      | Raise ValueError | Raise KeyError => for_rows co (S i) rows' data
      | Raise e => Raise e
      end
  end.

Definition process_rows (co : row -> result observation) (rows : list row)
    : result (list entry) :=
  let* data := for_rows co 0 rows [] in
  Ok (match data with [] => data | _ :: _ => drop 1 data end).

Definition process_data : list row -> result (list entry) :=
  process_rows coerce.

Definition process_data_REAL : list row -> result (list entry) :=
  process_rows coerce_REAL.

(** ** [rank_movements] *)

(** The sort key: the percentage change, [0] when it is unset. *)
Definition sort_key (x : entry) : Q := default 0 (daily_change_pct x).

(** [sorted(data, key=sort_key, reverse=True)].  Python's sort is stable,
    also under [reverse=True]: entries with equal keys keep the order of
    [data].  The result is computed here by insertion from the right: an
    entry goes in front of the first entry whose key is not greater.
    Sortedness and stability leave no other result
    ([sorted_reverse_unique]). *)
Fixpoint insert_desc (x : entry) (l : list entry) : list entry :=
  match l with
  | [] => [x]
  | y :: l' =>
      if Qle_bool (sort_key y) (sort_key x) then x :: l
      else y :: insert_desc x l'
  end.

Definition sorted_reverse (data : list entry) : list entry :=
  foldr insert_desc [] data.

Definition rank_movements (data : list entry) (top_n : Z)
    : list entry * list entry :=
  let sorted_data := sorted_reverse data in
  let top_gains := slice_to sorted_data top_n in
  let top_losses := reverse (slice_from sorted_data (- top_n)) in
  (top_gains, top_losses).

(** ** [calculate_statistics] *)

(** [max] and [min] of a non-empty list: the running extremum is replaced
    only by a strictly greater (smaller) item. *)
Definition max_of (x : Q) (l : list Q) : Q :=
  foldl (fun m y => if Qle_bool y m then m else y) x l.

Definition min_of (x : Q) (l : list Q) : Q :=
  foldl (fun m y => if Qle_bool m y then m else y) x l.

(** [sum(l)]. *)
Definition sum (l : list Q) : Q := foldl Qplus 0 l.

(** [len(l)] as a number. *)
Definition len {A : Type} (l : list A) : Q := inject_Z (Z.of_nat (length l)).

(** [d['daily_change_pct'] == x]; an unset change is equal to no number. *)
Definition pct_is (x : Q) (d : entry) : bool :=
  match daily_change_pct d with
  | Some p => Qeq_bool p x
  | None => false
  end.

(** [next(d['date'] for d in data if d['daily_change_pct'] == x)]. *)
Definition next_date (x : Q) (data : list entry) : result string :=
  match List.find (pct_is x) data with
  | Some d => Ok (date d)
  | None => Raise StopIteration
  end.

(** The returned dict: [None] is the empty dict [{}].  The arithmetic is
    exact: the rounding of the sums and the [OverflowError] of [** 2] on
    large floats are outside the model. *)
Definition calculate_statistics (data : list entry)
    : result (option statistics) :=
  let changes := omap daily_change_pct data in
  match changes with
  | [] => Ok None
  | c :: cs =>
      let max_gain := max_of c cs in
      let max_loss := min_of c cs in
      let* avg_change := truediv (sum changes) (len changes) in
      let* variance :=
        truediv (sum ((fun x => (x - avg_change) ^ 2) <$> changes))
          (len changes) in
      let std_dev := pow_half variance in
      let* gain_date := next_date max_gain data in
      let* loss_date := next_date max_loss data in
      Ok (Some (Statistics max_gain gain_date max_loss loss_date avg_change
                  std_dev (length changes)))
  end.

(** ** [calculate_sigma] (REAL variant) *)

Definition calculate_sigma (value mean std_dev : Q) : result Q :=
  truediv (value - mean) std_dev.

(** ** [save_results] *)

Definition money (x : Q) : string := "$" +:+ format_float ".2f" x.
Definition percent (spec : string) (x : Q) : string :=
  format_float spec x +:+ "%".
Definition or_na (f : Q -> string) (x : option Q) : string :=
  match x with
  | Some y => f y
  | None => "N/A"
  end.

(** The two bytes of the Greek letter that ends a sigma value. *)
Definition sigma_suffix : string :=
  String (ascii_of_nat 207) (String (ascii_of_nat 131) EmptyString).

(** [stats.get(key, default)] on the statistics dict. *)
Definition stats_get {A : Type} (stats : option statistics)
    (field : statistics -> A) (dflt : A) : A :=
  match stats with
  | Some s => field s
  | None => dflt
  end.

(** [stats[key]]: [KeyError] on the empty dict. *)
Definition stats_item {A : Type} (stats : option statistics)
    (field : statistics -> A) : result A :=
  match stats with
  | Some s => Ok (field s)
  | None => Raise KeyError
  end.

Definition first_date (data : list entry) : string :=
  match data with
  | d :: _ => date d
  | [] => "N/A"
  end.

Definition last_date (data : list entry) : string :=
  match last data with
  | Some d => date d
  | None => "N/A"
  end.

Definition movement_v2 (d : entry) : movement :=
  Movement (date d) (money (close d)) (or_na money (daily_change d))
    (or_na (percent ".2f") (daily_change_pct d)) None
    (format_int (volume d)).

(** [save_results] of the v2 variant; [now] is the clock reading that
    becomes ['analysis_date']. *)
Definition save_results (now : string) (gains losses data : list entry)
    (stats : option statistics) : result artifacts :=
  let results :=
    Report now None (first_date data) (last_date data)
      (stats_get stats total_days 0%nat)
      (movement_v2 <$> gains) (movement_v2 <$> losses)
      (percent ".2f" (stats_get stats max_gain_pct 0))
      (stats_get stats max_gain_date "N/A")
      (percent ".2f" (stats_get stats max_loss_pct 0))
      (stats_get stats max_loss_date "N/A")
      (percent ".2f" (stats_get stats avg_daily_change_pct 0))
      (percent ".2f" (stats_get stats volatility_std 0)) in
  Ok (Artifacts results data gains losses).

(** One turn of the loops that build [gains_with_sigma] and
    [losses_with_sigma]: an unset change cannot be subtracted from. *)
Definition movement_REAL (mean std_dev : Q) (d : entry) : result movement :=
  let* value :=
    match daily_change_pct d with
    | Some p => Ok p
    | None => Raise TypeError
    end in
  let* sigma := calculate_sigma value mean std_dev in
  Ok (Movement (date d) (money (close d)) (or_na money (daily_change d))
        (or_na (percent ".2f") (daily_change_pct d))
        (Some (format_float ".2f" sigma +:+ sigma_suffix))
        (format_int (volume d))).

(** A [for] loop that appends the result of each turn and stops at the
    first exception. *)
Fixpoint for_each {A B : Type} (f : A -> result B) (l : list A)
    : result (list B) :=
  match l with
  | [] => Ok []
  | x :: l' =>
      let* y := f x in
      let* ys := for_each f l' in
      Ok (y :: ys)
  end.

(** [save_results] of the REAL variant. *)
Definition save_results_REAL (now : string) (gains losses data : list entry)
    (stats : option statistics) : result artifacts :=
  let* mean := stats_item stats avg_daily_change_pct in
  let* std_dev := stats_item stats volatility_std in
  let* gains_with_sigma := for_each (movement_REAL mean std_dev) gains in
  let* losses_with_sigma := for_each (movement_REAL mean std_dev) losses in
  let results :=
    Report now (Some "Yahoo Finance - REAL MARKET DATA")
      (first_date data) (last_date data)
      (stats_get stats total_days 0%nat)
      gains_with_sigma losses_with_sigma
      (percent ".2f" (stats_get stats max_gain_pct 0))
      (stats_get stats max_gain_date "N/A")
      (percent ".2f" (stats_get stats max_loss_pct 0))
      (stats_get stats max_loss_date "N/A")
      (percent ".4f" (stats_get stats avg_daily_change_pct 0))
      (percent ".2f" (stats_get stats volatility_std 0)) in
  Ok (Artifacts results data gains losses).

(** ** [main] *)

(** [main] of the v2 variant, from the rows the fetch returned.  The
    summary is printed from [stats[...]] before the files are written. *)
Definition main (now : string) (rows : list row) : result run :=
  match rows with
  | [] => Ok NoRows
  | _ :: _ =>
      let* data := process_data rows in
      match data with
      | [] => Ok NoValidData
      | _ :: _ =>
          let* stats := calculate_statistics data in
          let ranked := rank_movements data 50 in
          let* _ := stats_item stats max_gain_pct in
          let* a := save_results now ranked.1 ranked.2 data stats in
          Ok (Saved a)
      end
  end.

(** The sigma printed for one of the ten displayed movements. *)
Definition display_sigma (stats : option statistics) (d : entry)
    : result Q :=
  let pct := default 0 (daily_change_pct d) in
  let* mean := stats_item stats avg_daily_change_pct in
  let* std_dev := stats_item stats volatility_std in
  let* sigma := calculate_sigma pct mean std_dev in
  match daily_change d with
  | Some _ => Ok sigma
  | None => Raise TypeError
  end.

(** [main] of the REAL variant. *)
Definition main_REAL (now : string) (rows : list row) : result run :=
  match rows with
  | [] => Ok NoRows
  | _ :: _ =>
      let* data := process_data_REAL rows in
      match data with
      | [] => Ok NoValidData
      | _ :: _ =>
          let* stats := calculate_statistics data in
          let ranked := rank_movements data 50 in
          let* _ := stats_item stats max_gain_pct in
          let* _ := for_each (display_sigma stats) (slice_to ranked.1 10) in
          let* _ := for_each (display_sigma stats) (slice_to ranked.2 10) in
          let* a := save_results_REAL now ranked.1 ranked.2 data stats in
          Ok (Saved a)
      end
  end.

(** ** Vocabulary of the properties *)

(** The entry appended for observation [o] after a day that closed at
    [prev], and the entries appended for a run of observations. *)
Definition entry_after (prev : Q) (o : observation) : entry :=
  Entry (ob_date o) (ob_close o) (ob_adj_close o) (ob_volume o)
    (Some (ob_close o - prev)) (Some ((ob_close o - prev) / prev * 100)).

Fixpoint entries_after (prev : Q) (obs : list observation) : list entry :=
  match obs with
  | [] => []
  | o :: obs' => entry_after prev o :: entries_after (ob_close o) obs'
  end.

(** No observation of [obs] follows a zero close / some observation does. *)
Fixpoint nonzero_prev (prev : Q) (obs : list observation) : Prop :=
  match obs with
  | [] => True
  | o :: obs' => ~ prev == 0 /\ nonzero_prev (ob_close o) obs'
  end.

Fixpoint zero_prev (prev : Q) (obs : list observation) : Prop :=
  match obs with
  | [] => False
  | o :: obs' => prev == 0 \/ zero_prev (ob_close o) obs'
  end.

(** [rows] normalise to [obs]: every row either coerces to the next
    observation or is rejected by a [ValueError] or [KeyError]. *)
Inductive normalizes (co : row -> result observation)
    : list row -> list observation -> Prop :=
| normalizes_nil : normalizes co [] []
| normalizes_ok r o rows obs :
    co r = Ok o -> normalizes co rows obs ->
    normalizes co (r :: rows) (o :: obs)
| normalizes_skip r e rows obs :
    co r = Raise e -> e = ValueError \/ e = KeyError ->
    normalizes co rows obs -> normalizes co (r :: rows) obs.

(** [x] may stand before [y] in a list sorted by percentage change
    descending / ascending. *)
Definition pct_ge (x y : entry) : Prop := sort_key y <= sort_key x.
Definition pct_le (x y : entry) : Prop := sort_key x <= sort_key y.

(** The entries whose key is numerically [k]: a tie group. *)
Definition tied (k : Q) (e : entry) : bool := Qeq_bool (sort_key e) k.

(** The result of a computation under a function, and a run without the
    generation timestamp of its report. *)
Definition result_map {A B : Type} (f : A -> B) (m : result A) : result B :=
  match m with
  | Ok a => Ok (f a)
  | Raise e => Raise e
  end.

(** A run without the generation timestamp of its report. *)
Definition content (r : run) : run :=
  match r with
  | Saved (Artifacts (Report _ src ps pe n g l mg mgd ml mld av sd) f cg cl) =>
      Saved (Artifacts (Report "" src ps pe n g l mg mgd ml mld av sd) f cg cl)
  | _ => r
  end.

(** ** The third variant and the accepted rows *)

(** The statements of the [try] body of [process_data] in the v3 variant:
    no adjusted close, and the volume is optional as in v2. *)
Definition coerce_v3 (r : row) : result observation :=
  let* d := getitem r "Date" in
  let* c := bind (getitem r "Close") to_float in
  let* v :=
    if get_truthy r "Volume" then
      let* s := getitem r "Volume" in
      if negb (String.eqb s "null") then
        let* x := to_float s in Ok (int x)
      else Ok 0%Z
    else Ok 0%Z in
  Ok (Observation d c None v).

Definition process_data_v3 : list row -> result (list entry) :=
  process_rows coerce_v3.

(** Whether a computation returned, and the observations of the rows that
    coerce, in order. *)
Definition is_ok {A : Type} (m : result A) : bool :=
  match m with
  | Ok _ => true
  | Raise _ => false
  end.

Definition accepted (co : row -> result observation) (rows : list row)
    : list observation :=
  omap (fun r => match co r with Ok o => Some o | Raise _ => None end) rows.

(** An entry without its adjusted close, as the REAL and v3 variants
    build it. *)
Definition without_adj_close (e : entry) : entry :=
  Entry (date e) (close e) None (volume e) (daily_change e)
    (daily_change_pct e).

(** ** The rows of [fetch_real_silver_data]

    What the function does with the three lists it reads from the chart
    response: the timestamps, the closes and the volumes (a JSON [null] is
    [None]).  The download itself is not modelled. *)

(** [datetime.fromtimestamp(ts).strftime('%Y-%m-%d')], which raises on a
    timestamp outside the range of the platform, and [str] of a number and
    of an integer. *)
Variable date_of_timestamp : Z -> result string.
Variable str_float : Q -> string.
Variable str_int : Z -> string.

(** [l[i]] for an index of [enumerate]: [IndexError] past the end. *)
Definition item {A : Type} (l : list A) (i : nat) : result A :=
  match l !! i with
  | Some x => Ok x
  | None => Raise IndexError
  end.

(** One turn of the loop: the row to append, if the close is not null. *)
Definition chart_row (close_prices volumes : list (option Q)) (i : nat)
    (ts : Z) : result (option row) :=
  let* d := date_of_timestamp ts in
  let* c := item close_prices i in
  let* v := item volumes i in
  let v' := match v with Some x => x | None => 0 end in
  match c with
  | Some c' => Ok (Some (mkrow d (str_float c') (str_int (int v'))))
  | None => Ok None
  end.

Fixpoint chart_rows (close_prices volumes : list (option Q)) (i : nat)
    (timestamps : list Z) (rows : list row) : result (list row) :=
  match timestamps with
  | [] => Ok rows
  | ts :: timestamps' =>
      let* r := chart_row close_prices volumes i ts in
      chart_rows close_prices volumes (S i) timestamps'
        (match r with Some x => rows ++ [x] | None => rows end)
  end.

(** The loop, the summary printed from the first and last row, and the
    [except Exception] that turns any failure into the empty list. *)
Definition fetch_rows (timestamps : list Z)
    (close_prices volumes : list (option Q)) : list row :=
  match
    (let* rows := chart_rows close_prices volumes 0 timestamps [] in
     let* first := item rows 0 in
     let* _ := getitem first "Date" in
     let* final := last_item rows in
     let* _ := getitem final "Date" in
     let* _ := bind (getitem first "Close") to_float in
     let* _ := bind (getitem final "Close") to_float in
     Ok rows)
  with
  | Ok rows => rows
  | Raise _ => []
  end.

(** The non-null closes among the first [n] of the response. *)
Definition quoted_closes (n : nat) (close_prices : list (option Q)) : list Q :=
  omap id (take n close_prices).

(** A row built by the loop from a non-null close [c]. *)
Definition chart_shape (volumes : list (option Q)) (r : row) (c : Q) : Prop :=
  exists t d v, date_of_timestamp t = Ok d /\ In v volumes /\
    r = mkrow d (str_float c) (str_int (int (default 0 v))).

(** ** The rows of [fetch_alpha_vantage_data]

    What the v3 fetch does with the parsed [response].  The download
    itself is not modelled. *)

(** [sorted(time_series.items())]: the items by date ascending.  The dates
    are the keys of a dict, so no two items compare equal and the values
    are never compared. *)
Fixpoint insert_by_date (x : string * row) (l : list (string * row))
    : list (string * row) :=
  match l with
  | [] => [x]
  | y :: l' =>
      if String.leb x.1 y.1 then x :: l else y :: insert_by_date x l'
  end.

Definition sorted_items (m : gmap string row) : list (string * row) :=
  foldr insert_by_date [] (map_to_list m).

(** The dict appended for one day: [KeyError] when a field is missing. *)
Definition daily_row (item : string * row) : result row :=
  let d := item.1 in
  let values := item.2 in
  let* o := getitem values "1. open" in
  let* h := getitem values "2. high" in
  let* l := getitem values "3. low" in
  let* c := getitem values "4. close" in
  let* v := getitem values "5. volume" in
  Ok (list_to_map [("Date", d); ("Open", o); ("High", h); ("Low", l);
                   ("Close", c); ("Volume", v)]%string).

Definition fetch_daily_rows (data : response) : list row :=
  match error_message data, note data with
  | Some _, _ => []
  | None, Some _ => []
  | None, None =>
      match for_each daily_row (sorted_items (time_series data)) with
      | Ok rows => rows
      | Raise _ => []
      end
  end.

(** The five fields a day of the response must have. *)
Definition complete (values : row) : Prop :=
  is_Some (values !! "1. open"%string) /\ is_Some (values !! "2. high"%string) /\
  is_Some (values !! "3. low"%string) /\ is_Some (values !! "4. close"%string) /\
  is_Some (values !! "5. volume"%string).

Definition date_le (a b : string) : Prop := String.leb a b = true.

(** [e] is the first (the last) entry of [data], in sequence order,
    whose change is numerically [x]. *)
Definition first_with (x : Q) (data : list entry) (e : entry) : Prop :=
  exists i p, data !! i = Some e /\ daily_change_pct e = Some p /\ p == x /\
    forall j e' p', (j < i)%nat -> data !! j = Some e' ->
      daily_change_pct e' = Some p' -> ~ p' == x.

Definition last_with (x : Q) (data : list entry) (e : entry) : Prop :=
  exists i p, data !! i = Some e /\ daily_change_pct e = Some p /\ p == x /\
    forall j e' p', (i < j)%nat -> data !! j = Some e' ->
      daily_change_pct e' = Some p' -> ~ p' == x.

(** ** The pipeline on the store *)

(** The [try] body of [process_data]: [data] refers to the list being
    built, [r] to the row. *)
Definition try_body_st (co : row -> result observation) (data i r : nat)
    : prog unit :=
  let! d := get_row r in
  let! o := lift (co d) in
  let! changes :=
    if (0 <? i)%nat then
      let! items := get_list data in
      let! p := lift (last_item items) in
      let! prev := get_entry p in
      let prev_close := close prev in
      let change := ob_close o - prev_close in
      let! ratio := lift (truediv change prev_close) in
      ret (Some change, Some (ratio * 100))
    else ret (None, None) in
  let! e := alloc (EntryDict (Entry (ob_date o) (ob_close o) (ob_adj_close o)
                                (ob_volume o) changes.1 changes.2)) in
  append data e.

Fixpoint for_rows_st (co : row -> result observation) (data i : nat)
    (rows : list nat) : prog unit :=
  fun h =>
    match rows with
    | [] => (h, Ok tt)
    | r :: rows' =>
        match try_body_st co data i r h with
        | (h', Ok _) => for_rows_st co data (S i) rows' h'
        | (h', Raise ValueError) | (h', Raise KeyError) =>
            for_rows_st co data (S i) rows' h'
        | (h', Raise e) => (h', Raise e)
        end
    end.

(** [process_data(rows)]: [data = []], the loop, and [data = data[1:]],
    a new list, when [data] is not empty. *)
Definition process_rows_st (co : row -> result observation) (rows : nat)
    : prog nat :=
  let! data := alloc (ListObject []) in
  let! items := get_list rows in
  let! _ := for_rows_st co data 0 items in
  let! entries := get_list data in
  match entries with
  | [] => ret data
  | _ :: _ => alloc (ListObject (drop 1 entries))
  end.

Definition process_data_st : nat -> prog nat := process_rows_st coerce.

(** [calculate_statistics(data)] reads the entries; the dict it returns
    holds numbers and texts only. *)
Definition calculate_statistics_st (data : nat) : prog (option statistics) :=
  let! entries := contents data in
  lift (calculate_statistics entries).

(** [sorted(..., reverse=True)] on references: the key of a reference is
    the key of the entry behind it. *)
Fixpoint insert_ref (x : nat * entry) (l : list (nat * entry))
    : list (nat * entry) :=
  match l with
  | [] => [x]
  | y :: l' =>
      if Qle_bool (sort_key y.2) (sort_key x.2) then x :: l
      else y :: insert_ref x l'
  end.

Definition sorted_refs (items : list nat) (entries : list entry) : list nat :=
  (foldr insert_ref [] (zip items entries)).*1.

(** [rank_movements(data, top_n)]: the sorted list, the two slices and
    the reversed slice are new lists of the references of [data]. *)
Definition rank_movements_st (data : nat) (top_n : Z) : prog (nat * nat) :=
  let! items := get_list data in
  let! entries := for_each_prog get_entry items in
  let! sorted_data := alloc (ListObject (sorted_refs items entries)) in
  let! sorted_items := get_list sorted_data in
  let! top_gains := alloc (ListObject (slice_to sorted_items top_n)) in
  let! tail := alloc (ListObject (slice_from sorted_items (- top_n))) in
  let! tail_items := get_list tail in
  let! top_losses := alloc (ListObject (reverse tail_items)) in
  ret (top_gains, top_losses).

(** [main] of the v2 variant on the store, from the reference of the rows
    the fetch returned. *)
Definition main_st (now : string) (rows : nat) : prog run :=
  let! items := get_list rows in
  match items with
  | [] => ret NoRows
  | _ :: _ =>
      let! data := process_data_st rows in
      let! kept := get_list data in
      match kept with
      | [] => ret NoValidData
      | _ :: _ =>
          let! stats := calculate_statistics_st data in
          let! ranked := rank_movements_st data 50 in
          let! _ := lift (stats_item stats max_gain_pct) in
          let! gains := contents ranked.1 in
          let! losses := contents ranked.2 in
          let! entries := contents data in
          let! a := lift (save_results now gains losses entries stats) in
          ret (Saved a)
      end
  end.

(** * Properties *)

Lemma mkrow_lookup d c v :
  mkrow d c v !! "Date"%string = Some d /\
  mkrow d c v !! "Close"%string = Some c /\
  mkrow d c v !! "Volume"%string = Some v /\
  mkrow d c v !! "Adj Close"%string = None.
Proof. by vm_compute. Qed.


(** ** The return calculation *)

Lemma Forall2_normalizes co rows obs :
  Forall2 (fun r o => co r = Ok o) rows obs -> normalizes co rows obs.
Proof. induction 1; eauto using normalizes. Qed.

Lemma truediv_nonzero x y : ~ y == 0 -> truediv x y = Ok (x / y).
Proof.
  intros Hy. unfold truediv.
  destruct (Qeq_bool y 0) eqn:E; [|done].
  apply Qeq_bool_iff in E. contradiction.
Qed.

Lemma truediv_zero x y : y == 0 -> truediv x y = Raise ZeroDivisionError.
Proof.
  intros Hy. unfold truediv. apply Qeq_bool_iff in Hy. by rewrite Hy.
Qed.

Lemma make_entry_first data o :
  make_entry 0 data o =
  Ok (Entry (ob_date o) (ob_close o) (ob_adj_close o) (ob_volume o) None None).
Proof. reflexivity. Qed.

Lemma make_entry_next i data p o :
  (0 < i)%nat -> last data = Some p -> ~ close p == 0 ->
  make_entry i data o = Ok (entry_after (close p) o).
Proof.
  intros Hi Hp Hz. unfold make_entry, last_item.
  destruct i as [|i]; [lia|]. cbn [Nat.ltb Nat.leb].
  rewrite Hp. cbn [bind]. rewrite (truediv_nonzero _ _ Hz). reflexivity.
Qed.

Lemma make_entry_zero i data p o :
  (0 < i)%nat -> last data = Some p -> close p == 0 ->
  make_entry i data o = Raise ZeroDivisionError.
Proof.
  intros Hi Hp Hz. unfold make_entry, last_item.
  destruct i as [|i]; [lia|]. cbn [Nat.ltb Nat.leb].
  rewrite Hp. cbn [bind]. rewrite (truediv_zero _ _ Hz). reflexivity.
Qed.

Lemma make_entry_empty i o :
  (0 < i)%nat -> make_entry i [] o = Raise IndexError.
Proof. destruct i; [lia|]. reflexivity. Qed.

Lemma for_rows_skip co i r rows data e :
  co r = Raise e -> e = ValueError \/ e = KeyError ->
  for_rows co i (r :: rows) data = for_rows co (S i) rows data.
Proof.
  intros Hr He. cbn [for_rows]. unfold try_body. rewrite Hr.
  by destruct He as [-> | ->].
Qed.

(** After the first accepted row the loop appends [entries_after], as long
    as no close that is divided by is zero. *)
Lemma for_rows_entries co rows obs :
  normalizes co rows obs ->
  forall i data p,
    (0 < i)%nat -> last data = Some p -> nonzero_prev (close p) obs ->
    for_rows co i rows data = Ok (data ++ entries_after (close p) obs).
Proof.
  induction 1 as [|r o rows obs Hr _ IH|r e rows obs Hr He _ IH];
    intros i data p Hi Hp Hnz.
  - cbn. by rewrite app_nil_r.
  - destruct Hnz as [Hz Hnz]. cbn [for_rows]. unfold try_body.
    rewrite Hr. cbn [bind]. rewrite (make_entry_next i data p o Hi Hp Hz).
    rewrite (IH (S i) (data ++ [entry_after (close p) o]) (entry_after (close p) o));
      [| lia | apply last_snoc | exact Hnz].
    cbn [entries_after]. by rewrite <- app_assoc.
  - rewrite (for_rows_skip _ _ _ _ _ _ Hr He). apply IH; [lia | done | done].
Qed.

(** ... and it raises at the first observation that follows a zero close. *)
Lemma for_rows_zero co rows obs :
  normalizes co rows obs ->
  forall i data p,
    (0 < i)%nat -> last data = Some p -> zero_prev (close p) obs ->
    for_rows co i rows data = Raise ZeroDivisionError.
Proof.
  induction 1 as [|r o rows obs Hr _ IH|r e rows obs Hr He _ IH];
    intros i data p Hi Hp Hz.
  - destruct Hz.
  - cbn [for_rows]. unfold try_body. rewrite Hr. cbn [bind].
    destruct (Qeq_bool (close p) 0) eqn:E.
    + apply Qeq_bool_iff in E.
      by rewrite (make_entry_zero i data p o Hi Hp E).
    + apply Qeq_bool_neq in E. destruct Hz as [Hz|Hz]; [contradiction|].
      rewrite (make_entry_next i data p o Hi Hp E).
      apply (IH (S i) _ (entry_after (close p) o)); [lia | apply last_snoc | exact Hz].
  - rewrite (for_rows_skip _ _ _ _ _ _ Hr He).
    apply (IH (S i) data p); [lia | done | done].
Qed.

(** With no accepted row so far and a raw index past zero, the first row
    that coerces raises [IndexError]. *)
Lemma for_rows_empty co rows :
  (forall r e, co r = Raise e -> e = ValueError \/ e = KeyError) ->
  forall i, (0 < i)%nat ->
    (exists r o, In r rows /\ co r = Ok o) ->
    for_rows co i rows [] = Raise IndexError.
Proof.
  intros Hco. induction rows as [|r rows IH]; intros i Hi (r' & o & Hin & Hr').
  - destruct Hin.
  - cbn [for_rows]. unfold try_body. destruct (co r) as [o1|e] eqn:Hr.
    + cbn [bind]. by rewrite (make_entry_empty i o1 Hi).
    + cbn [bind]. destruct Hin as [->|Hin]; [congruence|].
      assert (for_rows co (S i) rows [] = Raise IndexError) as IH'
        by (apply IH; [lia | eauto]).
      by destruct (Hco r e Hr) as [-> | ->].
Qed.

Lemma length_entries_after prev obs :
  length (entries_after prev obs) = length obs.
Proof. revert prev. induction obs; intros; cbn; [done|]. by rewrite IHobs. Qed.

Lemma entries_after_lookup o obs i o0 o1 :
  (o :: obs) !! i = Some o0 -> (o :: obs) !! S i = Some o1 ->
  entries_after (ob_close o) obs !! i = Some (entry_after (ob_close o0) o1).
Proof.
  revert o i. induction obs as [|o' obs IH]; intros o i H0 H1.
  - destruct i; discriminate.
  - destruct i as [|i]; cbn in H0, H1 |- *.
    + by inversion H0; inversion H1; subst.
    + by apply IH.
Qed.

Lemma entries_after_set prev obs :
  Forall (fun e => is_Some (daily_change e) /\ is_Some (daily_change_pct e))
    (entries_after prev obs).
Proof.
  revert prev. induction obs; intros; cbn; constructor; eauto.
Qed.

Lemma nonzero_prev_lookup o obs :
  (forall i x, (o :: obs) !! i = Some x -> (S i < length (o :: obs))%nat ->
     ~ ob_close x == 0) ->
  nonzero_prev (ob_close o) obs.
Proof.
  revert o. induction obs as [|o' obs IH]; intros o H; cbn; [done|].
  split.
  - apply (H 0%nat o); [done | cbn; lia].
  - apply IH. intros i x Hx Hi. apply (H (S i) x); [done | cbn in *; lia].
Qed.

Lemma zero_prev_lookup o obs i x :
  (o :: obs) !! i = Some x -> (S i < length (o :: obs))%nat ->
  ob_close x == 0 -> zero_prev (ob_close o) obs.
Proof.
  revert o i. induction obs as [|o' obs IH]; intros o i Hx Hi Hz.
  - cbn in Hi. lia.
  - destruct i as [|i]; cbn in Hx.
    + inversion Hx; subst. by left.
    + right. apply (IH o' i); [done | cbn in *; lia | done].
Qed.

(** [process_rows] on rows whose first row is accepted. *)
Lemma process_rows_entries co r rows o obs :
  co r = Ok o -> normalizes co rows obs -> nonzero_prev (ob_close o) obs ->
  process_rows co (r :: rows) = Ok (entries_after (ob_close o) obs).
Proof.
  intros Hr Hn Hnz. unfold process_rows. cbn [for_rows]. unfold try_body.
  rewrite Hr. cbn [bind]. rewrite make_entry_first. cbn [app].
  set (e0 := Entry _ _ _ _ None None).
  rewrite (for_rows_entries co rows obs Hn 1 [e0] e0); [| lia | done | done].
  reflexivity.
Qed.

Lemma process_rows_zero co r rows o obs :
  co r = Ok o -> normalizes co rows obs -> zero_prev (ob_close o) obs ->
  process_rows co (r :: rows) = Raise ZeroDivisionError.
Proof.
  intros Hr Hn Hz. unfold process_rows. cbn [for_rows]. unfold try_body.
  rewrite Hr. cbn [bind]. rewrite make_entry_first. cbn [app].
  set (e0 := Entry _ _ _ _ None None).
  by rewrite (for_rows_zero co rows obs Hn 1 [e0] e0); [| lia | done | done].
Qed.

Lemma process_rows_rejected co r e rows :
  (forall r e, co r = Raise e -> e = ValueError \/ e = KeyError) ->
  co r = Raise e ->
  (exists r' o, In r' rows /\ co r' = Ok o) ->
  process_rows co (r :: rows) = Raise IndexError.
Proof.
  intros Hco Hr Hex. unfold process_rows.
  rewrite (for_rows_skip _ _ _ _ _ _ Hr (Hco _ _ Hr)).
  by rewrite (for_rows_empty co rows Hco 1); [| lia | done].
Qed.

Lemma coerce_raises r e :
  coerce r = Raise e -> e = ValueError \/ e = KeyError.
Proof.
  unfold coerce, getitem, to_float, get_truthy, bind.
  repeat case_match; intros; simplify_eq; auto.
Qed.

Lemma coerce_REAL_raises r e :
  coerce_REAL r = Raise e -> e = ValueError \/ e = KeyError.
Proof.
  unfold coerce_REAL, getitem, to_float, bind.
  repeat case_match; intros; simplify_eq; auto.
Qed.

(** The return series of any variant, on all-coercible rows none of whose
    closes, the last apart, is zero. *)
Lemma process_rows_returns co rows obs :
  Forall2 (fun r o => co r = Ok o) rows obs ->
  (2 <= length rows)%nat ->
  (forall i o, obs !! i = Some o -> (S i < length obs)%nat ->
     ~ ob_close o == 0) ->
  exists out,
    process_rows co rows = Ok out /\
    length out = (length rows - 1)%nat /\
    (forall i o0 o1, obs !! i = Some o0 -> obs !! S i = Some o1 ->
       exists e, out !! i = Some e /\
         date e = ob_date o1 /\ close e = ob_close o1 /\
         daily_change e = Some (ob_close o1 - ob_close o0) /\
         daily_change_pct e =
           Some ((ob_close o1 - ob_close o0) / ob_close o0 * 100)) /\
    Forall (fun e => is_Some (daily_change e) /\ is_Some (daily_change_pct e))
      out.
Proof.
  intros Hco Hlen Hnz.
  destruct Hco as [|r o rows obs Hr Hco]; [cbn in Hlen; lia|].
  exists (entries_after (ob_close o) obs). split; [|split; [|split]].
  - apply process_rows_entries;
      [done | by apply Forall2_normalizes | by apply nonzero_prev_lookup].
  - rewrite length_entries_after. apply Forall2_length in Hco. cbn. lia.
  - intros i o0 o1 H0 H1. exists (entry_after (ob_close o0) o1).
    split; [by apply entries_after_lookup | done].
  - apply entries_after_set.
Qed.

(** C1 (amended): for every all-coercible sequence of [L >= 2] rows in
    which no close other than the last is zero, [process_data] returns a
    sequence of length [L - 1]; its element [i] carries the date and close
    of row [i + 1], has [absolute_change = close[i+1] - close[i]] and
    [percent_change = (close[i+1] - close[i]) / close[i] * 100], and no
    element of the output has an unset change. *)
Theorem process_data_returns rows obs :
  Forall2 (fun r o => coerce r = Ok o) rows obs ->
  (2 <= length rows)%nat ->
  (forall i o, obs !! i = Some o -> (S i < length obs)%nat ->
     ~ ob_close o == 0) ->
  exists out,
    process_data rows = Ok out /\
    length out = (length rows - 1)%nat /\
    (forall i o0 o1, obs !! i = Some o0 -> obs !! S i = Some o1 ->
       exists e, out !! i = Some e /\
         date e = ob_date o1 /\ close e = ob_close o1 /\
         daily_change e = Some (ob_close o1 - ob_close o0) /\
         daily_change_pct e =
           Some ((ob_close o1 - ob_close o0) / ob_close o0 * 100)) /\
    Forall (fun e => is_Some (daily_change e) /\ is_Some (daily_change_pct e))
      out.
Proof. apply process_rows_returns. Qed.

(** The same for the REAL variant. *)
Lemma process_data_REAL_returns rows obs :
  Forall2 (fun r o => coerce_REAL r = Ok o) rows obs ->
  (2 <= length rows)%nat ->
  (forall i o, obs !! i = Some o -> (S i < length obs)%nat ->
     ~ ob_close o == 0) ->
  exists out,
    process_data_REAL rows = Ok out /\
    length out = (length rows - 1)%nat /\
    (forall i o0 o1, obs !! i = Some o0 -> obs !! S i = Some o1 ->
       exists e, out !! i = Some e /\
         date e = ob_date o1 /\ close e = ob_close o1 /\
         daily_change e = Some (ob_close o1 - ob_close o0) /\
         daily_change_pct e =
           Some ((ob_close o1 - ob_close o0) / ob_close o0 * 100)) /\
    Forall (fun e => is_Some (daily_change e) /\ is_Some (daily_change_pct e))
      out.
Proof. apply process_rows_returns. Qed.

(** C8 (amended): when the first row is accepted, every later row is
    accepted or rejected, and some accepted observation other than the last
    has a zero
    close (it is the previous close of the next one), [process_data]
    raises [ZeroDivisionError]: the exception is not among those the loop
    catches, it leaves the function, and no data (hence no percentage,
    infinite or other) is returned; [main] is left by the same exception
    and writes no report.  When the first raw row is rejected the run does
    not get that far ([process_data_first_row_rejected]). *)
Theorem process_data_zero_previous_close now r rows o obs i x :
  coerce r = Ok o -> normalizes coerce rows obs ->
  (o :: obs) !! i = Some x -> (S i < length (o :: obs))%nat ->
  ob_close x == 0 ->
  process_data (r :: rows) = Raise ZeroDivisionError /\
  main now (r :: rows) = Raise ZeroDivisionError.
Proof.
  intros Hr Hn Hx Hi Hz.
  assert (process_data (r :: rows) = Raise ZeroDivisionError) as H.
  { apply (process_rows_zero coerce r rows o obs Hr Hn).
    by apply (zero_prev_lookup o obs i x). }
  split; [exact H|]. unfold main. by rewrite H.
Qed.

(** The same for the REAL variant. *)
Lemma process_data_REAL_zero_previous_close r rows o obs i x :
  coerce_REAL r = Ok o -> normalizes coerce_REAL rows obs ->
  (o :: obs) !! i = Some x -> (S i < length (o :: obs))%nat ->
  ob_close x == 0 ->
  process_data_REAL (r :: rows) = Raise ZeroDivisionError.
Proof.
  intros Hr Hn Hx Hi Hz.
  apply (process_rows_zero coerce_REAL r rows o obs Hr Hn).
  by apply (zero_prev_lookup o obs i x).
Qed.

(** Whenever the first raw row is rejected and a later one coerces, the
    previous-close lookup fails on the empty [data]. *)
Lemma process_data_first_row_rejected r e rows :
  coerce r = Raise e ->
  (exists r' o, In r' rows /\ coerce r' = Ok o) ->
  process_data (r :: rows) = Raise IndexError.
Proof. apply process_rows_rejected, coerce_raises. Qed.

Lemma process_data_REAL_first_row_rejected r e rows :
  coerce_REAL r = Raise e ->
  (exists r' o, In r' rows /\ coerce_REAL r' = Ok o) ->
  process_data_REAL (r :: rows) = Raise IndexError.
Proof. apply process_rows_rejected, coerce_REAL_raises. Qed.

(** ** The ranking *)

Lemma Qle_bool_false x y : Qle_bool x y = false -> y < x.
Proof.
  intros H. apply Qnot_le_lt. intros Hle.
  apply Qle_bool_iff in Hle. congruence.
Qed.

Lemma insert_desc_perm x l : insert_desc x l ≡ₚ x :: l.
Proof.
  induction l as [|y l IH]; cbn; [done|].
  destruct (Qle_bool _ _); [done|]. rewrite IH. apply Permutation_swap.
Qed.

Lemma sorted_reverse_perm data : sorted_reverse data ≡ₚ data.
Proof.
  induction data as [|x data IH]; cbn; [done|].
  rewrite insert_desc_perm. by rewrite IH.
Qed.

Lemma length_sorted_reverse data :
  length (sorted_reverse data) = length data.
Proof. apply Permutation_length, sorted_reverse_perm. Qed.

Lemma insert_desc_sorted x l :
  StronglySorted pct_ge l -> StronglySorted pct_ge (insert_desc x l).
Proof.
  induction 1 as [|y l Hl IH Hy]; cbn.
  - repeat constructor.
  - destruct (Qle_bool (sort_key y) (sort_key x)) eqn:E.
    + apply Qle_bool_iff in E. constructor; [by constructor|].
      constructor; [exact E|].
      eapply Forall_impl; [exact Hy|]. intros z Hz. unfold pct_ge in *.
      by eapply Qle_trans.
    + apply Qle_bool_false in E. constructor; [exact IH|].
      rewrite insert_desc_perm. constructor; [|exact Hy].
      unfold pct_ge. by apply Qlt_le_weak.
Qed.

Lemma sorted_reverse_sorted data :
  StronglySorted pct_ge (sorted_reverse data).
Proof.
  induction data; cbn; [constructor | by apply insert_desc_sorted].
Qed.

Lemma StronglySorted_reverse l :
  StronglySorted pct_ge l -> StronglySorted pct_le (reverse l).
Proof.
  induction 1 as [|y l Hl IH Hy]; [constructor|].
  rewrite reverse_cons. apply StronglySorted_app_2; [|done|repeat constructor].
  intros x1 x2 H1 H2. apply list_elem_of_singleton in H2 as ->.
  rewrite elem_of_reverse in H1. rewrite Forall_forall in Hy. by apply Hy.
Qed.

(** Stability: every tie group keeps the order it has in [data]. *)
Lemma insert_desc_tied k x l :
  List.filter (tied k) (insert_desc x l) = List.filter (tied k) (x :: l).
Proof.
  induction l as [|y l IH]; [done|]. cbn [insert_desc].
  destruct (Qle_bool (sort_key y) (sort_key x)) eqn:E; [done|].
  apply Qle_bool_false in E.
  cbn [List.filter] in *. rewrite IH. unfold tied.
  destruct (Qeq_bool (sort_key y) k) eqn:Ey; [|done].
  destruct (Qeq_bool (sort_key x) k) eqn:Ex; [|done].
  apply Qeq_bool_iff in Ex, Ey. rewrite Ex, Ey in E.
  by apply Qlt_irrefl in E.
Qed.

Lemma sorted_reverse_stable k data :
  List.filter (tied k) (sorted_reverse data) = List.filter (tied k) data.
Proof.
  induction data as [|x data IH]; [done|]. cbn [sorted_reverse foldr].
  rewrite insert_desc_tied. cbn [List.filter].
  fold (sorted_reverse data). by rewrite IH.
Qed.

(** Sortedness and stability determine the result: whatever algorithm
    Python's [sorted] runs, a list that is sorted by key descending and
    keeps every tie group in the order of [data] is [sorted_reverse data]. *)
Lemma stable_sorted_unique l1 l2 :
  StronglySorted pct_ge l1 -> StronglySorted pct_ge l2 ->
  (forall k, List.filter (tied k) l1 = List.filter (tied k) l2) ->
  l1 = l2.
Proof.
  intros H1. revert l2.
  induction H1 as [|x l1 Hs1 IH Hx]; intros l2 H2 Hf.
  - destruct l2 as [|y l2]; [done|]. specialize (Hf (sort_key y)).
    cbn in Hf. unfold tied at 1 in Hf. by rewrite Qeq_bool_refl in Hf.
  - destruct H2 as [|y l2 Hs2 Hy].
    { specialize (Hf (sort_key x)). cbn in Hf. unfold tied at 1 in Hf.
      by rewrite Qeq_bool_refl in Hf. }
    assert (sort_key y <= sort_key x) as Hyx.
    { assert (In y (x :: l1)) as [->|Hin].
      - eapply (proj1 (filter_In (tied (sort_key y)) y (x :: l1))).
        rewrite Hf. cbn. unfold tied at 1. rewrite Qeq_bool_refl. by left.
      - apply Qle_refl.
      - rewrite Forall_forall in Hx. by apply Hx, list_elem_of_In. }
    assert (sort_key x <= sort_key y) as Hxy.
    { assert (In x (y :: l2)) as [->|Hin].
      - eapply (proj1 (filter_In (tied (sort_key x)) x (y :: l2))).
        rewrite <- Hf. cbn. unfold tied at 1. rewrite Qeq_bool_refl. by left.
      - apply Qle_refl.
      - rewrite Forall_forall in Hy. by apply Hy, list_elem_of_In. }
    assert (x = y) as <-.
    { assert (tied (sort_key x) x = true) as Ex by apply Qeq_bool_refl.
      assert (tied (sort_key x) y = true) as Ey
        by (apply Qeq_bool_iff, Qle_antisym; done).
      pose proof (Hf (sort_key x)) as H. cbn [List.filter] in H.
      rewrite Ex, Ey in H. by inversion H. }
    f_equal. apply IH; [done|]. intros k. specialize (Hf k). cbn in Hf.
    destruct (tied k x); [by inversion Hf | done].
Qed.

Lemma sorted_reverse_unique data l :
  StronglySorted pct_ge l ->
  (forall k, List.filter (tied k) l = List.filter (tied k) data) ->
  l = sorted_reverse data.
Proof.
  intros Hs Hf. apply stable_sorted_unique;
    [done | apply sorted_reverse_sorted |].
  intros k. by rewrite sorted_reverse_stable.
Qed.


Lemma slice_to_prefix {A : Type} (l : list A) n :
  exists rest, l = slice_to l n ++ rest.
Proof.
  unfold slice_to. destruct (0 <=? n)%Z; eexists; symmetry; apply take_drop.
Qed.

Lemma slice_from_suffix {A : Type} (l : list A) n :
  exists rest, l = rest ++ slice_from l n.
Proof.
  unfold slice_from. destruct (0 <=? n)%Z; eexists; symmetry; apply take_drop.
Qed.

(** The ranking for a positive count. *)
Lemma rank_movements_sorted data top_n :
  (0 < top_n)%Z ->
  StronglySorted pct_ge (rank_movements data top_n).1 /\
  StronglySorted pct_le (rank_movements data top_n).2 /\
  length (rank_movements data top_n).1 = (Z.to_nat top_n `min` length data)%nat /\
  length (rank_movements data top_n).2 = (Z.to_nat top_n `min` length data)%nat.
Proof.
  intros Hn. unfold rank_movements. cbn [fst snd].
  pose proof (sorted_reverse_sorted data) as Hs.
  pose proof (length_sorted_reverse data) as Hlen.
  destruct (slice_to_prefix (sorted_reverse data) top_n) as [r1 H1].
  destruct (slice_from_suffix (sorted_reverse data) (- top_n)) as [r2 H2].
  split; [|split; [|split]].
  - rewrite H1 in Hs. by apply StronglySorted_app_1_l in Hs.
  - apply StronglySorted_reverse. rewrite H2 in Hs.
    by apply StronglySorted_app_1_r in Hs.
  - unfold slice_to. destruct (0 <=? top_n)%Z eqn:E; [|lia].
    by rewrite length_take, Hlen.
  - rewrite length_reverse. unfold slice_from.
    destruct (0 <=? - top_n)%Z eqn:E; [lia|].
    rewrite length_drop, Hlen. replace (- - top_n)%Z with top_n by lia. lia.
Qed.

(** C2 (the code at the failing count): with [top_n = 0] the slice
    [sorted_data[-0:]] is the whole list, so [top_losses] is every entry,
    worst first, and its length is [len(data)], not [min(0, len(data))];
    [top_gains] is empty. *)
Theorem rank_movements_zero_count data :
  (rank_movements data 0).1 = [] /\
  (rank_movements data 0).2 = reverse (sorted_reverse data) /\
  length (rank_movements data 0).2 = length data.
Proof.
  unfold rank_movements, slice_to, slice_from.
  change (- 0)%Z with 0%Z. change (0 <=? 0)%Z with true.
  change (Z.to_nat 0) with 0%nat. cbn [fst snd]. rewrite take_0, drop_0.
  split; [done | split; [done|]].
  by rewrite length_reverse, length_sorted_reverse.
Qed.


(** ** The statistics *)

Lemma max_of_cons x y l :
  max_of x (y :: l) = max_of (if Qle_bool y x then x else y) l.
Proof. reflexivity. Qed.

Lemma min_of_cons x y l :
  min_of x (y :: l) = min_of (if Qle_bool x y then x else y) l.
Proof. reflexivity. Qed.

Lemma max_of_spec x l :
  (max_of x l = x \/ In (max_of x l) l) /\
  x <= max_of x l /\ Forall (fun y => y <= max_of x l) l.
Proof.
  revert x. induction l as [|y l IH]; intros x.
  - split; [by left | split; [apply Qle_refl | constructor]].
  - rewrite max_of_cons. destruct (Qle_bool y x) eqn:E.
    + apply Qle_bool_iff in E. destruct (IH x) as (Hin & Hx & Hl).
      split; [destruct Hin; [by left | by right; right]|].
      split; [done|]. constructor; [|done]. by eapply Qle_trans.
    + apply Qle_bool_false in E. destruct (IH y) as (Hin & Hy & Hl).
      split; [right; destruct Hin; [by left | by right]|].
      split; [|by constructor].
      eapply Qle_trans; [apply Qlt_le_weak, E | done].
Qed.

Lemma min_of_spec x l :
  (min_of x l = x \/ In (min_of x l) l) /\
  min_of x l <= x /\ Forall (fun y => min_of x l <= y) l.
Proof.
  revert x. induction l as [|y l IH]; intros x.
  - split; [by left | split; [apply Qle_refl | constructor]].
  - rewrite min_of_cons. destruct (Qle_bool x y) eqn:E.
    + apply Qle_bool_iff in E. destruct (IH x) as (Hin & Hx & Hl).
      split; [destruct Hin; [by left | by right; right]|].
      split; [done|]. constructor; [|done]. by eapply Qle_trans.
    + apply Qle_bool_false in E. destruct (IH y) as (Hin & Hy & Hl).
      split; [right; destruct Hin; [by left | by right]|].
      split; [|by constructor].
      eapply Qle_trans; [done | apply Qlt_le_weak, E].
Qed.

Lemma len_nonzero {A : Type} (x : A) (l : list A) : ~ len (x :: l) == 0.
Proof.
  unfold len. change 0 with (inject_Z 0). rewrite inject_Z_injective.
  cbn [length]. lia.
Qed.

(** [next] returns the first entry, in sequence order, that passes. *)
Lemma find_first {A : Type} (f : A -> bool) (l : list A) (x : A) :
  List.find f l = Some x ->
  exists i, l !! i = Some x /\ f x = true /\
    forall j y, (j < i)%nat -> l !! j = Some y -> f y = false.
Proof.
  induction l as [|a l IH]; [discriminate|]. cbn [List.find].
  destruct (f a) eqn:Ea.
  - intros [= ->]. exists 0%nat. split; [done | split; [done|]]. lia.
  - intros H. destruct (IH H) as (i & Hi & Hx & Hbefore).
    exists (S i). split; [done | split; [done|]].
    intros [|j] y Hj Hy; cbn in Hy; [by inversion Hy; subst|].
    apply (Hbefore j); [lia | done].
Qed.

Lemma next_date_first x data :
  (exists e, In e data /\ daily_change_pct e = Some x) ->
  exists i e, next_date x data = Ok (date e) /\ data !! i = Some e /\
    pct_is x e = true /\
    forall j e', (j < i)%nat -> data !! j = Some e' -> pct_is x e' = false.
Proof.
  intros (e & Hin & He). unfold next_date.
  destruct (List.find (pct_is x) data) as [d|] eqn:E.
  - destruct (find_first _ _ _ E) as (i & Hi & Hd & Hbefore). by exists i, d.
  - apply (find_none _ _ E) in Hin. unfold pct_is in Hin. rewrite He in Hin.
    by rewrite Qeq_bool_refl in Hin.
Qed.

Lemma In_omap_pct data p :
  In p (omap daily_change_pct data) <->
  exists e, In e data /\ daily_change_pct e = Some p.
Proof.
  rewrite <- list_elem_of_In, list_elem_of_omap.
  by setoid_rewrite list_elem_of_In.
Qed.

(** What [calculate_statistics] returns as soon as one change is set. *)
Lemma calculate_statistics_some data c cs :
  omap daily_change_pct data = c :: cs ->
  exists gain_date loss_date avg,
    calculate_statistics data =
    Ok (Some (Statistics (max_of c cs) gain_date (min_of c cs) loss_date avg
                (pow_half (sum ((fun x => (x - avg) ^ 2) <$> (c :: cs))
                           / len (c :: cs)))
                (length (c :: cs)))) /\
    next_date (max_of c cs) data = Ok gain_date /\
    next_date (min_of c cs) data = Ok loss_date /\
    avg = sum (c :: cs) / len (c :: cs).
Proof.
  intros Hc. unfold calculate_statistics. rewrite Hc.
  rewrite !(truediv_nonzero _ _ (len_nonzero c cs)). cbn [bind].
  rewrite !(truediv_nonzero _ _ (len_nonzero c cs)). cbn [bind].
  assert (forall x, In x (c :: cs) -> exists d, next_date x data = Ok d)
    as Hnext.
  { intros x Hx. rewrite <- Hc in Hx. apply In_omap_pct in Hx.
    destruct (next_date_first x data Hx) as (i & e & -> & _). eauto. }
  destruct (Hnext (max_of c cs)) as [gd Hgd].
  { destruct (max_of_spec c cs) as ([->|H] & _); [by left | by right]. }
  destruct (Hnext (min_of c cs)) as [ld Hld].
  { destruct (min_of_spec c cs) as ([->|H] & _); [by left | by right]. }
  rewrite Hgd, Hld. cbn [bind]. by exists gd, ld, (sum (c :: cs) / len (c :: cs)).
Qed.

(** ** Sigma and the report *)

Lemma movement_REAL_zero_std mean std_dev d :
  std_dev == 0 -> is_Some (daily_change_pct d) ->
  movement_REAL mean std_dev d = Raise ZeroDivisionError.
Proof.
  intros Hz [p Hp]. unfold movement_REAL, calculate_sigma.
  rewrite Hp. cbn [bind]. by rewrite (truediv_zero _ _ Hz).
Qed.

Lemma for_each_zero_std mean std_dev l :
  std_dev == 0 -> l <> [] ->
  Forall (fun e => is_Some (daily_change_pct e)) l ->
  for_each (movement_REAL mean std_dev) l = Raise ZeroDivisionError.
Proof.
  intros Hz Hne Hset. destruct l as [|d l]; [done|].
  apply Forall_cons in Hset as [Hd _]. cbn [for_each].
  by rewrite (movement_REAL_zero_std _ _ _ Hz Hd).
Qed.

(** C3 (amended): when [std_dev_pct] is zero and there is at least one
    ranked movement (each with its change set), [calculate_sigma] raises
    [ZeroDivisionError], which [save_results] does not catch: the call is
    left by the exception and no report is produced, so no sigma, be it
    infinite, NaN or a substituted number, is ever reported. *)
Theorem save_results_REAL_zero_std now gains losses data s :
  volatility_std s == 0 ->
  gains ++ losses <> [] ->
  Forall (fun e => is_Some (daily_change_pct e)) (gains ++ losses) ->
  save_results_REAL now gains losses data (Some s) = Raise ZeroDivisionError.
Proof.
  intros Hz Hne Hset. apply Forall_app in Hset as [Hg Hl].
  unfold save_results_REAL. cbn [stats_item bind].
  destruct gains as [|g gains].
  - cbn [for_each bind]. by rewrite for_each_zero_std.
  - by rewrite for_each_zero_std.
Qed.

(** In [main] the same division already stops the run where the summary
    is printed. *)
Lemma main_REAL_zero_std now rows data s :
  process_data_REAL rows = Ok data -> data <> [] ->
  calculate_statistics data = Ok (Some s) ->
  volatility_std s == 0 ->
  main_REAL now rows = Raise ZeroDivisionError.
Proof.
  intros Hdata Hne Hs Hz. unfold main_REAL.
  destruct rows as [|r rows]; [by inversion Hdata; subst|].
  rewrite Hdata. cbn [bind]. destruct data as [|d data]; [done|].
  rewrite Hs. cbn [bind stats_item].
  destruct (sorted_reverse (d :: data)) as [|x l] eqn:E.
  { apply (f_equal length) in E. by rewrite length_sorted_reverse in E. }
  unfold rank_movements. rewrite E. cbn [fst].
  change (slice_to (slice_to (x :: l) 50) 10)
    with (x :: take 9 (take 49 l)).
  cbn [for_each]. unfold display_sigma, calculate_sigma.
  cbn [stats_item bind]. by rewrite (truediv_zero _ _ Hz).
Qed.

Lemma last_entries_after prev obs :
  date <$> last (entries_after prev obs) = ob_date <$> last obs.
Proof.
  revert prev. induction obs as [|o obs IH]; intros prev; [done|].
  destruct obs as [|o' obs]; [done|].
  cbn [entries_after]. rewrite !last_cons_cons. apply (IH (ob_close o)).
Qed.

Lemma nonzero_or_zero prev obs :
  nonzero_prev prev obs \/ zero_prev prev obs.
Proof.
  revert prev. induction obs as [|o obs IH]; intros prev; cbn; [by left|].
  destruct (Qeq_dec prev 0) as [Hz|Hz]; [by right; left|].
  destruct (IH (ob_close o)); [by left | by right; right].
Qed.

(** A successful return on all-coercible rows is the series of changes
    from the second row on. *)
Lemma process_rows_ok co r rows o obs data :
  co r = Ok o -> Forall2 (fun r o => co r = Ok o) rows obs ->
  process_rows co (r :: rows) = Ok data ->
  data = entries_after (ob_close o) obs.
Proof.
  intros Hr Hco Hdata. apply Forall2_normalizes in Hco.
  destruct (nonzero_or_zero (ob_close o) obs) as [H|H].
  - rewrite (process_rows_entries co r rows o obs Hr Hco H) in Hdata.
    by inversion Hdata.
  - by rewrite (process_rows_zero co r rows o obs Hr Hco H) in Hdata.
Qed.

Lemma period_of_entries o0 o1 obs on :
  last (o0 :: o1 :: obs) = Some on ->
  first_date (entries_after (ob_close o0) (o1 :: obs)) = ob_date o1 /\
  last_date (entries_after (ob_close o0) (o1 :: obs)) = ob_date on.
Proof.
  intros Hlast. split; [done|]. unfold last_date.
  pose proof (last_entries_after (ob_close o0) (o1 :: obs)) as H.
  rewrite last_cons_cons in Hlast. rewrite Hlast in H.
  destruct (last (entries_after _ _)); by inversion H.
Qed.

Lemma save_results_REAL_period now gains losses data stats a :
  save_results_REAL now gains losses data stats = Ok a ->
  period_start (json a) = first_date data /\
  period_end (json a) = last_date data.
Proof.
  unfold save_results_REAL, bind. repeat case_match; try discriminate.
  by intros [= <-].
Qed.

Lemma save_results_period now gains losses data stats a :
  save_results now gains losses data stats = Ok a ->
  period_start (json a) = first_date data /\
  period_end (json a) = last_date data.
Proof. unfold save_results. by intros [= <-]. Qed.

(** ** Empty input *)

(** C5 (amended): on a sequence with zero elements [calculate_statistics]
    does not fail, it returns the empty statistics dict.  The run is halted
    before that: when [process_data] yields no element, [main] ends through
    one of its two early returns (after an error message), so neither
    [calculate_statistics] nor [rank_movements] nor [save_results] is
    called and no report is written. *)
Theorem empty_input_halts now rows :
  process_data rows = Ok [] ->
  calculate_statistics [] = Ok None /\
  (main now rows = Ok NoRows \/ main now rows = Ok NoValidData).
Proof.
  intros Hdata. split; [done|]. unfold main.
  destruct rows; [by left|]. rewrite Hdata. by right.
Qed.

Lemma main_saved_nonempty now rows a :
  main now rows = Ok (Saved a) ->
  exists d data, process_data rows = Ok (d :: data).
Proof.
  unfold main. destruct rows; [discriminate|].
  destruct (process_data _) as [[|d data]|]; [discriminate| |discriminate].
  eauto.
Qed.

(** ** Determinism *)

(** The clock reading enters the report only as [analysis_date]. *)
Lemma main_deterministic now1 now2 rows :
  result_map content (main now1 rows) = result_map content (main now2 rows).
Proof.
  unfold main. destruct rows as [|r rows]; [done|].
  destruct (process_data (r :: rows)) as [[|d data]|]; [done| |done].
  cbn [bind]. destruct (calculate_statistics (d :: data)) as [[s|]|]; done.
Qed.

Lemma main_REAL_deterministic now1 now2 rows :
  result_map content (main_REAL now1 rows) =
  result_map content (main_REAL now2 rows).
Proof.
  unfold main_REAL. destruct rows as [|r rows]; [done|].
  destruct (process_data_REAL (r :: rows)) as [[|d data]|]; [done| |done].
  cbn [bind]. destruct (calculate_statistics (d :: data)) as [[s|]|];
    [|done|done].
  cbn [stats_item bind].
  destruct (for_each _ (slice_to (rank_movements (d :: data) 50).1 10));
    [|done].
  cbn [bind].
  destruct (for_each _ (slice_to (rank_movements (d :: data) 50).2 10));
    [|done].
  cbn [bind]. unfold save_results_REAL. cbn [stats_item bind].
  destruct (for_each _ (rank_movements (d :: data) 50).1); [|done].
  cbn [bind].
  destruct (for_each _ (rank_movements (d :: data) 50).2); done.
Qed.

(** ** Recovery from rejected rows is not total *)

(** C10: there is an input whose first raw row fails coercion (its close
    is a text [float] rejects) and whose second row parses, on which
    [process_data] raises [IndexError] in both variants: the previous-close
    lookup [data[-1]] is guarded by the raw index, [data] is still empty,
    and [IndexError] is not among the exceptions the loop catches. *)
Theorem process_data_index_error bad good x :
  float bad = None -> float good = Some x ->
  exists r r' o,
    coerce r = Raise ValueError /\ coerce r' = Ok o /\
    process_data [r; r'] = Raise IndexError /\
    process_data_REAL [r; r'] = Raise IndexError.
Proof.
  intros Hbad Hgood.
  destruct (mkrow_lookup "d0" bad good) as (Hd0 & Hc0 & Hv0 & Ha0).
  destruct (mkrow_lookup "d1" good good) as (Hd1 & Hc1 & Hv1 & Ha1).
  assert (coerce (mkrow "d0" bad good) = Raise ValueError) as Hr.
  { unfold coerce, getitem, to_float. rewrite Hd0, Hc0. cbn [bind].
    by rewrite Hbad. }
  assert (coerce_REAL (mkrow "d0" bad good) = Raise ValueError) as HrR.
  { unfold coerce_REAL, getitem, to_float. rewrite Hd0, Hc0. cbn [bind].
    by rewrite Hbad. }
  assert (exists o, coerce (mkrow "d1" good good) = Ok o) as [o Ho].
  { unfold coerce, getitem, to_float, get_truthy. rewrite Hd1, Hc1, Hv1, Ha1.
    cbn [bind]. rewrite Hgood. cbn [bind].
    destruct (negb (good =? "")%string); [|eauto].
    destruct (negb (good =? "null")%string); eauto. }
  assert (exists o, coerce_REAL (mkrow "d1" good good) = Ok o) as [oR HoR].
  { unfold coerce_REAL, getitem, to_float. rewrite Hd1, Hc1, Hv1.
    cbn [bind]. rewrite Hgood. cbn [bind]. eauto. }
  exists (mkrow "d0" bad good), (mkrow "d1" good good), o.
  split; [done | split; [done | split]].
  - apply (process_data_first_row_rejected _ _ _ Hr).
    exists (mkrow "d1" good good), o. split; [by left | done].
  - apply (process_data_REAL_first_row_rejected _ _ _ HrR).
    exists (mkrow "d1" good good), oR. split; [by left | done].
Qed.

(** ** More on the return calculation *)

Lemma coerce_v3_raises r e :
  coerce_v3 r = Raise e -> e = ValueError \/ e = KeyError.
Proof.
  unfold coerce_v3, getitem, to_float, get_truthy, bind.
  repeat case_match; intros; simplify_eq; auto.
Qed.

Lemma make_entry_raises i data o e :
  make_entry i data o = Raise e -> e = IndexError \/ e = ZeroDivisionError.
Proof.
  unfold make_entry, last_item, truediv, bind.
  repeat case_match; intros; simplify_eq; auto.
Qed.

Section Variant.

(** A coercion whose only exceptions are the two the loop catches. *)
Variable co : row -> result observation.
Hypothesis co_raises :
  forall r e, co r = Raise e -> e = ValueError \/ e = KeyError.

Lemma for_rows_raises rows :
  forall i data e, for_rows co i rows data = Raise e ->
    e = IndexError \/ e = ZeroDivisionError.
Proof.
  induction rows as [|r rows IH]; intros i data e; [discriminate|].
  cbn [for_rows]. unfold try_body. destruct (co r) as [o|e0] eqn:Hr.
  - cbn [bind]. destruct (make_entry i data o) as [e1|e1] eqn:He; [apply IH|].
    destruct (make_entry_raises _ _ _ _ He) as [-> | ->]; intros [= <-]; auto.
  - cbn [bind]. destruct (co_raises _ _ Hr) as [-> | ->]; apply IH.
Qed.

Lemma accepted_cons r rows :
  accepted co (r :: rows) =
  match co r with
  | Ok o => o :: accepted co rows
  | Raise _ => accepted co rows
  end.
Proof. unfold accepted. cbn. by destruct (co r). Qed.

Lemma normalizes_accepted rows : normalizes co rows (accepted co rows).
Proof.
  induction rows as [|r rows IH]; [constructor|]. unfold accepted. cbn.
  destruct (co r) as [o|e] eqn:Hr; cbn.
  - by apply normalizes_ok.
  - eapply normalizes_skip; eauto.
Qed.

Lemma accepted_filter rows :
  accepted co (List.filter (fun r => is_ok (co r)) rows) = accepted co rows.
Proof.
  induction rows as [|r rows IH]; [done|]. cbn [List.filter].
  destruct (co r) as [o|e] eqn:Hr; cbn [is_ok].
  - unfold accepted in *. cbn. rewrite Hr. cbn. by rewrite IH.
  - unfold accepted in *. cbn. by rewrite Hr.
Qed.

Lemma accepted_nil_rejected rows r :
  accepted co rows = [] -> In r rows -> exists e, co r = Raise e.
Proof.
  induction rows as [|r' rows IH]; [done|]. unfold accepted. cbn.
  destruct (co r') as [o|e] eqn:Hr; cbn; [discriminate|].
  intros Hacc [<-|Hin]; [eauto | by apply IH].
Qed.

Lemma accepted_cons_In rows o obs :
  accepted co rows = o :: obs -> exists r, In r rows /\ co r = Ok o.
Proof.
  induction rows as [|r rows IH]; [done|]. unfold accepted. cbn.
  destruct (co r) as [o'|e] eqn:Hr; cbn.
  - intros [= -> _]. exists r. split; [by left | done].
  - intros H. destruct (IH H) as (r' & Hin & Hr'). exists r'.
    split; [by right | done].
Qed.

Lemma for_rows_all_rejected rows :
  accepted co rows = [] ->
  forall i data, for_rows co i rows data = Ok data.
Proof.
  induction rows as [|r rows IH]; [done|]. intros Hacc i data.
  unfold accepted in Hacc. cbn in Hacc.
  destruct (co r) as [o|e] eqn:Hr; cbn in Hacc; [discriminate|].
  rewrite (for_rows_skip _ _ _ _ _ _ Hr (co_raises _ _ Hr)). by apply IH.
Qed.

(** Every way [process_rows] can end, read off the accepted rows. *)
Lemma process_rows_cases rows :
  match rows with
  | [] => process_rows co rows = Ok []
  | r :: rows' =>
      match co r, accepted co rows' with
      | Ok o, obs =>
          (nonzero_prev (ob_close o) obs /\
           process_rows co rows = Ok (entries_after (ob_close o) obs)) \/
          (zero_prev (ob_close o) obs /\
           process_rows co rows = Raise ZeroDivisionError)
      | Raise _, [] => process_rows co rows = Ok []
      | Raise _, _ :: _ => process_rows co rows = Raise IndexError
      end
  end.
Proof.
  destruct rows as [|r rows]; [done|].
  destruct (co r) as [o|e] eqn:Hr.
  - pose proof (normalizes_accepted rows) as Hn.
    destruct (nonzero_or_zero (ob_close o) (accepted co rows)) as [H|H].
    + left. split; [done|]. by apply process_rows_entries.
    + right. split; [done|]. by eapply process_rows_zero.
  - destruct (accepted co rows) as [|o obs] eqn:Hacc.
    + unfold process_rows.
      rewrite (for_rows_skip _ _ _ _ _ _ Hr (co_raises _ _ Hr)).
      by rewrite (for_rows_all_rejected rows Hacc).
    + eapply process_rows_rejected; [exact co_raises | exact Hr |].
      destruct (accepted_cons_In _ _ _ Hacc) as (r' & Hin & Hr'). eauto.
Qed.

Lemma process_rows_ok_inv rows out :
  process_rows co rows = Ok out ->
  (accepted co rows = [] /\ out = []) \/
  (exists o obs, accepted co rows = o :: obs /\
     nonzero_prev (ob_close o) obs /\ out = entries_after (ob_close o) obs).
Proof.
  intros Hout. pose proof (process_rows_cases rows) as H.
  destruct rows as [|r rows]; [left; by inversion Hout|].
  rewrite accepted_cons. destruct (co r) as [o|e] eqn:Hr.
  - right. exists o, (accepted co rows).
    destruct H as [[Hnz H]|[_ H]]; rewrite H in Hout; [|discriminate].
    by inversion Hout.
  - destruct (accepted co rows) as [|o obs]; rewrite H in Hout;
      [|discriminate].
    left. by inversion Hout.
Qed.

Lemma process_rows_set rows out :
  process_rows co rows = Ok out ->
  Forall (fun e => is_Some (daily_change e) /\ is_Some (daily_change_pct e))
    out.
Proof.
  intros H. destruct (process_rows_ok_inv rows out H)
    as [[_ ->]|(o & obs & _ & _ & ->)]; [constructor | apply entries_after_set].
Qed.

Lemma process_rows_skips r o rows :
  co r = Ok o ->
  process_rows co (r :: rows) =
  process_rows co (r :: List.filter (fun r' => is_ok (co r')) rows).
Proof.
  intros Hr.
  pose proof (normalizes_accepted rows) as H1.
  pose proof (normalizes_accepted (List.filter (fun r' => is_ok (co r')) rows))
    as H2.
  rewrite accepted_filter in H2.
  destruct (nonzero_or_zero (ob_close o) (accepted co rows)) as [H|H].
  - by rewrite (process_rows_entries co r _ o _ Hr H1 H),
      (process_rows_entries co r _ o _ Hr H2 H).
  - by rewrite (process_rows_zero co r _ o _ Hr H1 H),
      (process_rows_zero co r _ o _ Hr H2 H).
Qed.

Lemma process_rows_single r : process_rows co [r] = Ok [].
Proof.
  unfold process_rows. cbn [for_rows]. unfold try_body.
  destruct (co r) as [o|e] eqn:Hr; cbn [bind].
  - by rewrite make_entry_first.
  - by destruct (co_raises _ _ Hr) as [-> | ->].
Qed.

End Variant.

Lemma entries_after_dates prev obs :
  date <$> entries_after prev obs = ob_date <$> obs /\
  close <$> entries_after prev obs = ob_close <$> obs.
Proof.
  revert prev. induction obs as [|o obs IH]; intros prev; [done|].
  cbn. destruct (IH (ob_close o)) as [-> ->]. done.
Qed.

(** X1: whatever the rows, a list returned by [process_data] holds no
    entry with an unset [daily_change] or [daily_change_pct]. *)
Theorem process_data_changes_set rows out :
  process_data rows = Ok out ->
  Forall (fun e => is_Some (daily_change e) /\ is_Some (daily_change_pct e))
    out.
Proof. apply process_rows_set, coerce_raises. Qed.

(** X3: once the first row is accepted, a rejected row changes nothing:
    the result is the result on the rows with the rejected ones removed. *)
Theorem process_data_skips r o rows :
  coerce r = Ok o ->
  process_data (r :: rows) =
  process_data (r :: List.filter (fun r' => is_ok (coerce r')) rows).
Proof. apply (process_rows_skips coerce coerce_raises). Qed.

(** X4: the returned entries are the accepted rows without the first, in
    input order: same dates, same closes, one entry fewer. *)
Theorem process_data_dates rows out :
  process_data rows = Ok out ->
  date <$> out = drop 1 (ob_date <$> accepted coerce rows) /\
  close <$> out = drop 1 (ob_close <$> accepted coerce rows) /\
  length out = (length (accepted coerce rows) - 1)%nat.
Proof.
  intros H.
  destruct (process_rows_ok_inv coerce coerce_raises rows out H)
    as [[-> ->]|(o & obs & -> & _ & ->)]; [done|].
  destruct (entries_after_dates (ob_close o) obs) as [-> ->].
  rewrite length_entries_after. cbn. rewrite drop_0. split; [done|].
  split; [done | lia].
Qed.

(** ** More on the ranking *)

Lemma last_drop_lt {A : Type} (l : list A) n :
  (n < length l)%nat -> last (drop n l) = last l.
Proof.
  intros Hn. rewrite <- (take_drop n l) at 2. rewrite last_app.
  destruct (last (drop n l)) eqn:E; [done|].
  apply last_None in E. apply (f_equal length) in E.
  rewrite length_drop in E. cbn in E. lia.
Qed.

Lemma find_head_filter {A : Type} (f : A -> bool) (l : list A) :
  List.find f l = head (List.filter f l).
Proof. induction l as [|x l IH]; [done|]. cbn. by destruct (f x). Qed.

Lemma top_gains_head data top_n :
  (0 < top_n)%Z ->
  head (rank_movements data top_n).1 = head (sorted_reverse data).
Proof.
  intros Hn. unfold rank_movements, slice_to. cbn [fst].
  destruct (0 <=? top_n)%Z eqn:E; [|lia].
  destruct (Z.to_nat top_n) as [|k] eqn:Ek; [lia|].
  by destruct (sorted_reverse data).
Qed.

Lemma top_losses_head data top_n :
  (0 < top_n)%Z ->
  head (rank_movements data top_n).2 = last (sorted_reverse data).
Proof.
  intros Hn. unfold rank_movements, slice_from. cbn [snd].
  rewrite head_reverse. destruct (0 <=? - top_n)%Z eqn:E; [lia|].
  destruct (sorted_reverse data) as [|x l] eqn:Es; [done|].
  apply last_drop_lt. cbn [length]. lia.
Qed.

Lemma sorted_head_max data x l :
  sorted_reverse data = x :: l ->
  (forall e, In e data -> sort_key e <= sort_key x) /\
  head (List.filter (tied (sort_key x)) data) = Some x.
Proof.
  intros Hs. split.
  - pose proof (sorted_reverse_sorted data) as H. rewrite Hs in H.
    apply StronglySorted_inv in H as [_ H]. rewrite Forall_forall in H.
    intros e He. apply list_elem_of_In in He.
    rewrite <- (sorted_reverse_perm data), Hs in He.
    apply elem_of_cons in He as [->|He]; [apply Qle_refl | by apply H].
  - rewrite <- sorted_reverse_stable, Hs. cbn. unfold tied at 1.
    by rewrite Qeq_bool_refl.
Qed.

Lemma sorted_last_min data x l :
  sorted_reverse data = l ++ [x] ->
  (forall e, In e data -> sort_key x <= sort_key e) /\
  last (List.filter (tied (sort_key x)) data) = Some x.
Proof.
  intros Hs. split.
  - pose proof (sorted_reverse_sorted data) as H. rewrite Hs in H.
    apply StronglySorted_app in H as (H & _ & _).
    intros e He. apply list_elem_of_In in He.
    rewrite <- (sorted_reverse_perm data), Hs in He.
    apply elem_of_app in He as [He|He].
    + apply (H e x He). by left.
    + apply list_elem_of_singleton in He as ->. apply Qle_refl.
  - rewrite <- sorted_reverse_stable, Hs, List.filter_app. cbn.
    unfold tied at 2. rewrite Qeq_bool_refl. apply last_snoc.
Qed.

Lemma Qeq_bool_proper_r p x y : x == y -> Qeq_bool p x = Qeq_bool p y.
Proof.
  intros Hxy. destruct (Qeq_bool p y) eqn:E.
  - apply Qeq_bool_iff. apply Qeq_bool_iff in E. by rewrite Hxy.
  - destruct (Qeq_bool p x) eqn:E'; [|done].
    apply Qeq_bool_iff in E'. rewrite Hxy in E'.
    apply Qeq_bool_iff in E'. congruence.
Qed.

Lemma filter_pct_is_tied data x k :
  Forall (fun e => is_Some (daily_change_pct e)) data -> x == k ->
  List.filter (pct_is x) data = List.filter (tied k) data.
Proof.
  intros Hset Hxk. apply List.filter_ext_in. intros e He.
  rewrite Forall_forall in Hset. apply list_elem_of_In, Hset in He as [p Hp].
  unfold pct_is, tied, sort_key. rewrite Hp. cbn.
  by apply Qeq_bool_proper_r.
Qed.

(** The statistics of a sequence with at least one set change. *)
Lemma statistics_facts data c cs :
  omap daily_change_pct data = c :: cs ->
  exists s,
    calculate_statistics data = Ok (Some s) /\
    max_gain_pct s = max_of c cs /\ max_loss_pct s = min_of c cs /\
    next_date (max_of c cs) data = Ok (max_gain_date s) /\
    next_date (min_of c cs) data = Ok (max_loss_date s) /\
    avg_daily_change_pct s = sum (c :: cs) / len (c :: cs) /\
    volatility_std s =
      pow_half (sum ((fun x => (x - avg_daily_change_pct s) ^ 2) <$> (c :: cs))
                / len (c :: cs)) /\
    total_days s = length (c :: cs).
Proof.
  intros Hc. destruct (calculate_statistics_some data c cs Hc)
    as (gd & ld & avg & -> & Hgd & Hld & Havg).
  eexists. split; [reflexivity|]. cbn. by subst avg.
Qed.

Lemma omap_pct_set data :
  data <> [] -> Forall (fun e => is_Some (daily_change_pct e)) data ->
  exists c cs, omap daily_change_pct data = c :: cs.
Proof.
  intros Hne Hset. destruct data as [|e data]; [done|].
  apply Forall_cons in Hset as [[p Hp] _]. cbn. rewrite Hp. cbn. eauto.
Qed.

Lemma max_of_bounds data c cs :
  omap daily_change_pct data = c :: cs ->
  (exists e, In e data /\ daily_change_pct e = Some (max_of c cs)) /\
  (forall e p, In e data -> daily_change_pct e = Some p -> p <= max_of c cs).
Proof.
  intros Hc. destruct (max_of_spec c cs) as (Hin & Hle & Hall). split.
  - apply In_omap_pct. rewrite Hc. destruct Hin as [->|?]; [by left|by right].
  - intros e p He Hp. assert (In p (c :: cs)) as [<-|Hp']
      by (rewrite <- Hc; apply In_omap_pct; eauto); [done|].
    rewrite Forall_forall in Hall. by apply Hall, list_elem_of_In.
Qed.

Lemma min_of_bounds data c cs :
  omap daily_change_pct data = c :: cs ->
  (exists e, In e data /\ daily_change_pct e = Some (min_of c cs)) /\
  (forall e p, In e data -> daily_change_pct e = Some p -> min_of c cs <= p).
Proof.
  intros Hc. destruct (min_of_spec c cs) as (Hin & Hle & Hall). split.
  - apply In_omap_pct. rewrite Hc. destruct Hin as [->|?]; [by left|by right].
  - intros e p He Hp. assert (In p (c :: cs)) as [<-|Hp']
      by (rewrite <- Hc; apply In_omap_pct; eauto); [done|].
    rewrite Forall_forall in Hall. by apply Hall, list_elem_of_In.
Qed.

Lemma next_date_head x data d :
  next_date x data = Ok d ->
  exists e, head (List.filter (pct_is x) data) = Some e /\ d = date e.
Proof.
  unfold next_date. rewrite find_head_filter.
  destruct (head _) as [e|]; [|discriminate]. intros [= <-]. eauto.
Qed.


(** X7: whatever the count, the ranking neither invents nor duplicates an
    entry: each of [top_gains] and [top_losses] is a sub-multiset of
    [data]. *)
Theorem rank_movements_submseteq data top_n :
  submseteq (rank_movements data top_n).1 data /\
  submseteq (rank_movements data top_n).2 data.
Proof.
  assert (submseteq (sorted_reverse data) data) as Hs
    by apply Permutation_submseteq, sorted_reverse_perm.
  unfold rank_movements, slice_to, slice_from. cbn [fst snd]. split.
  - etrans; [|exact Hs].
    destruct (0 <=? top_n)%Z; apply sublist_submseteq, sublist_take.
  - etrans; [apply Permutation_submseteq, reverse_Permutation|].
    etrans; [|exact Hs].
    destruct (0 <=? - top_n)%Z; apply sublist_submseteq, sublist_drop.
Qed.

(** X8: when the count reaches the number of entries, both results hold
    every entry: [top_gains] is the whole sorted list and [top_losses] is
    its reversal. *)
Theorem rank_movements_overlap data top_n :
  (0 < top_n)%Z -> (length data <= Z.to_nat top_n)%nat ->
  (rank_movements data top_n).1 = sorted_reverse data /\
  (rank_movements data top_n).2 = reverse (sorted_reverse data).
Proof.
  intros Hn Hlen. unfold rank_movements, slice_to, slice_from. cbn [fst snd].
  destruct (0 <=? top_n)%Z eqn:E1; [|lia].
  destruct (0 <=? - top_n)%Z eqn:E2; [lia|].
  rewrite take_ge by (rewrite length_sorted_reverse; lia).
  replace (length (sorted_reverse data) - Z.to_nat (- - top_n))%nat
    with 0%nat by (rewrite length_sorted_reverse; lia).
  by rewrite drop_0.
Qed.

(** X9: when twice the count fits in the number of entries, the two
    results do not overlap: the sorted list is [top_gains], then the
    entries ranked in neither, then [top_losses] backwards. *)
Theorem rank_movements_disjoint data top_n :
  (0 < top_n)%Z -> (2 * Z.to_nat top_n <= length data)%nat ->
  exists middle,
    sorted_reverse data =
      (rank_movements data top_n).1 ++ middle ++
      reverse (rank_movements data top_n).2 /\
    length middle = (length data - 2 * Z.to_nat top_n)%nat.
Proof.
  intros Hn Hlen. unfold rank_movements, slice_to, slice_from. cbn [fst snd].
  destruct (0 <=? top_n)%Z eqn:E1; [|lia].
  destruct (0 <=? - top_n)%Z eqn:E2; [lia|].
  replace (- - top_n)%Z with top_n by lia.
  pose proof (length_sorted_reverse data) as Hl.
  set (s := sorted_reverse data) in *. set (n := Z.to_nat top_n) in *.
  exists (take (length data - 2 * n) (drop n s)).
  rewrite reverse_involutive. split.
  - rewrite <- (take_drop n s) at 1. f_equal.
    rewrite <- (take_drop (length data - 2 * n) (drop n s)) at 1. f_equal.
    rewrite drop_drop. f_equal. lia.
  - rewrite length_take, length_drop. lia.
Qed.

(** ** More on the statistics *)

Lemma foldl_Qplus a l : foldl Qplus a l == a + sum l.
Proof.
  revert a. induction l as [|x l IH]; intros a.
  - unfold sum. cbn. ring.
  - unfold sum. cbn [foldl]. rewrite (IH (a + x)), (IH (0 + x)). ring.
Qed.

Lemma sum_cons x l : sum (x :: l) == x + sum l.
Proof. unfold sum at 1. cbn [foldl]. rewrite foldl_Qplus. ring. Qed.

Lemma len_cons {A : Type} (x : A) (l : list A) : len (x :: l) == 1 + len l.
Proof.
  unfold len. cbn [length]. rewrite Nat2Z.inj_succ, <- Z.add_1_l.
  by rewrite inject_Z_plus.
Qed.

Lemma len_nonneg {A : Type} (l : list A) : 0 <= len l.
Proof.
  unfold len. change 0 with (inject_Z 0). rewrite <- Zle_Qle. lia.
Qed.

Lemma len_pos {A : Type} (x : A) (l : list A) : 0 < len (x :: l).
Proof.
  unfold len. change 0 with (inject_Z 0). rewrite <- Zlt_Qlt. cbn [length]. lia.
Qed.

Lemma sum_sq_dev m l :
  sum ((fun x => (x - m) ^ 2) <$> l) ==
  sum ((fun x => x ^ 2) <$> l) - 2 * m * sum l + len l * (m * m).
Proof.
  induction l as [|x l IH].
  - unfold sum, len. cbn. ring.
  - cbn [fmap list_fmap]. rewrite !sum_cons, len_cons.
    change (list_fmap Q Q ?f l) with (f <$> l). rewrite IH. ring.
Qed.

Lemma sum_nonneg l : Forall (fun x => 0 <= x) l -> 0 <= sum l.
Proof.
  induction 1 as [|x l Hx _ IH]; [apply Qle_refl|]. rewrite sum_cons.
  replace 0 with (0 + 0) by done. by apply Qplus_le_compat.
Qed.

Lemma sum_le_bound M l : Forall (fun x => x <= M) l -> sum l <= len l * M.
Proof.
  induction 1 as [|x l Hx _ IH].
  - unfold sum, len. cbn. rewrite Qmult_0_l. apply Qle_refl.
  - rewrite sum_cons, len_cons.
    assert ((1 + len l) * M == M + len l * M) as -> by ring.
    by apply Qplus_le_compat.
Qed.

Lemma sum_ge_bound m l : Forall (fun x => m <= x) l -> len l * m <= sum l.
Proof.
  induction 1 as [|x l Hx _ IH].
  - unfold sum, len. cbn. rewrite Qmult_0_l. apply Qle_refl.
  - rewrite sum_cons, len_cons.
    assert ((1 + len l) * m == m + len l * m) as -> by ring.
    by apply Qplus_le_compat.
Qed.

Lemma sum_constant c l : Forall (fun x => x == c) l -> sum l == len l * c.
Proof.
  induction 1 as [|x l Hx _ IH].
  - unfold sum, len. cbn. ring.
  - rewrite sum_cons, len_cons, IH, Hx. ring.
Qed.

Lemma sq_nonneg x : 0 <= x ^ 2.
Proof.
  assert (x ^ 2 == x * x) as -> by ring.
  destruct (Qlt_le_dec x 0) as [H|H].
  - assert (0 <= - x) as Hx
      by (apply Qlt_le_weak, Qopp_le_compat in H; exact H).
    assert (x * x == (- x) * (- x)) as -> by ring.
    by apply Qmult_le_0_compat.
  - by apply Qmult_le_0_compat.
Qed.

Lemma omap_pct_nil data :
  omap daily_change_pct data = [] <->
  Forall (fun e => daily_change_pct e = None) data.
Proof.
  induction data as [|e data IH]; [by split|]. cbn [omap list_omap].
  destruct (daily_change_pct e) as [p|] eqn:Hp; cbn.
  - split; [discriminate|]. intros H. apply Forall_cons in H as [H _].
    congruence.
  - rewrite IH. split; [by constructor|]. by intros [_ ?]%Forall_cons.
Qed.

Lemma calculate_statistics_inv data s :
  calculate_statistics data = Ok (Some s) ->
  exists c cs,
    omap daily_change_pct data = c :: cs /\
    max_gain_pct s = max_of c cs /\ max_loss_pct s = min_of c cs /\
    avg_daily_change_pct s = sum (c :: cs) / len (c :: cs) /\
    volatility_std s =
      pow_half (sum ((fun x => (x - avg_daily_change_pct s) ^ 2) <$> (c :: cs))
                / len (c :: cs)) /\
    total_days s = length (c :: cs).
Proof.
  intros Hs. destruct (omap daily_change_pct data) as [|c cs] eqn:Hc.
  { unfold calculate_statistics in Hs. by rewrite Hc in Hs. }
  destruct (statistics_facts data c cs Hc)
    as (s' & Hs' & Hmax & Hmin & _ & _ & Havg & Hstd & Hn).
  rewrite Hs in Hs'. inversion Hs'; subst s'. by exists c, cs.
Qed.

(** X13: in exact arithmetic the value whose square root is
    [volatility_std] is the population variance of the set changes: the
    mean of their squares less the square of their mean
    ([avg_daily_change_pct]), and it is never negative. *)
Theorem variance_identity data s :
  calculate_statistics data = Ok (Some s) ->
  exists variance,
    volatility_std s = pow_half variance /\
    avg_daily_change_pct s =
      sum (omap daily_change_pct data) / len (omap daily_change_pct data) /\
    variance ==
      sum ((fun x => x ^ 2) <$> omap daily_change_pct data)
        / len (omap daily_change_pct data)
      - avg_daily_change_pct s ^ 2 /\
    0 <= variance.
Proof.
  intros Hs. destruct (calculate_statistics_inv data s Hs)
    as (c & cs & -> & _ & _ & Havg & Hstd & _).
  eexists. split; [exact Hstd|]. split; [exact Havg|].
  pose proof (len_nonzero c cs) as Hn. set (l := c :: cs) in *.
  set (m := avg_daily_change_pct s) in *. split.
  - rewrite sum_sq_dev.
    assert (sum l == m * len l) as ->
      by (rewrite Havg; field; exact Hn).
    field. exact Hn.
  - apply Qle_shift_div_l; [apply len_pos|]. rewrite Qmult_0_l.
    apply sum_nonneg, Forall_fmap, Forall_forall. intros x _.
    apply sq_nonneg.
Qed.

(** X14: in exact arithmetic the average lies between the extrema:
    [max_loss_pct <= avg_daily_change_pct <= max_gain_pct]. *)
Theorem average_between_extrema data s :
  calculate_statistics data = Ok (Some s) ->
  max_loss_pct s <= avg_daily_change_pct s /\
  avg_daily_change_pct s <= max_gain_pct s.
Proof.
  intros Hs. destruct (calculate_statistics_inv data s Hs)
    as (c & cs & _ & -> & -> & -> & _).
  destruct (max_of_spec c cs) as (_ & Hc & Hcs).
  destruct (min_of_spec c cs) as (_ & Hc' & Hcs'). split.
  - apply Qle_shift_div_l; [apply len_pos|]. rewrite Qmult_comm.
    apply sum_ge_bound. by constructor.
  - apply Qle_shift_div_r; [apply len_pos|]. rewrite Qmult_comm.
    apply sum_le_bound. by constructor.
Qed.

Lemma constant_series_facts data s c :
  calculate_statistics data = Ok (Some s) ->
  (forall e p, In e data -> daily_change_pct e = Some p -> p == c) ->
  max_gain_pct s == c /\ max_loss_pct s == c /\
  avg_daily_change_pct s == c /\
  exists variance, volatility_std s = pow_half variance /\ variance == 0.
Proof.
  intros Hs Hconst. destruct (calculate_statistics_inv data s Hs)
    as (c0 & cs & Hc & Hmax & Hmin & Havg & Hstd & _).
  assert (Forall (fun x => x == c) (c0 :: cs)) as Hall.
  { apply Forall_forall. intros x Hx. rewrite <- Hc in Hx.
    apply list_elem_of_In, In_omap_pct in Hx as (e & He & Hp). eauto. }
  assert (forall x, In x (c0 :: cs) -> x == c) as Hin.
  { intros x Hx. rewrite Forall_forall in Hall.
    by apply Hall, list_elem_of_In. }
  pose proof (len_nonzero c0 cs) as Hn.
  assert (avg_daily_change_pct s == c) as Hm.
  { rewrite Havg, (sum_constant c _ Hall). field. exact Hn. }
  split; [|split; [|split; [exact Hm|]]].
  - rewrite Hmax. apply Hin.
    destruct (max_of_spec c0 cs) as ([->|?] & _); [by left | by right].
  - rewrite Hmin. apply Hin.
    destruct (min_of_spec c0 cs) as ([->|?] & _); [by left | by right].
  - eexists. split; [exact Hstd|].
    rewrite (sum_constant 0).
    + field. exact Hn.
    + apply Forall_fmap, Forall_forall. intros x Hx. cbn.
      rewrite (Hin x (proj1 (list_elem_of_In _ _) Hx)), Hm. ring.
Qed.

(** X15: when every set change has the same value [c], the extrema are
    [c] and, in exact arithmetic, so is the average, and the variance whose
    square root is [volatility_std] is zero. *)
Theorem constant_series_statistics data s c :
  calculate_statistics data = Ok (Some s) ->
  (forall e p, In e data -> daily_change_pct e = Some p -> p == c) ->
  max_gain_pct s == c /\ max_loss_pct s == c /\
  avg_daily_change_pct s == c /\
  exists variance, volatility_std s = pow_half variance /\ variance == 0.
Proof. apply constant_series_facts. Qed.

(** ** How the stages compose in [main] *)

Lemma omap_pct_length data :
  Forall (fun e => is_Some (daily_change_pct e)) data ->
  length (omap daily_change_pct data) = length data.
Proof.
  induction 1 as [|e data [p Hp] _ IH]; [done|]. cbn. rewrite Hp. cbn.
  by rewrite IH.
Qed.

Lemma Forall_set_pct data :
  Forall (fun e => is_Some (daily_change e) /\ is_Some (daily_change_pct e))
    data ->
  Forall (fun e => is_Some (daily_change_pct e)) data.
Proof. intros H. eapply Forall_impl; [exact H|]. by intros e [_ ?]. Qed.

Lemma Forall_submseteq {A : Type} (P : A -> Prop) (l k : list A) :
  submseteq l k -> Forall P k -> Forall P l.
Proof.
  intros Hsub Hk. rewrite Forall_forall in Hk |- *. intros x Hx.
  apply Hk. by eapply elem_of_submseteq.
Qed.

Lemma ranked_submseteq data top_n :
  submseteq (rank_movements data top_n).1 data /\
  submseteq (rank_movements data top_n).2 data.
Proof.
  assert (submseteq (sorted_reverse data) data) as Hs
    by apply Permutation_submseteq, sorted_reverse_perm.
  unfold rank_movements, slice_to, slice_from. cbn [fst snd]. split.
  - etrans; [|exact Hs].
    destruct (0 <=? top_n)%Z; apply sublist_submseteq, sublist_take.
  - etrans; [apply Permutation_submseteq, reverse_Permutation|].
    etrans; [|exact Hs].
    destruct (0 <=? - top_n)%Z; apply sublist_submseteq, sublist_drop.
Qed.

Lemma slice_to_submseteq {A : Type} (l : list A) n :
  submseteq (slice_to l n) l.
Proof.
  unfold slice_to. destruct (0 <=? n)%Z; apply sublist_submseteq, sublist_take.
Qed.

Lemma for_each_ok {A B : Type} (f : A -> result B) (l : list A) :
  Forall (fun x => exists y, f x = Ok y) l ->
  exists ys, for_each f l = Ok ys /\ Forall2 (fun x y => f x = Ok y) l ys.
Proof.
  induction 1 as [|x l [y Hy] _ (ys & Hys & H2)]; [by exists []|].
  exists (y :: ys). cbn [for_each]. rewrite Hy, Hys. cbn.
  split; [done | by constructor].
Qed.

Lemma process_rows_raises co rows e :
  (forall r e, co r = Raise e -> e = ValueError \/ e = KeyError) ->
  process_rows co rows = Raise e -> e = IndexError \/ e = ZeroDivisionError.
Proof.
  intros Hco. unfold process_rows.
  destruct (for_rows co 0 rows []) as [data|e'] eqn:H; [discriminate|].
  intros [= <-]. by apply (for_rows_raises co Hco rows 0%nat []).
Qed.

(** The v2 run after a non-empty return of [process_data]. *)
Lemma main_after_process now rows d data :
  process_data rows = Ok (d :: data) ->
  exists s,
    calculate_statistics (d :: data) = Ok (Some s) /\
    total_days s = length (d :: data) /\
    main now rows =
    bind (save_results now (rank_movements (d :: data) 50).1
            (rank_movements (d :: data) 50).2 (d :: data) (Some s))
      (fun a => Ok (Saved a)).
Proof.
  intros Hdata.
  pose proof (process_rows_set coerce coerce_raises rows _ Hdata) as Hset.
  apply Forall_set_pct in Hset.
  destruct (omap_pct_set (d :: data) ltac:(done) Hset) as (c & cs & Hc).
  destruct (statistics_facts _ c cs Hc) as (s & Hs & _ & _ & _ & _ & _ & _ & Hn).
  exists s. split; [done|]. split.
  { by rewrite Hn, <- Hc, omap_pct_length. }
  unfold main. destruct rows as [|r rows]; [by inversion Hdata|].
  rewrite Hdata. cbn [bind]. rewrite Hs. done.
Qed.

Lemma display_sigma_ok s d :
  ~ volatility_std s == 0 ->
  is_Some (daily_change d) ->
  exists x, display_sigma (Some s) d = Ok x.
Proof.
  intros Hz [c Hc]. unfold display_sigma, calculate_sigma. cbn [stats_item bind].
  rewrite (truediv_nonzero _ _ Hz). cbn [bind]. rewrite Hc. eauto.
Qed.

Lemma movement_REAL_ok mean std_dev d :
  ~ std_dev == 0 -> is_Some (daily_change_pct d) ->
  exists m, movement_REAL mean std_dev d = Ok m /\ is_Some (Sigma m) /\
    Date m = date d.
Proof.
  intros Hz [p Hp]. unfold movement_REAL, calculate_sigma. rewrite Hp.
  cbn [bind]. rewrite (truediv_nonzero _ _ Hz). cbn [bind].
  eexists. split; [reflexivity|]. by split; [eexists|].
Qed.

Lemma for_each_movement_REAL mean std_dev l :
  ~ std_dev == 0 -> Forall (fun e => is_Some (daily_change_pct e)) l ->
  exists ms, for_each (movement_REAL mean std_dev) l = Ok ms /\
    Forall (fun m => is_Some (Sigma m)) ms /\ Date <$> ms = date <$> l.
Proof.
  intros Hz. induction 1 as [|d l Hd _ (ms & Hms & Hsig & Hdates)].
  - by exists [].
  - destruct (movement_REAL_ok mean std_dev d Hz Hd) as (m & Hm & Hs & Hdate).
    exists (m :: ms). cbn [for_each]. rewrite Hm, Hms. cbn.
    split; [done|]. split; [by constructor|]. by rewrite Hdate, Hdates.
Qed.

(** The REAL run after a non-empty return of [process_data], when the
    standard deviation is not zero. *)
Lemma main_REAL_report now rows d data s :
  process_data_REAL rows = Ok (d :: data) ->
  calculate_statistics (d :: data) = Ok (Some s) ->
  ~ volatility_std s == 0 ->
  exists a,
    main_REAL now rows = Ok (Saved a) /\
    Forall (fun m => is_Some (Sigma m))
      (top_gains (json a) ++ top_losses (json a)) /\
    Date <$> top_gains (json a) = date <$> (rank_movements (d :: data) 50).1 /\
    Date <$> top_losses (json a) = date <$> (rank_movements (d :: data) 50).2.
Proof.
  intros Hdata Hs Hz.
  pose proof (process_rows_set coerce_REAL coerce_REAL_raises rows _ Hdata)
    as Hset.
  destruct (ranked_submseteq (d :: data) 50) as [Hg Hl].
  pose proof (Forall_submseteq _ _ _ Hg Hset) as Hgs.
  pose proof (Forall_submseteq _ _ _ Hl Hset) as Hls.
  assert (forall l, Forall (fun e => is_Some (daily_change e) /\
             is_Some (daily_change_pct e)) l ->
           exists xs, for_each (display_sigma (Some s)) (slice_to l 10) = Ok xs)
    as Hdisplay.
  { intros l Hl'. destruct (for_each_ok (display_sigma (Some s)) (slice_to l 10))
      as (xs & Hxs & _); [|eauto].
    eapply Forall_impl;
      [exact (Forall_submseteq _ _ _ (slice_to_submseteq l 10) Hl')|].
    intros e [He _]. by apply display_sigma_ok. }
  destruct (Hdisplay _ Hgs) as [xg Hxg]. destruct (Hdisplay _ Hls) as [xl Hxl].
  destruct (for_each_movement_REAL (avg_daily_change_pct s) (volatility_std s)
              _ Hz (Forall_set_pct _ Hgs)) as (mg & Hmg & Hsg & Hdg).
  destruct (for_each_movement_REAL (avg_daily_change_pct s) (volatility_std s)
              _ Hz (Forall_set_pct _ Hls)) as (ml & Hml & Hsl & Hdl).
  unfold main_REAL. destruct rows as [|r rows]; [by inversion Hdata|].
  rewrite Hdata. cbn [bind]. rewrite Hs. cbn [bind stats_item].
  rewrite Hxg, Hxl. cbn [bind]. unfold save_results_REAL.
  cbn [stats_item bind]. rewrite Hmg, Hml. cbn [bind].
  eexists. split; [reflexivity|]. cbn [json top_gains top_losses].
  split; [by apply Forall_app | done].
Qed.

(** X18: when [process_data] returns at least one entry and the standard
    deviation is not zero, the REAL [main] saves a report in which every
    ranked movement carries a sigma and the rankings list the same days, in
    the same order, as [rank_movements] returned. *)
Theorem main_REAL_saves now rows d data s :
  process_data_REAL rows = Ok (d :: data) ->
  calculate_statistics (d :: data) = Ok (Some s) ->
  ~ volatility_std s == 0 ->
  exists a,
    main_REAL now rows = Ok (Saved a) /\
    Forall (fun m => is_Some (Sigma m))
      (top_gains (json a) ++ top_losses (json a)) /\
    Date <$> top_gains (json a) = date <$> (rank_movements (d :: data) 50).1 /\
    Date <$> top_losses (json a) = date <$> (rank_movements (d :: data) 50).2.
Proof. apply main_REAL_report. Qed.

(** ** Constant prices *)




(** ** The variants against each other *)

Lemma for_rows_ext co1 co2 rows :
  (forall r, In r rows -> co1 r = co2 r) ->
  forall i data, for_rows co1 i rows data = for_rows co2 i rows data.
Proof.
  induction rows as [|r rows IH]; intros Hext i data; [done|].
  cbn [for_rows]. unfold try_body. rewrite (Hext r) by by left.
  destruct (bind (co2 r) _) as [e|[]]; try done;
    apply IH; intros; apply Hext; by right.
Qed.

Lemma coerce_REAL_v3 r :
  get_truthy r "Volume" = true -> r !! "Volume"%string <> Some "null"%string ->
  coerce_REAL r = coerce_v3 r.
Proof.
  intros Ht Hnull. unfold coerce_REAL, coerce_v3. rewrite Ht.
  unfold get_truthy in Ht. unfold getitem.
  destruct (r !! "Volume"%string) as [v|] eqn:Ev; [|discriminate].
  assert (String.eqb v "null" = false) as Hv.
  { apply String.eqb_neq. congruence. }
  destruct (r !! "Date"%string); cbn [bind]; [|done].
  destruct (r !! "Close"%string); cbn [bind]; [|done].
  destruct (to_float _); cbn [bind]; [|done].
  rewrite Hv. cbn [negb bind]. by destruct (to_float v).
Qed.

(** X22: on rows that all carry a non-empty volume other than ['null'],
    the REAL and the v3 [process_data] do the same. *)
Theorem process_data_REAL_v3 rows :
  (forall r, In r rows ->
     get_truthy r "Volume" = true /\ r !! "Volume"%string <> Some "null"%string) ->
  process_data_REAL rows = process_data_v3 rows.
Proof.
  intros H. unfold process_data_REAL, process_data_v3, process_rows.
  rewrite (for_rows_ext coerce_REAL coerce_v3 rows); [done|].
  intros r Hr. destruct (H r Hr). by apply coerce_REAL_v3.
Qed.

Lemma coerce_v2_v3 r :
  get_truthy r "Adj Close" = false ->
  coerce_v3 r =
  result_map (fun o => Observation (ob_date o) (ob_close o) None (ob_volume o))
    (coerce r).
Proof.
  intros Ha. unfold coerce, coerce_v3. rewrite Ha.
  unfold bind, result_map. by repeat case_match; simplify_eq.
Qed.

Lemma make_entry_without_adj i data o :
  make_entry i (without_adj_close <$> data)
    (Observation (ob_date o) (ob_close o) None (ob_volume o)) =
  result_map without_adj_close (make_entry i data o).
Proof.
  unfold make_entry, last_item. destruct (0 <? i)%nat; [|done].
  rewrite fmap_last. destruct (last data) as [p|]; [|done]. cbn.
  unfold truediv. by destruct (Qeq_bool (close p) 0).
Qed.

Lemma for_rows_without_adj rows :
  (forall r, In r rows -> get_truthy r "Adj Close" = false) ->
  forall i data,
    for_rows coerce_v3 i rows (without_adj_close <$> data) =
    result_map (fmap without_adj_close) (for_rows coerce i rows data).
Proof.
  induction rows as [|r rows IH]; intros Hadj i data; [done|].
  cbn [for_rows]. unfold try_body. rewrite coerce_v2_v3 by (apply Hadj; by left).
  assert (forall i data, for_rows coerce_v3 i rows (without_adj_close <$> data) =
            result_map (fmap without_adj_close) (for_rows coerce i rows data))
    as IH' by (intros; apply IH; intros; apply Hadj; by right).
  destruct (coerce r) as [o|e]; cbn [result_map bind].
  - rewrite make_entry_without_adj.
    destruct (make_entry i data o) as [e|[]]; cbn [result_map]; try done;
      try apply IH'.
    rewrite <- IH'. by rewrite fmap_app.
  - destruct e; try done; apply IH'.
Qed.

(** X23: on rows none of which carries an adjusted close, the v2 and the
    v3 [process_data] end the same way and return the same entries, the
    ['adj_close'] key of v2 apart. *)
Theorem process_data_v2_v3 rows :
  (forall r, In r rows -> get_truthy r "Adj Close" = false) ->
  process_data_v3 rows =
  result_map (fmap without_adj_close) (process_data rows).
Proof.
  intros H. unfold process_data_v3, process_data, process_rows.
  pose proof (for_rows_without_adj rows H 0%nat []) as E. cbn [fmap list_fmap] in E.
  rewrite E. destruct (for_rows coerce 0 rows []) as [[|d data]|e]; try done.
Qed.

(** ** The fetched rows *)

Lemma item_In {A : Type} (l : list A) i x : item l i = Ok x -> In x l.
Proof.
  unfold item. destruct (l !! i) eqn:E; [|discriminate]. intros [= <-].
  by eapply list_elem_of_In, list_elem_of_lookup_2.
Qed.

Lemma chart_rows_shape cl vol ts :
  forall i rows cs out,
    chart_rows cl vol i ts rows = Ok out ->
    Forall2 (chart_shape vol) rows cs ->
    exists cs', Forall2 (chart_shape vol) out (cs ++ cs') /\
      cs' = quoted_closes (length ts) (drop i cl).
Proof.
  induction ts as [|t ts IH]; intros i rows cs out Hout Hrows.
  - inversion Hout; subst. exists []. by rewrite app_nil_r.
  - cbn [chart_rows] in Hout. unfold chart_row in Hout.
    destruct (date_of_timestamp t) as [d|] eqn:Ed; [|discriminate].
    cbn [bind] in Hout.
    destruct (item cl i) as [c|] eqn:Ec; [|discriminate].
    destruct (item vol i) as [v|] eqn:Ev; [|discriminate].
    cbn [bind] in Hout. unfold item in Ec.
    destruct (cl !! i) as [c0|] eqn:Ei; [|discriminate].
    inversion Ec; subst c0. unfold quoted_closes. cbn [length].
    rewrite (drop_S _ _ _ Ei). cbn [take omap list_omap].
    destruct c as [c|]; cbn [bind id] in *.
    + destruct (IH (S i) _ (cs ++ [c]) out Hout) as (cs' & H & ->).
      { apply Forall2_app; [done|]. constructor; [|constructor].
        exists t, d, v. split; [done|].
        split; [by eapply item_In | by destruct v]. }
      exists (c :: quoted_closes (length ts) (drop (S i) cl)).
      by rewrite <- app_assoc in H.
    + by apply (IH (S i) rows cs out).
Qed.

Lemma chart_rows_ok cl vol ts :
  Forall (fun t => is_ok (date_of_timestamp t) = true) ts ->
  forall i rows,
    (i + length ts <= length cl)%nat -> (i + length ts <= length vol)%nat ->
    exists out, chart_rows cl vol i ts rows = Ok out.
Proof.
  induction 1 as [|t ts Ht _ IH]; intros i rows Hc Hv; [by eexists|].
  cbn [chart_rows length] in *. unfold chart_row, item.
  destruct (date_of_timestamp t) as [d|]; [|discriminate]. cbn [bind].
  destruct (lookup_lt_is_Some_2 cl i) as [c ->]; [lia|].
  destruct (lookup_lt_is_Some_2 vol i) as [v ->]; [lia|].
  cbn [bind]. destruct c; cbn [bind]; apply IH; lia.
Qed.

Lemma chart_rows_short cl vol ts :
  forall i rows,
    (i <= length cl)%nat -> (i <= length vol)%nat ->
    (length cl < i + length ts)%nat \/ (length vol < i + length ts)%nat ->
    exists e, chart_rows cl vol i ts rows = Raise e.
Proof.
  induction ts as [|t ts IH]; intros i rows Hc Hv Hlen; [cbn in Hlen; lia|].
  cbn [chart_rows length] in *. unfold chart_row, item.
  destruct (date_of_timestamp t) as [d|]; [|by eexists]. cbn [bind].
  destruct (cl !! i) as [c|] eqn:Ec; [|by eexists]. cbn [bind].
  destruct (vol !! i) as [v|] eqn:Ev; cbn [bind]; [|by eexists].
  apply lookup_lt_Some in Ec, Ev.
  destruct c; cbn [bind]; apply IH; lia.
Qed.

Section RoundTrip.

(** The texts the loop writes are read back by [float]: the closes as the
    numbers they were, the volumes as some number. *)
Variables close_prices volumes : list (option Q).
Hypothesis float_str : forall c,
  In (Some c) close_prices -> float (str_float c) = Some c.
Hypothesis float_volume : forall v,
  In v volumes -> is_Some (float (str_int (int (default 0 v)))).

Lemma chart_shape_coerce r c :
  In (Some c) close_prices -> chart_shape volumes r c ->
  exists o, coerce_REAL r = Ok o /\ ob_close o = c.
Proof.
  intros Hc (t & d & v & _ & Hv & ->). unfold coerce_REAL, getitem, to_float.
  destruct (mkrow_lookup d (str_float c)
              (str_int (int (default 0 v)))) as (-> & -> & -> & _).
  cbn [bind]. rewrite (float_str c Hc). cbn [bind].
  destruct (float_volume v Hv) as [x ->]. cbn [bind]. eauto.
Qed.

Lemma quoted_closes_In n i c :
  In c (quoted_closes n (drop i close_prices)) -> In (Some c) close_prices.
Proof.
  unfold quoted_closes. rewrite <- !list_elem_of_In, list_elem_of_omap.
  intros (x & Hx & <-). cbn.
  eapply elem_of_submseteq; [exact Hx|].
  etrans; apply sublist_submseteq; [apply sublist_take | apply sublist_drop].
Qed.

Lemma shaped_rows_coerce rows cs :
  Forall (fun c => In (Some c) close_prices) cs ->
  Forall2 (chart_shape volumes) rows cs ->
  Forall (fun r => is_ok (coerce_REAL r) = true) rows /\
  ob_close <$> accepted coerce_REAL rows = cs.
Proof.
  intros Hcs H. induction H as [|r c rows cs Hr _ IH]; [done|].
  apply Forall_cons in Hcs as [Hc Hcs]. destruct (IH Hcs) as [IH1 IH2].
  destruct (chart_shape_coerce r c Hc Hr) as (o & Ho & Hoc).
  split; [constructor; [by rewrite Ho | done]|].
  rewrite accepted_cons, Ho. cbn. by rewrite Hoc, IH2.
Qed.

(** What [fetch_rows] returns when the loop does not raise. *)
Lemma fetch_rows_chart timestamps out :
  chart_rows close_prices volumes 0 timestamps [] = Ok out ->
  fetch_rows timestamps close_prices volumes = out /\
  Forall2 (chart_shape volumes) out
    (quoted_closes (length timestamps) close_prices).
Proof.
  intros Hout.
  destruct (chart_rows_shape close_prices volumes timestamps 0 [] [] out Hout)
    as (cs & Hshape & ->); [constructor|].
  cbn [app] in Hshape. rewrite drop_0 in Hshape. split; [|done].
  assert (Forall (fun c => In (Some c) close_prices)
            (quoted_closes (length timestamps) close_prices)) as Hin.
  { apply Forall_forall. intros c Hc. apply list_elem_of_In in Hc.
    apply (quoted_closes_In (length timestamps) 0). by rewrite drop_0. }
  unfold fetch_rows. rewrite Hout. cbn [bind].
  destruct out as [|r out]; [done|].
  assert (forall r', In r' (r :: out) ->
            exists d c v, r' = mkrow d (str_float c) v /\
              In (Some c) close_prices) as Hrows.
  { clear Hout. revert Hin Hshape.
    generalize (quoted_closes (length timestamps) close_prices).
    generalize (r :: out). intros l cs Hin H.
    induction H as [|x c l cs (t & d & v & _ & _ & ->) _ IH]; [done|].
    apply Forall_cons in Hin as [Hc Hin].
    intros r' [<-|Hr']; [eauto 6 | by apply IH]. }
  unfold item. cbn [lookup list_lookup bind].
  destruct (Hrows r) as (d & c & v & -> & Hc); [by left|].
  destruct (last (mkrow d (str_float c) v :: out)) as [final|] eqn:El.
  2:{ by apply last_None in El. }
  destruct (Hrows final) as (d' & c' & v' & -> & Hc').
  { apply last_Some in El as [l ->]. apply in_app_iff. right. by left. }
  destruct (mkrow_lookup d (str_float c) v) as (Hd & Hcl & _).
  destruct (mkrow_lookup d' (str_float c') v') as (Hd' & Hcl' & _).
  unfold last_item, getitem, to_float.
  rewrite Hd. cbn [bind]. rewrite El. cbn [bind]. rewrite Hd'. cbn [bind].
  rewrite Hcl. cbn [bind]. rewrite (float_str c Hc). cbn [bind].
  rewrite Hcl'. cbn [bind]. by rewrite (float_str c' Hc').
Qed.

Lemma fetch_rows_cases timestamps :
  (fetch_rows timestamps close_prices volumes = [] /\
   exists e, chart_rows close_prices volumes 0 timestamps [] = Raise e) \/
  Forall2 (chart_shape volumes) (fetch_rows timestamps close_prices volumes)
    (quoted_closes (length timestamps) close_prices).
Proof.
  destruct (chart_rows close_prices volumes 0 timestamps []) as [out|e] eqn:E.
  - right. by destruct (fetch_rows_chart timestamps out E) as [-> ?].
  - left. unfold fetch_rows. rewrite E. eauto.
Qed.

Lemma fetch_rows_coerce timestamps :
  Forall (fun r => is_ok (coerce_REAL r) = true)
    (fetch_rows timestamps close_prices volumes).
Proof.
  destruct (fetch_rows_cases timestamps) as [[-> _]|H]; [constructor|].
  eapply shaped_rows_coerce; [|exact H].
  apply Forall_forall. intros c Hc. apply list_elem_of_In in Hc.
  apply (quoted_closes_In (length timestamps) 0). by rewrite drop_0.
Qed.

End RoundTrip.

(** X24: when [float] reads back the closes and volumes the loop wrote,
    every row [fetch_rows] returns is accepted by the REAL [process_data],
    so on fetched rows the only exception that can leave [process_data] is
    [ZeroDivisionError]: the [IndexError] of a rejected first row cannot
    happen. *)
Theorem fetched_rows_accepted timestamps close_prices volumes :
  (forall c, In (Some c) close_prices -> float (str_float c) = Some c) ->
  (forall v, In v volumes ->
     is_Some (float (str_int (int (default 0 v))))) ->
  Forall (fun r => is_ok (coerce_REAL r) = true)
    (fetch_rows timestamps close_prices volumes) /\
  forall e,
    process_data_REAL (fetch_rows timestamps close_prices volumes) = Raise e ->
    e = ZeroDivisionError.
Proof.
  intros Hc Hv.
  pose proof (fetch_rows_coerce close_prices volumes Hc Hv timestamps) as H.
  split; [exact H|]. intros e He. unfold process_data_REAL in He.
  pose proof (process_rows_cases coerce_REAL coerce_REAL_raises
                (fetch_rows timestamps close_prices volumes)) as Hcases.
  destruct (fetch_rows timestamps close_prices volumes) as [|r rows];
    [by rewrite Hcases in He|].
  apply Forall_cons in H as [Hr _].
  destruct (coerce_REAL r) as [o|]; [|discriminate].
  destruct Hcases as [[_ Hk]|[_ Hk]]; rewrite Hk in He; by inversion He.
Qed.

(** X25: when every timestamp converts to a date and the response has a
    close and a volume for every timestamp, the closes [process_data] sees
    on the fetched rows are exactly the non-null closes of the response,
    in order: one row per quoted day, none for a day without a close. *)
Theorem fetched_rows_closes timestamps close_prices volumes :
  (forall c, In (Some c) close_prices -> float (str_float c) = Some c) ->
  (forall v, In v volumes ->
     is_Some (float (str_int (int (default 0 v))))) ->
  Forall (fun t => is_ok (date_of_timestamp t) = true) timestamps ->
  (length timestamps <= length close_prices)%nat ->
  (length timestamps <= length volumes)%nat ->
  ob_close <$> accepted coerce_REAL (fetch_rows timestamps close_prices volumes)
    = quoted_closes (length timestamps) close_prices /\
  length (fetch_rows timestamps close_prices volumes)
    = length (quoted_closes (length timestamps) close_prices).
Proof.
  intros Hc Hv Hts Hlc Hlv.
  destruct (chart_rows_ok close_prices volumes timestamps Hts 0 [] Hlc Hlv)
    as [out Hout].
  destruct (fetch_rows_chart close_prices volumes Hc timestamps out Hout)
    as [-> Hshape].
  split; [|by apply Forall2_length in Hshape].
  eapply shaped_rows_coerce; [exact Hc | exact Hv | | exact Hshape].
  apply Forall_forall. intros c Hin. apply list_elem_of_In in Hin.
  apply (quoted_closes_In close_prices (length timestamps) 0).
  by rewrite drop_0.
Qed.

(** X26: when the response has fewer closes or fewer volumes than
    timestamps, the [IndexError] of the loop (or an earlier exception of
    the date conversion) is swallowed: [fetch_rows] returns no row at all,
    also not those built before the failure, and the REAL [main] ends
    through its "could not retrieve" return. *)
Theorem fetch_rows_short now timestamps close_prices volumes :
  (length close_prices < length timestamps)%nat \/
  (length volumes < length timestamps)%nat ->
  fetch_rows timestamps close_prices volumes = [] /\
  main_REAL now (fetch_rows timestamps close_prices volumes) = Ok NoRows.
Proof.
  intros Hlen.
  assert (fetch_rows timestamps close_prices volumes = []) as ->; [|done].
  unfold fetch_rows.
  destruct (chart_rows_short close_prices volumes timestamps 0 [])
    as [e ->]; [cbn; lia | cbn; lia | cbn; lia | done].
Qed.

(** ** The rows fetched by the v3 variant *)

Lemma insert_by_date_perm x l : insert_by_date x l ≡ₚ x :: l.
Proof.
  induction l as [|y l IH]; cbn; [done|].
  destruct (String.leb _ _); [done|]. rewrite IH. apply Permutation_swap.
Qed.

Lemma sorted_items_perm m : sorted_items m ≡ₚ map_to_list m.
Proof.
  unfold sorted_items. induction (map_to_list m) as [|x l IH]; [done|].
  cbn. by rewrite insert_by_date_perm, IH.
Qed.

Lemma insert_by_date_sorted x l :
  Sorted (fun a b => date_le a.1 b.1) l ->
  Sorted (fun a b => date_le a.1 b.1) (insert_by_date x l).
Proof.
  induction 1 as [|y l Hl IH Hy]; cbn; [by repeat constructor|].
  destruct (String.leb x.1 y.1) eqn:E.
  - constructor; [by constructor|]. by constructor.
  - constructor; [done|].
    assert (date_le y.1 x.1) as Hyx
      by (unfold date_le; destruct (String.leb_total x.1 y.1); congruence).
    destruct l as [|z l]; cbn in *; [by constructor|].
    destruct (String.leb x.1 z.1); constructor; [done|].
    by inversion Hy.
Qed.

Lemma sorted_items_sorted m :
  Sorted (fun a b => date_le a.1 b.1) (sorted_items m).
Proof.
  unfold sorted_items. induction (map_to_list m) as [|x l IH];
    [constructor | by apply insert_by_date_sorted].
Qed.

Lemma daily_row_lookup d o h l c v :
  let r : row :=
    list_to_map [("Date", d); ("Open", o); ("High", h); ("Low", l);
                 ("Close", c); ("Volume", v)]%string in
  r !! "Date"%string = Some d /\ r !! "Close"%string = Some c /\
  r !! "Volume"%string = Some v /\ r !! "Adj Close"%string = None.
Proof. by vm_compute. Qed.

Lemma daily_row_ok item r :
  daily_row item = Ok r ->
  r !! "Date"%string = Some item.1 /\
  r !! "Close"%string = item.2 !! "4. close"%string /\
  r !! "Volume"%string = item.2 !! "5. volume"%string /\
  complete item.2.
Proof.
  unfold daily_row, getitem, complete.
  destruct (item.2 !! "1. open"%string) as [o|]; [|discriminate].
  destruct (item.2 !! "2. high"%string) as [h|]; [|discriminate].
  destruct (item.2 !! "3. low"%string) as [l|]; [|discriminate].
  destruct (item.2 !! "4. close"%string) as [c|]; [|discriminate].
  destruct (item.2 !! "5. volume"%string) as [v|]; [|discriminate].
  cbn [bind]. intros [= <-].
  destruct (daily_row_lookup item.1 o h l c v) as (H1 & H2 & H3 & _).
  split; [exact H1|]. split; [exact H2|]. split; [exact H3|].
  by repeat split.
Qed.

Lemma daily_row_complete item :
  complete item.2 -> exists r, daily_row item = Ok r.
Proof.
  intros ([o Ho] & [h Hh] & [l Hl] & [c Hc] & [v Hv]).
  unfold daily_row, getitem. rewrite Ho, Hh, Hl, Hc, Hv. cbn. eauto.
Qed.

Lemma daily_row_incomplete item :
  ~ complete item.2 -> daily_row item = Raise KeyError.
Proof.
  intros H. destruct (daily_row item) as [r|e] eqn:E.
  - destruct (daily_row_ok _ _ E) as (_ & _ & _ & Hc). contradiction.
  - revert E. unfold daily_row, getitem, bind.
    repeat case_match; intros; simplify_eq; done.
Qed.

Lemma for_each_raise {A B : Type} (f : A -> result B) (l : list A) x e :
  In x l -> f x = Raise e -> exists e', for_each f l = Raise e'.
Proof.
  induction l as [|y l IH]; [done|]. intros [->|Hin] Hx; cbn [for_each].
  - rewrite Hx. eauto.
  - destruct (f y); cbn [bind]; [|eauto].
    destruct (IH Hin Hx) as [e' ->]. eauto.
Qed.

Lemma for_each_daily_rows items rows :
  for_each daily_row items = Ok rows ->
  (fun r : row => r !! "Date"%string) <$> rows = Some <$> items.*1 /\
  Forall (fun r : row =>
    is_Some (r !! "Date"%string) /\ is_Some (r !! "Close"%string) /\
    is_Some (r !! "Volume"%string)) rows.
Proof.
  revert rows. induction items as [|x items IH]; intros rows.
  - intros [= <-]. by split.
  - cbn [for_each]. destruct (daily_row x) as [r|] eqn:Er; [|discriminate].
    cbn [bind]. destruct (for_each daily_row items) as [rs|]; [|discriminate].
    intros [= <-]. destruct (IH rs eq_refl) as [IH1 IH2].
    destruct (daily_row_ok x r Er) as (Hd & Hc & Hv & _ & _ & _ & Hcl & Hvo).
    cbn. rewrite Hd, IH1. split; [done|]. constructor; [|done].
    rewrite Hd, Hc, Hv. by repeat split.
Qed.

Lemma Sorted_dates (l : list (string * row)) :
  Sorted (fun a b => date_le a.1 b.1) l -> Sorted date_le l.*1.
Proof.
  induction 1 as [|x l _ IH Hx]; [constructor|]. cbn.
  constructor; [exact IH|]. destruct Hx; by constructor.
Qed.

Lemma fetch_daily_rows_sorted_keys data :
  Forall (fun r : row =>
    is_Some (r !! "Date"%string) /\ is_Some (r !! "Close"%string) /\
    is_Some (r !! "Volume"%string)) (fetch_daily_rows data).
Proof.
  unfold fetch_daily_rows.
  destruct (error_message data); [done|]. destruct (note data); [done|].
  destruct (for_each daily_row (sorted_items (time_series data)))
    as [rows|] eqn:E; [|done].
  by destruct (for_each_daily_rows _ _ E).
Qed.

(** X27: the rows the v3 fetch returns are in ascending date order,
    whatever order the response lists its days in, each date is a day of
    the response, and every row has a date, a close and a volume. *)
Theorem fetch_daily_rows_sorted data :
  exists dates,
    (fun r : row => r !! "Date"%string) <$> fetch_daily_rows data
      = Some <$> dates /\
    Sorted date_le dates /\
    Forall (fun d => is_Some (time_series data !! d)) dates /\
    Forall (fun r : row =>
      is_Some (r !! "Date"%string) /\ is_Some (r !! "Close"%string) /\
      is_Some (r !! "Volume"%string)) (fetch_daily_rows data).
Proof.
  unfold fetch_daily_rows.
  destruct (error_message data); [by exists []|].
  destruct (note data); [by exists []|].
  destruct (for_each daily_row (sorted_items (time_series data)))
    as [rows|] eqn:E; [|by exists []].
  destruct (for_each_daily_rows _ _ E) as [Hd Hk].
  exists (sorted_items (time_series data)).*1.
  split; [done|]. split; [|split; [|done]].
  - apply Sorted_dates, sorted_items_sorted.
  - apply Forall_forall. intros d Hin.
    apply list_elem_of_fmap in Hin as ([d' v] & -> & Hin).
    rewrite sorted_items_perm in Hin.
    apply elem_of_map_to_list in Hin. cbn. by rewrite Hin.
Qed.

(** X28: the v3 fetch is all or nothing.  With no error and no note, it
    returns one row per day of the response when every day has its five
    fields, and no row at all as soon as one day lacks one. *)
Theorem fetch_daily_rows_complete data :
  error_message data = None -> note data = None ->
  (map_Forall (fun _ values => complete values) (time_series data) ->
   length (fetch_daily_rows data) = size (time_series data)) /\
  (forall d values, time_series data !! d = Some values -> ~ complete values ->
   fetch_daily_rows data = []).
Proof.
  intros He Hn. unfold fetch_daily_rows. rewrite He, Hn. split.
  - intros Hall.
    destruct (for_each_ok daily_row (sorted_items (time_series data)))
      as (rows & -> & H2).
    { apply Forall_forall. intros [d v] Hin.
      rewrite sorted_items_perm in Hin. apply elem_of_map_to_list in Hin.
      apply daily_row_complete. by apply (Hall d v). }
    apply Forall2_length in H2. rewrite <- H2.
    rewrite (Permutation_length (sorted_items_perm _)).
    by rewrite length_map_to_list.
  - intros d values Hd Hinc.
    destruct (for_each_raise daily_row (sorted_items (time_series data))
                (d, values) KeyError) as [e ->]; [| |done].
    + apply list_elem_of_In. rewrite sorted_items_perm.
      by apply elem_of_map_to_list.
    + by apply daily_row_incomplete.
Qed.

(** ** The period of a saved report *)

Lemma main_REAL_saved now rows a :
  main_REAL now rows = Ok (Saved a) ->
  exists d data stats,
    process_data_REAL rows = Ok (d :: data) /\
    calculate_statistics (d :: data) = Ok stats /\
    save_results_REAL now (rank_movements (d :: data) 50).1
      (rank_movements (d :: data) 50).2 (d :: data) stats = Ok a.
Proof.
  unfold main_REAL. destruct rows as [|r rows]; [discriminate|].
  destruct (process_data_REAL (r :: rows)) as [[|d data]|] eqn:Hdata;
    [discriminate| |discriminate].
  cbn [bind].
  destruct (calculate_statistics (d :: data)) as [stats|] eqn:Hstats;
    [|discriminate].
  cbn [bind]. intros H. exists d, data, stats. split; [done|]. split; [done|].
  repeat (match type of H with
          | bind ?m _ = _ => destruct m eqn:?; cbn [bind] in H; [|discriminate]
          end).
  by inversion H.
Qed.

Lemma main_saved now rows a :
  main now rows = Ok (Saved a) ->
  exists d data stats,
    process_data rows = Ok (d :: data) /\
    calculate_statistics (d :: data) = Ok stats /\
    save_results now (rank_movements (d :: data) 50).1
      (rank_movements (d :: data) 50).2 (d :: data) stats = Ok a.
Proof.
  unfold main. destruct rows as [|r rows]; [discriminate|].
  destruct (process_data (r :: rows)) as [[|d data]|] eqn:Hdata;
    [discriminate| |discriminate].
  cbn [bind].
  destruct (calculate_statistics (d :: data)) as [stats|] eqn:Hstats;
    [|discriminate].
  cbn [bind]. intros H. exists d, data, stats. split; [done|]. split; [done|].
  repeat (match type of H with
          | bind ?m _ = _ => destruct m eqn:?; cbn [bind] in H; [|discriminate]
          end).
  by inversion H.
Qed.

(** The first and last entry of a non-empty return of the loop, against
    the accepted rows. *)
Lemma process_rows_period co rows d data :
  (forall r e, co r = Raise e -> e = ValueError \/ e = KeyError) ->
  process_rows co rows = Ok (d :: data) ->
  exists en o0 o1 obs on,
    last (d :: data) = Some en /\
    accepted co rows = o0 :: o1 :: obs /\ last (o1 :: obs) = Some on /\
    date d = ob_date o1 /\ date en = ob_date on.
Proof.
  intros Hco Hdata.
  destruct (process_rows_ok_inv co Hco rows _ Hdata)
    as [[_ [=]]|(o0 & obs & Hacc & _ & Hout)].
  destruct obs as [|o1 obs]; [discriminate|].
  destruct (last (o1 :: obs)) as [on|] eqn:Hlast;
    [|by apply last_None in Hlast].
  assert (last (o0 :: o1 :: obs) = Some on) as Hlast'
    by (by rewrite last_cons_cons).
  destruct (period_of_entries o0 o1 obs on Hlast') as [Hf Hl].
  rewrite <- Hout in Hf, Hl. unfold last_date in Hl. cbn [first_date] in Hf.
  destruct (last (d :: data)) as [en|] eqn:Hen;
    [|by apply last_None in Hen].
  by exists en, o0, o1, obs, on.
Qed.

(** C4 (amended): in a run that saves a report, [period_start] is the
    first date of the trimmed return sequence, that is the date of the
    second accepted observation of the original sequence, not of the first;
    [period_end] is the last date of the return sequence, which is the date
    of the last accepted observation.  The original sequence is what the
    rows coerce to ([accepted]): rows rejected by a [ValueError] or
    [KeyError] take no part. *)
Theorem main_REAL_period now rows a :
  main_REAL now rows = Ok (Saved a) ->
  exists data e1 en o0 o1 obs on,
    process_data_REAL rows = Ok data /\
    head data = Some e1 /\ last data = Some en /\
    accepted coerce_REAL rows = o0 :: o1 :: obs /\
    last (o1 :: obs) = Some on /\
    period_start (json a) = date e1 /\ date e1 = ob_date o1 /\
    period_end (json a) = date en /\ date en = ob_date on.
Proof.
  intros Hmain.
  destruct (main_REAL_saved now rows a Hmain)
    as (d & data & stats & Hdata & _ & Hsave).
  destruct (save_results_REAL_period _ _ _ _ _ _ Hsave) as [Hstart Hend].
  destruct (process_rows_period coerce_REAL rows d data coerce_REAL_raises Hdata)
    as (en & o0 & o1 & obs & on & Hen & Hacc & Hon & Hd & Hn).
  exists (d :: data), d, en, o0, o1, obs, on.
  unfold last_date in Hend. rewrite Hen in Hend. done.
Qed.

(** The same for the v2 variant. *)
Lemma main_period now rows a :
  main now rows = Ok (Saved a) ->
  exists data e1 en o0 o1 obs on,
    process_data rows = Ok data /\
    head data = Some e1 /\ last data = Some en /\
    accepted coerce rows = o0 :: o1 :: obs /\
    last (o1 :: obs) = Some on /\
    period_start (json a) = date e1 /\ date e1 = ob_date o1 /\
    period_end (json a) = date en /\ date en = ob_date on.
Proof.
  intros Hmain.
  destruct (main_saved now rows a Hmain)
    as (d & data & stats & Hdata & _ & Hsave).
  destruct (save_results_period _ _ _ _ _ _ Hsave) as [Hstart Hend].
  destruct (process_rows_period coerce rows d data coerce_raises Hdata)
    as (en & o0 & o1 & obs & on & Hen & Hacc & Hon & Hd & Hn).
  exists (d :: data), d, en, o0, o1, obs, on.
  unfold last_date in Hend. rewrite Hen in Hend. done.
Qed.

(** ** The extrema and their dates *)

Lemma pct_is_true x e :
  pct_is x e = true -> exists p, daily_change_pct e = Some p /\ p == x.
Proof.
  unfold pct_is. destruct (daily_change_pct e) as [p|]; [|discriminate].
  intros H. exists p. split; [done | by apply Qeq_bool_iff].
Qed.

Lemma pct_is_false x e p :
  pct_is x e = false -> daily_change_pct e = Some p -> ~ p == x.
Proof.
  unfold pct_is. intros H Hp. rewrite Hp in H. intros E.
  apply Qeq_bool_iff in E. congruence.
Qed.

Lemma head_filter_first {A : Type} (f : A -> bool) (l : list A) (x : A) :
  head (List.filter f l) = Some x ->
  exists i, l !! i = Some x /\ f x = true /\
    forall j y, (j < i)%nat -> l !! j = Some y -> f y = false.
Proof. rewrite <- find_head_filter. apply find_first. Qed.

Lemma last_filter_last {A : Type} (f : A -> bool) (l : list A) (x : A) :
  last (List.filter f l) = Some x ->
  exists i, l !! i = Some x /\ f x = true /\
    forall j y, (i < j)%nat -> l !! j = Some y -> f y = false.
Proof.
  induction l as [|a l IH] using rev_ind; [discriminate|].
  rewrite List.filter_app. cbn [List.filter]. destruct (f a) eqn:Ea.
  - rewrite last_snoc. intros [= ->]. exists (length l).
    split; [by rewrite lookup_app_r, Nat.sub_diag by lia|]. split; [done|].
    intros j y Hj Hy. apply lookup_lt_Some in Hy.
    rewrite length_app in Hy. cbn in Hy. lia.
  - rewrite app_nil_r. intros H. destruct (IH H) as (i & Hi & Hx & Hafter).
    exists i. split; [by apply lookup_app_l_Some|]. split; [done|].
    intros j y Hj Hy. destruct (decide (j < length l)%nat) as [Hlt|Hge].
    + rewrite lookup_app_l in Hy by done. by apply (Hafter j).
    + rewrite lookup_app_r in Hy by lia.
      destruct (j - length l)%nat; [|done]. by inversion Hy; subst.
Qed.

Lemma head_filter_first_with x data e :
  head (List.filter (pct_is x) data) = Some e -> first_with x data e.
Proof.
  intros H. destruct (head_filter_first _ _ _ H) as (i & Hi & He & Hbefore).
  destruct (pct_is_true _ _ He) as (p & Hp & Hpx). exists i, p.
  split; [done | split; [done | split; [done|]]].
  intros j e' p' Hj He' Hp'. eapply pct_is_false; [|exact Hp'].
  by apply (Hbefore j).
Qed.

Lemma last_filter_last_with x data e :
  last (List.filter (pct_is x) data) = Some e -> last_with x data e.
Proof.
  intros H. destruct (last_filter_last _ _ _ H) as (i & Hi & He & Hafter).
  destruct (pct_is_true _ _ He) as (p & Hp & Hpx). exists i, p.
  split; [done | split; [done | split; [done|]]].
  intros j e' p' Hj He' Hp'. eapply pct_is_false; [|exact Hp'].
  by apply (Hafter j).
Qed.

(** The two [next(...)] of a call that returned statistics. *)
Lemma calculate_statistics_dates data s :
  calculate_statistics data = Ok (Some s) ->
  next_date (max_gain_pct s) data = Ok (max_gain_date s) /\
  next_date (max_loss_pct s) data = Ok (max_loss_date s).
Proof.
  intros Hs. destruct (omap daily_change_pct data) as [|c cs] eqn:Hc.
  { unfold calculate_statistics in Hs. by rewrite Hc in Hs. }
  destruct (statistics_facts data c cs Hc)
    as (s' & Hs' & Hmax & Hmin & Hgd & Hld & _).
  rewrite Hs in Hs'. inversion Hs'; subst s'. by rewrite Hmax, Hmin.
Qed.


(** ** The exceptions of the loop *)

(** What leaves the loop for an arbitrary coercion of the rows. *)
Lemma for_rows_exceptions co rows :
  forall i data e, for_rows co i rows data = Raise e ->
    e <> ValueError /\ e <> KeyError /\
    (e = IndexError \/ e = ZeroDivisionError \/
     exists r, In r rows /\ co r = Raise e).
Proof.
  induction rows as [|r rows IH]; intros i data e; [discriminate|].
  cbn [for_rows]. unfold try_body. destruct (co r) as [o|e0] eqn:Hr.
  - cbn [bind]. destruct (make_entry i data o) as [e1|e1] eqn:He.
    + intros H. destruct (IH _ _ _ H) as (H1 & H2 & [H3|[H3|(r' & Hin & H3)]]);
        (split; [done | split; [done|]]); [by left | by right; left|].
      right; right. exists r'. split; [by right | done].
    + destruct (make_entry_raises _ _ _ _ He) as [-> | ->]; intros [= <-];
        (split; [done | split; [done|]]); [by left | by right; left].
  - cbn [bind].
    assert (forall e', for_rows co (S i) rows data = Raise e' ->
              e' <> ValueError /\ e' <> KeyError /\
              (e' = IndexError \/ e' = ZeroDivisionError \/
               exists r', In r' (r :: rows) /\ co r' = Raise e')) as IH'.
    { intros e' H.
      destruct (IH _ _ _ H) as (H1 & H2 & [H3|[H3|(r' & Hin & H3)]]);
        (split; [done | split; [done|]]); [by left | by right; left|].
      right; right. exists r'. split; [by right | done]. }
    destruct e0; try apply IH'; intros [= <-];
      (split; [done | split; [done|]]); right; right; exists r;
      (split; [by left | done]).
Qed.

(** X2: a [ValueError] or [KeyError] never leaves [process_data].  What
    leaves it is the [IndexError] of [data[-1]], the [ZeroDivisionError]
    of the change, or an exception of another kind raised by the
    coercions of some row, whatever these coercions are. *)
Theorem process_rows_exceptions co rows e :
  process_rows co rows = Raise e ->
  e <> ValueError /\ e <> KeyError /\
  (e = IndexError \/ e = ZeroDivisionError \/
   exists r, In r rows /\ co r = Raise e).
Proof.
  unfold process_rows.
  destruct (for_rows co 0 rows []) as [data|e'] eqn:H; [discriminate|].
  intros [= <-]. by apply (for_rows_exceptions co rows 0%nat []).
Qed.

(** One row, for an arbitrary coercion: no entry, or the exception of the
    coercion when the loop does not catch it. *)
Lemma process_rows_single_cases co r :
  process_rows co [r] =
  match co r with
  | Ok _ | Raise ValueError | Raise KeyError => Ok []
  | Raise e => Raise e
  end.
Proof.
  unfold process_rows. cbn [for_rows]. unfold try_body.
  destruct (co r) as [o|e] eqn:Hr; cbn [bind].
  - by rewrite make_entry_first.
  - by destruct e.
Qed.

(** X5: a feed of a single row never gives a report: when [main] returns
    on it, [process_data] returned no entry and [main] ended through its
    "no valid data" return. *)
Theorem single_row_no_report now r out :
  main now [r] = Ok out -> process_data [r] = Ok [] /\ out = NoValidData.
Proof.
  unfold main, process_data. rewrite process_rows_single_cases.
  destruct (coerce r) as [o|[]]; cbn [bind]; intros [= <-]; done.
Qed.

(** ** The ranking against the statistics *)

(** X10: for a positive count and a sequence with every change set for
    which [calculate_statistics] returns statistics, the first entry of
    [top_gains] is the day the statistics report as maximum gain: the
    first entry of [data] whose change is [max_gain_pct], and its date is
    [max_gain_date]. *)
Theorem top_gain_is_max_gain data top_n s :
  calculate_statistics data = Ok (Some s) ->
  Forall (fun e => is_Some (daily_change_pct e)) data ->
  (0 < top_n)%Z ->
  exists g,
    head (rank_movements data top_n).1 = Some g /\
    first_with (max_gain_pct s) data g /\
    date g = max_gain_date s.
Proof.
  intros Hs Hset Hn.
  destruct (calculate_statistics_dates data s Hs) as [Hgd _].
  destruct (calculate_statistics_inv data s Hs)
    as (c & cs & Hc & Hmax & _).
  destruct (max_of_bounds data c cs Hc) as ((em & Hem & Hpm) & Hle).
  destruct (sorted_reverse data) as [|x l] eqn:Es.
  { apply (f_equal length) in Es. rewrite length_sorted_reverse in Es.
    by destruct data. }
  destruct (sorted_head_max data x l Es) as [Hx Hhead].
  assert (In x data) as Hxin.
  { apply list_elem_of_In. rewrite <- (sorted_reverse_perm data), Es.
    by left. }
  assert (max_gain_pct s == sort_key x) as Heq.
  { rewrite Hmax. apply Qle_antisym.
    - specialize (Hx em Hem). unfold sort_key at 1 in Hx.
      by rewrite Hpm in Hx.
    - rewrite Forall_forall in Hset.
      destruct (Hset x (proj2 (list_elem_of_In _ _) Hxin)) as [p Hp].
      unfold sort_key. rewrite Hp. cbn. by apply (Hle x p). }
  exists x. rewrite top_gains_head, Es by done.
  rewrite <- (filter_pct_is_tied data _ _ Hset Heq) in Hhead.
  split; [done|]. split; [by apply head_filter_first_with|].
  destruct (next_date_head _ _ _ Hgd) as (e & He & ->).
  rewrite Hhead in He. by inversion He.
Qed.

(** X11: under the same conditions the first entry of [top_losses] is
    the last entry of [data] whose change is [max_loss_pct], whereas
    [max_loss_date] is the date of the first one: the two differ when the
    worst loss is tied. *)
Theorem top_loss_is_max_loss data top_n s :
  calculate_statistics data = Ok (Some s) ->
  Forall (fun e => is_Some (daily_change_pct e)) data ->
  (0 < top_n)%Z ->
  exists g f,
    head (rank_movements data top_n).2 = Some g /\
    last_with (max_loss_pct s) data g /\
    first_with (max_loss_pct s) data f /\
    date f = max_loss_date s.
Proof.
  intros Hs Hset Hn.
  destruct (calculate_statistics_dates data s Hs) as [_ Hld].
  destruct (calculate_statistics_inv data s Hs)
    as (c & cs & Hc & _ & Hmin & _).
  destruct (min_of_bounds data c cs Hc) as ((em & Hem & Hpm) & Hle).
  destruct (last (sorted_reverse data)) as [x|] eqn:El.
  2:{ apply last_None in El. apply (f_equal length) in El.
      rewrite length_sorted_reverse in El. by destruct data. }
  apply last_Some in El as [l Es].
  destruct (sorted_last_min data x l Es) as [Hx Hlast].
  assert (In x data) as Hxin.
  { apply list_elem_of_In. rewrite <- (sorted_reverse_perm data), Es.
    apply elem_of_app. right. by left. }
  assert (max_loss_pct s == sort_key x) as Heq.
  { rewrite Hmin. apply Qle_antisym.
    - rewrite Forall_forall in Hset.
      destruct (Hset x (proj2 (list_elem_of_In _ _) Hxin)) as [p Hp].
      unfold sort_key. rewrite Hp. cbn. by apply (Hle x p).
    - specialize (Hx em Hem). unfold sort_key at 2 in Hx.
      by rewrite Hpm in Hx. }
  destruct (next_date_head _ _ _ Hld) as (f & Hf & Hdate).
  exists x, f. rewrite top_losses_head, Es, last_snoc by done.
  rewrite <- (filter_pct_is_tied data _ _ Hset Heq) in Hlast.
  split; [done|]. split; [by apply last_filter_last_with|].
  split; [by apply head_filter_first_with | by symmetry].
Qed.

(** X12: when [calculate_statistics] returns, it returns the empty dict
    exactly when no entry has its change set, and otherwise statistics
    whose [total_days] is the number of entries with a set change. *)
Theorem calculate_statistics_days data r :
  calculate_statistics data = Ok r ->
  (r = None <-> Forall (fun e => daily_change_pct e = None) data) /\
  (forall s, r = Some s ->
     total_days s = length (omap daily_change_pct data)).
Proof.
  intros Hr. destruct (omap daily_change_pct data) as [|c cs] eqn:Hc.
  - unfold calculate_statistics in Hr. rewrite Hc in Hr.
    inversion Hr; subst r. split; [|done]. split; [|done].
    intros _. by apply omap_pct_nil.
  - destruct (statistics_facts data c cs Hc) as (s & Hs & H).
    rewrite Hr in Hs. inversion Hs; subst r. split.
    + split; [done|]. intros H'. apply omap_pct_nil in H'. congruence.
    + intros s' [= <-]. apply H.
Qed.

(** X16: when [process_data] returns at least one entry and
    [calculate_statistics] returns, the v2 [main] saves a report: nothing
    else can raise.  The report counts every returned entry in
    [total_days], the full CSV holds exactly the returned entries, and
    each ranking has [min(50, len(data))] rows. *)
Theorem main_saves now rows d data stats :
  process_data rows = Ok (d :: data) ->
  calculate_statistics (d :: data) = Ok stats ->
  exists a,
    main now rows = Ok (Saved a) /\
    period_total_days (json a) = length (d :: data) /\
    csv_full a = d :: data /\
    length (top_gains (json a)) = (50 `min` length (d :: data))%nat /\
    length (top_losses (json a)) = (50 `min` length (d :: data))%nat.
Proof.
  intros Hdata _.
  destruct (main_after_process now rows d data Hdata) as (s & _ & Hn & ->).
  destruct (rank_movements_sorted (d :: data) 50 ltac:(done))
    as (_ & _ & Hg & Hl).
  eexists. split; [reflexivity|]. cbn [json csv_full period_total_days
    top_gains top_losses stats_get].
  rewrite !length_fmap, Hg, Hl. done.
Qed.

(** X20: for a positive standard deviation [calculate_sigma] returns, and
    in exact arithmetic it is strictly increasing in the value: a larger
    percentage change has a larger sigma. *)
Theorem calculate_sigma_monotone v1 v2 mean std_dev :
  0 < std_dev -> v1 < v2 ->
  exists s1 s2,
    calculate_sigma v1 mean std_dev = Ok s1 /\
    calculate_sigma v2 mean std_dev = Ok s2 /\ s1 < s2.
Proof.
  intros Hsd Hv. assert (~ std_dev == 0) as Hz.
  { intros E. rewrite E in Hsd. by apply Qlt_irrefl in Hsd. }
  unfold calculate_sigma. rewrite !(truediv_nonzero _ _ Hz).
  do 2 eexists. split; [done | split; [done|]].
  apply Qlt_shift_div_l; [done|].
  assert ((v1 - mean) / std_dev * std_dev == v1 - mean) as ->
    by (field; exact Hz).
  apply Qplus_lt_le_compat; [done | apply Qle_refl].
Qed.

(** X29: a row returned by the v3 fetch has every key the v3
    [process_data] reads, so its coercion never raises [KeyError]. *)
Theorem fetched_daily_rows_keys data r :
  In r (fetch_daily_rows data) -> coerce_v3 r <> Raise KeyError.
Proof.
  intros Hin. pose proof (fetch_daily_rows_sorted_keys data) as Hk.
  rewrite Forall_forall in Hk.
  destruct (Hk r (proj2 (list_elem_of_In _ _) Hin)) as ([d Hd] & [c Hc] & [v Hv]).
  unfold coerce_v3, getitem, get_truthy, to_float. rewrite Hd, Hc, Hv.
  unfold bind. repeat case_match; intros; simplify_eq; done.
Qed.

(** ** The pipeline on the store against the pipeline on values *)

Lemma building_lookup_old h0 es l :
  (l < length h0)%nat -> building h0 es !! l = h0 !! l.
Proof. intros Hl. unfold building. by rewrite lookup_app_l. Qed.

Lemma building_lookup_data h0 es :
  building h0 es !! length h0 =
  Some (ListObject (seq (S (length h0)) (length es))).
Proof. unfold building. by apply list_lookup_middle. Qed.

Lemma building_lookup_entry h0 es i e :
  es !! i = Some e ->
  building h0 es !! (S (length h0) + i)%nat = Some (EntryDict e).
Proof.
  intros He. unfold building. rewrite lookup_app_r by lia.
  replace (S (length h0) + i - length h0)%nat with (S i) by lia.
  change ((EntryDict <$> es) !! i = Some (EntryDict e)).
  by rewrite list_lookup_fmap, He.
Qed.

Lemma length_building h0 es :
  length (building h0 es) = (S (length h0) + length es)%nat.
Proof. unfold building. rewrite length_app. cbn. rewrite length_fmap. lia. Qed.

Lemma building_prefix h0 es : h0 `prefix_of` building h0 es.
Proof. by eexists. Qed.

Lemma building_snoc h0 es e :
  <[length h0 :=
      ListObject (seq (S (length h0)) (length es) ++ [length (building h0 es)])]>
    (building h0 es ++ [EntryDict e])
  = building h0 (es ++ [e]).
Proof.
  rewrite length_building. unfold building. rewrite <- app_assoc.
  rewrite insert_app_r_alt by lia. rewrite Nat.sub_diag. cbn.
  rewrite length_app, fmap_app, Nat.add_1_r, seq_S. done.
Qed.

Lemma alloc_append h0 es e :
  (let! l := alloc (EntryDict e) in append (length h0) l) (building h0 es)
  = (building h0 (es ++ [e]), Ok tt).
Proof.
  unfold bind_prog, alloc, append.
  rewrite lookup_app_l by (rewrite length_building; lia).
  rewrite building_lookup_data. by rewrite building_snoc.
Qed.

Lemma try_body_st_spec co h0 es i r d :
  h0 !! r = Some (RowDict d) ->
  try_body_st co (length h0) i r (building h0 es) =
  match try_body co i es d with
  | Ok e => (building h0 (es ++ [e]), Ok tt)
  | Raise e => (building h0 es, Raise e)
  end.
Proof.
  intros Hr. unfold try_body_st, try_body.
  unfold bind_prog at 1. unfold get_row.
  rewrite building_lookup_old by (by eapply lookup_lt_Some). rewrite Hr.
  unfold bind_prog at 1. unfold lift at 1.
  destruct (co d) as [o|e]; [|done]. cbn [bind]. unfold make_entry.
  destruct (0 <? i)%nat.
  - unfold bind_prog at 1. unfold bind_prog at 1. unfold get_list.
    rewrite building_lookup_data.
    destruct es as [|x es _] using rev_ind; [done|].
    rewrite length_app, Nat.add_1_r, seq_S.
    unfold bind_prog at 1. unfold lift at 1, last_item. rewrite !last_snoc.
    unfold bind_prog at 1. unfold get_entry.
    rewrite (building_lookup_entry h0 (es ++ [x]) (length es) x)
      by (by rewrite lookup_app_r, Nat.sub_diag by lia).
    cbn [bind]. unfold bind_prog at 1. unfold lift at 1.
    destruct (truediv (ob_close o - close x) (close x)) as [ratio|e]; [|done].
    cbn [bind ret fst snd]. apply alloc_append.
  - cbn [bind fst snd]. unfold bind_prog at 1. cbn [ret fst snd].
    apply alloc_append.
Qed.

Lemma for_rows_st_spec co h0 items rs :
  Forall2 (fun x r => h0 !! x = Some (RowDict r)) items rs ->
  forall i es, exists es',
    for_rows_st co (length h0) i items (building h0 es) =
      (building h0 es', result_map (fun _ => tt) (for_rows co i rs es)) /\
    forall out, for_rows co i rs es = Ok out -> es' = out.
Proof.
  induction 1 as [|x r items rs Hx _ IH]; intros i es.
  - exists es. split; [done|]. by intros out [= <-].
  - cbn [for_rows_st for_rows]. rewrite (try_body_st_spec _ _ _ _ _ _ Hx).
    destruct (try_body co i es r) as [e|e]; [apply IH|].
    destruct e; try apply IH; (exists es; split; [done | discriminate]).
Qed.

Lemma for_each_get_entry (h : store) items es :
  Forall2 (fun x e => h !! x = Some (EntryDict e)) items es ->
  for_each_prog get_entry items h = (h, Ok es).
Proof.
  induction 1 as [|x e items es Hx _ IH]; [done|].
  cbn [for_each_prog]. unfold bind_prog at 1. unfold get_entry at 1.
  rewrite Hx. unfold bind_prog. by rewrite IH.
Qed.

Lemma contents_entries_at h l es :
  entries_at h l es -> contents l h = (h, Ok es).
Proof.
  intros (items & Hl & Hitems). unfold contents, bind_prog, get_list.
  rewrite Hl. by apply for_each_get_entry.
Qed.

Lemma entries_at_prefix h h' l es :
  h `prefix_of` h' -> entries_at h l es -> entries_at h' l es.
Proof.
  intros Hp (items & Hl & Hitems). exists items.
  split; [exact (prefix_lookup_Some _ _ _ _ Hl Hp)|].
  eapply Forall2_impl; [exact Hitems|]. intros x e Hx.
  exact (prefix_lookup_Some _ _ _ _ Hx Hp).
Qed.

Lemma rows_at_prefix h h' l rs :
  h `prefix_of` h' -> rows_at h l rs -> rows_at h' l rs.
Proof.
  intros Hp (items & Hl & Hitems). exists items.
  split; [exact (prefix_lookup_Some _ _ _ _ Hl Hp)|].
  eapply Forall2_impl; [exact Hitems|]. intros x e Hx.
  exact (prefix_lookup_Some _ _ _ _ Hx Hp).
Qed.

Lemma building_refs h0 es :
  Forall2 (fun x e => building h0 es !! x = Some (EntryDict e))
    (seq (S (length h0)) (length es)) es.
Proof.
  apply Forall2_same_length_lookup_2; [by rewrite length_seq|].
  intros i x e Hx He. apply lookup_seq in Hx as [-> _].
  by apply building_lookup_entry.
Qed.

Lemma process_rows_st_loop co h rows items :
  h !! rows = Some (ListObject items) ->
  process_rows_st co rows h =
  match for_rows_st co (length h) 0 items (building h []) with
  | (h', Ok _) =>
      match h' !! length h with
      | Some (ListObject []) => (h', Ok (length h))
      | Some (ListObject (x :: entries)) =>
          (h' ++ [ListObject (drop 1 (x :: entries))], Ok (length h'))
      | _ => (h', Raise TypeError)
      end
  | (h', Raise e) => (h', Raise e)
  end.
Proof.
  intros Hrows. unfold process_rows_st, bind_prog, alloc, get_list.
  change (h ++ [ListObject []]) with (building h []).
  rewrite building_lookup_old by (by eapply lookup_lt_Some). rewrite Hrows.
  destruct (for_rows_st co (length h) 0 items (building h [])) as [h' [[]|e]];
    [|done].
  by destruct (h' !! length h) as [[| |[|]]|].
Qed.

(** [process_data] on the store leaves every object of the store it
    started in as it was, and ends as [process_rows] does on the rows the
    list refers to; the list it returns refers to the entries
    [process_rows] returns. *)
Lemma process_rows_st_spec co h rows rs :
  rows_at h rows rs ->
  exists h',
    h `prefix_of` h' /\
    match process_rows co rs with
    | Ok data =>
        exists d, process_rows_st co rows h = (h', Ok d) /\
          entries_at h' d data
    | Raise e => process_rows_st co rows h = (h', Raise e)
    end.
Proof.
  intros (items & Hrows & Hitems).
  rewrite (process_rows_st_loop co h rows items Hrows).
  destruct (for_rows_st_spec co h items rs Hitems 0%nat [])
    as (es & -> & Hes).
  unfold process_rows.
  destruct (for_rows co 0 rs []) as [out|e]; cbn [result_map bind].
  2:{ exists (building h es). split; [apply building_prefix | done]. }
  rewrite (Hes out eq_refl), building_lookup_data. destruct out as [|e out].
  - exists (building h []). split; [apply building_prefix|].
    exists (length h). split; [done|]. exists [].
    split; [apply building_lookup_data | constructor].
  - cbn [length seq].
    change (S (length h) :: seq (S (S (length h))) (length out))
      with (seq (S (length h)) (length (e :: out))).
    eexists. split; [apply prefix_app_r, building_prefix|].
    eexists. split; [reflexivity|]. eexists.
    split; [by apply list_lookup_middle|].
    eapply Forall2_impl; [apply Forall2_drop, building_refs|].
    intros x e' Hx. by apply lookup_app_l_Some.
Qed.

Lemma insert_ref_snd p l :
  (insert_ref p l).*2 = insert_desc p.2 (l.*2).
Proof.
  induction l as [|q l IH]; [done|]. cbn.
  destruct (Qle_bool (sort_key q.2) (sort_key p.2)); [done|].
  cbn. by rewrite IH.
Qed.

Lemma insert_ref_Forall (P : nat * entry -> Prop) p l :
  P p -> Forall P l -> Forall P (insert_ref p l).
Proof.
  intros Hp. induction 1 as [|q l Hq Hl IH]; cbn; [by repeat constructor|].
  destruct (Qle_bool _ _); by repeat constructor.
Qed.

(** Sorting the references sorts the entries behind them. *)
Lemma sorted_refs_spec (h : store) items es :
  Forall2 (fun x e => h !! x = Some (EntryDict e)) items es ->
  Forall2 (fun x e => h !! x = Some (EntryDict e))
    (sorted_refs items es) (sorted_reverse es).
Proof.
  intros H. unfold sorted_refs, sorted_reverse.
  assert ((foldr insert_ref [] (zip items es)).*2 = foldr insert_desc [] es /\
          Forall (fun p => h !! p.1 = Some (EntryDict p.2))
            (foldr insert_ref [] (zip items es))) as [<- Hall].
  { induction H as [|x e items es Hx _ [IH1 IH2]]; [by split|].
    cbn [zip zip_with foldr]. split.
    - by rewrite insert_ref_snd, IH1.
    - by apply insert_ref_Forall. }
  induction Hall as [|p l Hp _ IH]; by constructor.
Qed.

Lemma Forall2_slice_to {A B : Type} (P : A -> B -> Prop) l k n :
  Forall2 P l k -> Forall2 P (slice_to l n) (slice_to k n).
Proof.
  intros H. unfold slice_to. rewrite (Forall2_length _ _ _ H).
  destruct (0 <=? n)%Z; by apply Forall2_take.
Qed.

Lemma Forall2_slice_from {A B : Type} (P : A -> B -> Prop) l k n :
  Forall2 P l k -> Forall2 P (slice_from l n) (slice_from k n).
Proof.
  intros H. unfold slice_from. rewrite (Forall2_length _ _ _ H).
  destruct (0 <=? n)%Z; by apply Forall2_drop.
Qed.

(** [rank_movements] on the store only adds lists; the two it returns
    refer to the entries [rank_movements] returns. *)
Lemma rank_movements_st_spec h data es top_n :
  entries_at h data es ->
  exists h' g l,
    rank_movements_st data top_n h = (h', Ok (g, l)) /\
    h `prefix_of` h' /\
    entries_at h' g (rank_movements es top_n).1 /\
    entries_at h' l (rank_movements es top_n).2.
Proof.
  intros (items & Hdata & Hitems). unfold rank_movements_st.
  unfold bind_prog at 1. unfold get_list at 1. rewrite Hdata.
  unfold bind_prog at 1. rewrite (for_each_get_entry h items es Hitems).
  unfold bind_prog at 1. unfold alloc at 1.
  unfold bind_prog at 1. unfold get_list at 1.
  rewrite list_lookup_middle by done.
  unfold bind_prog at 1. unfold alloc at 1.
  unfold bind_prog at 1. unfold alloc at 1.
  unfold bind_prog at 1. unfold get_list at 1.
  rewrite list_lookup_middle by done.
  unfold bind_prog at 1. unfold alloc at 1. unfold ret.
  pose proof (sorted_refs_spec h items es Hitems) as Hsorted.
  set (refs := sorted_refs items es) in *.
  set (h1 := h ++ [ListObject refs]).
  set (h2 := h1 ++ [ListObject (slice_to refs top_n)]).
  set (h3 := h2 ++ [ListObject (slice_from refs (- top_n))]).
  set (h4 := h3 ++ [ListObject (reverse (slice_from refs (- top_n)))]).
  assert (h `prefix_of` h4) as Hp
    by (by apply prefix_app_r, prefix_app_r, prefix_app_r, prefix_app_r).
  assert (forall l k, Forall2 (fun x e => h !! x = Some (EntryDict e)) l k ->
            Forall2 (fun x e => h4 !! x = Some (EntryDict e)) l k) as Hup.
  { intros l k H. eapply Forall2_impl; [exact H|]. intros x e Hx.
    exact (prefix_lookup_Some _ _ _ _ Hx Hp). }
  exists h4, (length h1), (length h3). split; [done|]. split; [done|].
  unfold rank_movements. cbn [fst snd]. split.
  - exists (slice_to refs top_n). split.
    + subst h4 h3 h2. rewrite <- !app_assoc. by apply list_lookup_middle.
    + by apply Hup, Forall2_slice_to.
  - exists (reverse (slice_from refs (- top_n))). split.
    + subst h4. by apply list_lookup_middle.
    + by apply Hup, Forall2_reverse, Forall2_slice_from.
Qed.

(** The run on the store ends as [main] does on the rows the list refers
    to, and leaves every object it found as it was. *)
Lemma main_st_refines now h rows rs :
  rows_at h rows rs ->
  exists h', main_st now rows h = (h', main now rs) /\ h `prefix_of` h'.
Proof.
  intros Hrows. pose proof Hrows as (items & Hl & Hitems).
  unfold main_st, main. unfold bind_prog at 1. unfold get_list at 1.
  rewrite Hl. destruct Hitems as [|x r items rs Hx Hitems]; [by exists h|].
  destruct (process_rows_st_spec coerce h rows (r :: rs) Hrows)
    as (h1 & Hp1 & Hproc).
  unfold process_data_st, process_data. unfold bind_prog at 1.
  destruct (process_rows coerce (r :: rs)) as [data|e].
  2:{ rewrite Hproc. by exists h1. }
  destruct Hproc as (d & -> & Hd). cbn [bind].
  pose proof Hd as (kept & Hkept & Hpts).
  unfold bind_prog at 1. unfold get_list at 1. rewrite Hkept.
  destruct Hpts as [|k e kept data Hk Hpts]; [by exists h1|].
  assert (entries_at h1 d (e :: data)) as Hd'
    by (exists (k :: kept); split; [done | by constructor]).
  unfold calculate_statistics_st. unfold bind_prog at 1. unfold bind_prog at 1.
  rewrite (contents_entries_at _ _ _ Hd'). unfold lift at 1.
  destruct (calculate_statistics (e :: data)) as [stats|e']; [|by exists h1].
  cbn [bind].
  destruct (rank_movements_st_spec h1 d (e :: data) 50 Hd')
    as (h2 & g & l & Hrank & Hp2 & Hg & Hlo).
  unfold bind_prog at 1. rewrite Hrank. exists h2.
  unfold bind_prog at 1. unfold lift at 1.
  destruct (stats_item stats max_gain_pct) as [m|e']; cbn [bind];
    [|split; [done | by etrans]].
  cbn [fst snd]. unfold bind_prog at 1.
  rewrite (contents_entries_at _ _ _ Hg).
  unfold bind_prog at 1. rewrite (contents_entries_at _ _ _ Hlo).
  unfold bind_prog at 1.
  rewrite (contents_entries_at _ _ _ (entries_at_prefix _ _ _ _ Hp2 Hd')).
  unfold bind_prog, lift, ret.
  destruct (save_results _ _ _ _ _); cbn [bind]; (split; [done | by etrans]).
Qed.

(** C9: two runs of the pipeline on the same rows end the same way and
    agree on every field of the report, the generation timestamp apart,
    whatever the two stores they start in hold besides the rows, wherever
    the rows are placed in them, and whatever the two clock readings.  A
    run leaves the rows as it found them, so a second run in the store the
    first one left agrees with the first as well. *)
Theorem pipeline_deterministic now1 now2 h1 h2 rows1 rows2 rs :
  rows_at h1 rows1 rs -> rows_at h2 rows2 rs ->
  result_map content (main_st now1 rows1 h1).2 =
    result_map content (main_st now2 rows2 h2).2 /\
  rows_at (main_st now1 rows1 h1).1 rows1 rs /\
  result_map content (main_st now2 rows1 (main_st now1 rows1 h1).1).2 =
    result_map content (main_st now1 rows1 h1).2.
Proof.
  intros H1 H2.
  destruct (main_st_refines now1 h1 rows1 rs H1) as (h1' & E1 & P1).
  destruct (main_st_refines now2 h2 rows2 rs H2) as (h2' & E2 & _).
  rewrite E1, E2. cbn [fst snd].
  pose proof (rows_at_prefix _ _ _ _ P1 H1) as H3.
  destruct (main_st_refines now2 h1' rows1 rs H3) as (h3 & E3 & _).
  rewrite E3. cbn [snd].
  split; [apply main_deterministic|]. split; [done|].
  apply main_deterministic.
Qed.

(** X19: in the REAL [main], once [process_data] has returned at least
    one entry and [calculate_statistics] has returned, the statistics are
    not the empty dict and the run ends in one of two ways: by the
    [ZeroDivisionError] of [calculate_sigma] when the standard deviation is
    zero, with a saved report when it is not. *)
Theorem main_REAL_raises now rows d data stats :
  process_data_REAL rows = Ok (d :: data) ->
  calculate_statistics (d :: data) = Ok stats ->
  exists s, stats = Some s /\
    (volatility_std s == 0 -> main_REAL now rows = Raise ZeroDivisionError) /\
    (~ volatility_std s == 0 -> exists a, main_REAL now rows = Ok (Saved a)).
Proof.
  intros Hdata Hstats.
  pose proof (process_rows_set coerce_REAL coerce_REAL_raises rows _ Hdata)
    as Hset.
  apply Forall_set_pct in Hset.
  destruct stats as [s|].
  2:{ destruct (omap_pct_set (d :: data) ltac:(done) Hset) as (c & cs & Hc).
      destruct (statistics_facts _ c cs Hc) as (s' & Hs' & _). congruence. }
  exists s. split; [done|]. split.
  - intros Hz. by eapply main_REAL_zero_std.
  - intros Hz.
    destruct (main_REAL_report now rows d data s Hdata Hstats Hz) as (a & Ha & _).
    eauto.
Qed.

End Pipeline.

(** * Runs on concrete rows

    The pipeline instantiated with [parse_decimal], [sqrt_approx],
    [format_fixed] and [format_grouped]. *)

Example process_data_scenario :
  process_data parse_decimal scenario_rows
  = Ok [Entry "d1" 10 (Some 10) 2 (Some (10 - 10)) (Some ((10 - 10) / 10 * 100));
        Entry "d2" 11 (Some 11) 3 (Some (11 - 10)) (Some ((11 - 10) / 10 * 100));
        Entry "d3" (99 # 10) (Some (99 # 10)) 4 (Some ((99 # 10) - 11))
          (Some (((99 # 10) - 11) / 11 * 100))].
Proof. vm_compute. reflexivity. Qed.

Example rank_movements_zero_count_day :
  rank_movements [day "d1" 1] 0 = ([], [day "d1" 1]).
Proof. reflexivity. Qed.

Lemma process_data_returns_witness :
  exists out,
    process_data parse_decimal two_rows = Ok out /\
    length out = (length two_rows - 1)%nat /\
    (forall i o0 o1, two_obs !! i = Some o0 -> two_obs !! S i = Some o1 ->
       exists e, out !! i = Some e /\
         date e = ob_date o1 /\ close e = ob_close o1 /\
         daily_change e = Some (ob_close o1 - ob_close o0) /\
         daily_change_pct e =
           Some ((ob_close o1 - ob_close o0) / ob_close o0 * 100)) /\
    Forall (fun e => is_Some (daily_change e) /\ is_Some (daily_change_pct e))
      out.
Proof.
  apply (process_data_returns parse_decimal two_rows two_obs).
  - repeat constructor.
  - cbn. lia.
  - intros [|[|i]] o Hi Hlt; cbn in Hi, Hlt; [|lia|lia].
    inversion Hi; subst. discriminate.
Defined.

(** All rows coerce and there are two of them, yet nothing is returned:
    the first close is zero. *)
Lemma process_data_zero_close_counterexample :
  Forall (fun r => exists o, coerce parse_decimal r = Ok o) zero_close_rows /\
  (2 <= length zero_close_rows)%nat /\
  ~ (exists out, process_data parse_decimal zero_close_rows = Ok out /\
       length out = (length zero_close_rows - 1)%nat).
Proof.
  split; [repeat constructor; eexists; vm_compute; reflexivity|].
  split; [cbn; lia|]. intros (out & H & _). vm_compute in H. discriminate.
Qed.

Lemma process_data_zero_previous_close_witness :
  process_data parse_decimal zero_close_rows = Raise ZeroDivisionError /\
  main parse_decimal sqrt_approx format_fixed format_grouped
    "2026-01-01 00:00:00" zero_close_rows = Raise ZeroDivisionError.
Proof.
  apply (process_data_zero_previous_close parse_decimal sqrt_approx
           format_fixed format_grouped "2026-01-01 00:00:00"
           (mkrow "d0" "0" "1") [mkrow "d1" "5" "1"]
           (Observation "d0" 0 (Some 0) 1) [Observation "d1" 5 (Some 5) 1]
           0%nat (Observation "d0" 0 (Some 0) 1)).
  - vm_compute. reflexivity.
  - apply normalizes_ok; [vm_compute; reflexivity | apply normalizes_nil].
  - reflexivity.
  - cbn. lia.
  - reflexivity.
Defined.


(** The tie at the greatest gain is resolved to the earlier day. *)
Example calculate_statistics_tie :
  exists s, calculate_statistics sqrt_approx gain_days = Ok (Some s) /\
    max_gain_pct s = 3 /\ max_gain_date s = "d2" /\
    max_loss_pct s = 1 /\ max_loss_date s = "d1".
Proof. eexists. split; [vm_compute; reflexivity|]. done. Qed.

Lemma save_results_REAL_zero_std_witness :
  save_results_REAL format_fixed format_grouped "2026-01-01 00:00:00"
    [day "d1" 0] [day "d1" 0] [day "d1" 0] (Some flat_statistics)
  = Raise ZeroDivisionError.
Proof.
  apply (save_results_REAL_zero_std format_fixed format_grouped).
  - reflexivity.
  - discriminate.
  - repeat constructor; eexists; reflexivity.
Defined.

(** Constant prices: the deviation is zero, and instead of a report whose
    sigmas are marked undefined there is no report at all. *)
Lemma constant_prices_counterexample :
  exists data s,
    process_data_REAL parse_decimal constant_rows = Ok data /\
    calculate_statistics sqrt_approx data = Ok (Some s) /\
    volatility_std s == 0 /\
    save_results_REAL format_fixed format_grouped "2026-01-01 00:00:00"
      (rank_movements data 50).1 (rank_movements data 50).2 data (Some s)
    = Raise ZeroDivisionError /\
    main_REAL parse_decimal sqrt_approx format_fixed format_grouped
      "2026-01-01 00:00:00" constant_rows = Raise ZeroDivisionError.
Proof.
  do 2 eexists. split; [vm_compute; reflexivity|].
  split; [vm_compute; reflexivity|]. split; [reflexivity|].
  split; vm_compute; reflexivity.
Qed.

(** The original sequence starts on [d0]; the report's period starts on
    [d1]. *)
Lemma period_start_counterexample :
  exists r0 a,
    head scenario_rows = Some r0 /\ r0 !! "Date"%string = Some "d0"%string /\
    main_REAL parse_decimal sqrt_approx format_fixed format_grouped
      "2026-01-01 00:00:00" scenario_rows = Ok (Saved a) /\
    period_start (json a) = "d1" /\ period_start (json a) <> "d0".
Proof.
  do 2 eexists. split; [reflexivity|]. split; [vm_compute; reflexivity|].
  split; [vm_compute; reflexivity|]. split; [reflexivity | discriminate].
Qed.

Lemma empty_input_halts_witness :
  process_data parse_decimal one_row = Ok [] /\
  calculate_statistics sqrt_approx [] = Ok None /\
  (main parse_decimal sqrt_approx format_fixed format_grouped
     "2026-01-01 00:00:00" one_row = Ok NoRows \/
   main parse_decimal sqrt_approx format_fixed format_grouped
     "2026-01-01 00:00:00" one_row = Ok NoValidData).
Proof.
  split; [vm_compute; reflexivity|].
  apply (empty_input_halts parse_decimal sqrt_approx format_fixed
           format_grouped "2026-01-01 00:00:00" one_row).
  vm_compute. reflexivity.
Defined.

(** On zero elements the statistics are the empty dict, not a failure,
    and [save_results] builds a report from it. *)
Lemma calculate_statistics_empty_counterexample :
  calculate_statistics sqrt_approx [] = Ok None /\
  exists a,
    save_results format_fixed format_grouped "2026-01-01 00:00:00"
      [] [] [] None = Ok a /\
    period_start (json a) = "N/A" /\ period_total_days (json a) = 0%nat /\
    stat_max_gain_pct (json a) = "0.00%".
Proof.
  split; [reflexivity|]. eexists. split; [reflexivity|].
  split; [reflexivity|]. split; [reflexivity|]. vm_compute. reflexivity.
Qed.

Lemma process_data_index_error_witness :
  exists r r' o,
    coerce parse_decimal r = Raise ValueError /\
    coerce parse_decimal r' = Ok o /\
    process_data parse_decimal [r; r'] = Raise IndexError /\
    process_data_REAL parse_decimal [r; r'] = Raise IndexError.
Proof.
  apply (process_data_index_error parse_decimal "null" "10.5" (21 # 2)).
  - reflexivity.
  - reflexivity.
Defined.

Example process_data_null_first :
  process_data parse_decimal
    [mkrow "d0" "null" "1"; mkrow "d1" "10.5" "2"] = Raise IndexError /\
  process_data_REAL parse_decimal
    [mkrow "d0" "null" "1"; mkrow "d1" "10.5" "2"] = Raise IndexError.
Proof. split; vm_compute; reflexivity. Qed.

(** ** Runs for the further properties *)


Lemma process_data_changes_set_witness :
  Forall (fun e => is_Some (daily_change e) /\ is_Some (daily_change_pct e))
    scenario_returns.
Proof.
  apply (process_data_changes_set parse_decimal scenario_rows).
  vm_compute. reflexivity.
Defined.

Lemma process_data_skips_witness :
  process_data parse_decimal gap_rows =
  process_data parse_decimal
    (mkrow "d0" "10" "1" ::
     List.filter (fun r => is_ok (coerce parse_decimal r))
       [mkrow "d1" "oops" "1"; mkrow "d2" "11" "1"]).
Proof.
  apply (process_data_skips parse_decimal (mkrow "d0" "10" "1")
           (Observation "d0" 10 (Some 10) 1)).
  vm_compute. reflexivity.
Defined.

Example process_data_gap :
  process_data parse_decimal gap_rows =
  Ok [Entry "d2" 11 (Some 11) 1 (Some (11 - 10)) (Some ((11 - 10) / 10 * 100))].
Proof. vm_compute. reflexivity. Qed.

Lemma process_data_dates_witness :
  date <$> scenario_returns =
    drop 1 (ob_date <$> accepted (coerce parse_decimal) scenario_rows) /\
  close <$> scenario_returns =
    drop 1 (ob_close <$> accepted (coerce parse_decimal) scenario_rows) /\
  length scenario_returns =
    (length (accepted (coerce parse_decimal) scenario_rows) - 1)%nat.
Proof.
  apply (process_data_dates parse_decimal scenario_rows).
  vm_compute. reflexivity.
Defined.


Lemma rank_movements_overlap_witness :
  (rank_movements gain_days 5).1 = sorted_reverse gain_days /\
  (rank_movements gain_days 5).2 = reverse (sorted_reverse gain_days).
Proof. apply (rank_movements_overlap gain_days 5); [lia | cbn; lia]. Defined.

Lemma rank_movements_disjoint_witness :
  exists middle,
    sorted_reverse gain_days =
      (rank_movements gain_days 1).1 ++ middle ++
      reverse (rank_movements gain_days 1).2 /\
    length middle = (length gain_days - 2 * Z.to_nat 1)%nat.
Proof. apply (rank_movements_disjoint gain_days 1); [lia | cbn; lia]. Defined.

(** With a tied worst loss the first ranked loss is the later day, the
    statistics name the earlier one. *)
Example top_loss_tie :
  Date <$> head (movement_v2 format_fixed format_grouped <$>
                   (rank_movements tied_days 1).2) = Some "d2"%string /\
  exists s, calculate_statistics sqrt_approx tied_days = Ok (Some s) /\
    max_loss_date s = "d1"%string.
Proof. split; [reflexivity|]. eexists. split; [vm_compute; reflexivity|]. done. Qed.

Lemma variance_identity_witness :
  exists s variance,
    calculate_statistics sqrt_approx gain_days = Ok (Some s) /\
    volatility_std s = sqrt_approx variance /\
    avg_daily_change_pct s =
      sum (omap daily_change_pct gain_days)
        / len (omap daily_change_pct gain_days) /\
    variance ==
      sum ((fun x => x ^ 2) <$> omap daily_change_pct gain_days)
        / len (omap daily_change_pct gain_days)
      - avg_daily_change_pct s ^ 2 /\
    0 <= variance.
Proof.
  eexists.
  assert (calculate_statistics sqrt_approx gain_days = Ok (Some _)) as H
    by (vm_compute; reflexivity).
  destruct (variance_identity sqrt_approx gain_days _ H) as (v & Hv).
  exists v. split; [exact H | exact Hv].
Defined.

Lemma average_between_extrema_witness :
  exists s,
    calculate_statistics sqrt_approx gain_days = Ok (Some s) /\
    max_loss_pct s <= avg_daily_change_pct s /\
    avg_daily_change_pct s <= max_gain_pct s.
Proof.
  eexists. split; [vm_compute; reflexivity|].
  apply (average_between_extrema sqrt_approx gain_days).
  vm_compute. reflexivity.
Defined.

Lemma constant_series_statistics_witness :
  exists s,
    calculate_statistics sqrt_approx flat_days = Ok (Some s) /\
    max_gain_pct s == 0 /\ max_loss_pct s == 0 /\
    avg_daily_change_pct s == 0 /\
    exists variance, volatility_std s = sqrt_approx variance /\ variance == 0.
Proof.
  eexists. split; [vm_compute; reflexivity|].
  apply (constant_series_statistics sqrt_approx flat_days).
  - vm_compute. reflexivity.
  - intros e p [<-|[<-|[]]] [= <-]; reflexivity.
Defined.

Lemma main_REAL_saves_witness :
  exists a,
    main_REAL parse_decimal sqrt_approx format_fixed format_grouped "2026-01-01 00:00:00"
      scenario_rows = Ok (Saved a) /\
    Forall (fun m => is_Some (Sigma m))
      (top_gains (json a) ++ top_losses (json a)) /\
    Date <$> top_gains (json a) =
      date <$> (rank_movements scenario_returns_REAL 50).1 /\
    Date <$> top_losses (json a) =
      date <$> (rank_movements scenario_returns_REAL 50).2.
Proof.
  eapply (main_REAL_saves parse_decimal sqrt_approx format_fixed
            format_grouped "2026-01-01 00:00:00" scenario_rows).
  - vm_compute. reflexivity.
  - vm_compute. reflexivity.
  - intros H. vm_compute in H. discriminate.
Defined.


Lemma process_data_REAL_v3_witness :
  process_data_REAL parse_decimal scenario_rows =
  process_data_v3 parse_decimal scenario_rows.
Proof.
  apply (process_data_REAL_v3 parse_decimal scenario_rows).
  intros r Hr. cbn in Hr.
  repeat (destruct Hr as [<-|Hr]; [by vm_compute|]). destruct Hr.
Defined.

(** A row without a volume: rejected by the REAL variant, accepted with
    volume [0] by v3. *)
Example volume_missing :
  let r : row := list_to_map [("Date", "d0"); ("Close", "10")]%string in
  coerce_REAL parse_decimal r = Raise KeyError /\
  coerce_v3 parse_decimal r = Ok (Observation "d0" 10 None 0).
Proof. split; vm_compute; reflexivity. Qed.

Lemma process_data_v2_v3_witness :
  process_data_v3 parse_decimal scenario_rows =
  result_map (fmap without_adj_close)
    (process_data parse_decimal scenario_rows).
Proof.
  apply (process_data_v2_v3 parse_decimal scenario_rows).
  intros r Hr. cbn in Hr.
  repeat (destruct Hr as [<-|Hr]; [by vm_compute|]). destruct Hr.
Defined.

Lemma chart_closes_read_back c :
  In (Some c) chart_closes -> parse_decimal (fixed 2 c) = Some c.
Proof.
  intros [[= <-]|[[=]|[[= <-]|[]]]]; vm_compute; reflexivity.
Qed.

Lemma chart_volumes_read_back v :
  In v chart_volumes ->
  is_Some (parse_decimal (digits (int (default 0 v)))).
Proof.
  intros [<-|[<-|[<-|[]]]]; eexists; vm_compute; reflexivity.
Qed.

Example fetch_rows_chart_days :
  fetch_rows parse_decimal day_name (fixed 2) digits
    chart_timestamps chart_closes chart_volumes =
  [mkrow "day0" "10.00" "5"; mkrow "day2" "11.00" "7"].
Proof. vm_compute. reflexivity. Qed.

Example fetch_daily_rows_order :
  (fun r : row => r !! "Date"%string) <$> fetch_daily_rows daily_response =
  [Some "2024-01-02"; Some "2024-01-03"]%string.
Proof. vm_compute. reflexivity. Qed.

Lemma fetch_daily_rows_complete_witness :
  (map_Forall (fun _ values => complete values) (time_series daily_response) ->
   length (fetch_daily_rows daily_response) = size (time_series daily_response)) /\
  (forall d values,
     time_series daily_response !! d = Some values -> ~ complete values ->
     fetch_daily_rows daily_response = []).
Proof.
  apply (fetch_daily_rows_complete daily_response); reflexivity.
Defined.

Example fetch_daily_rows_broken :
  fetch_daily_rows broken_response = [] /\
  size (time_series broken_response) = 2%nat.
Proof. split; vm_compute; reflexivity. Qed.

(** ** Runs on rejected rows, on the store and on fetched rows *)

(** The second accepted day follows a zero close, yet the run is left by
    [IndexError], not by [ZeroDivisionError]: the first raw row was
    rejected. *)
Lemma process_data_zero_previous_close_counterexample :
  accepted (coerce parse_decimal) rejected_first_rows =
    [Observation "d1" 0 (Some 0) 1; Observation "d2" 5 (Some 5) 1] /\
  process_data parse_decimal rejected_first_rows = Raise IndexError /\
  process_data parse_decimal rejected_first_rows <> Raise ZeroDivisionError /\
  main parse_decimal sqrt_approx format_fixed format_grouped "2026-01-01 00:00:00" rejected_first_rows = Raise IndexError.
Proof.
  split; [vm_compute; reflexivity|]. split; [vm_compute; reflexivity|].
  split; [|vm_compute; reflexivity].
  intros H. vm_compute in H. discriminate.
Qed.

Lemma main_REAL_period_witness :
  exists a,
    main_REAL parse_decimal sqrt_approx format_fixed format_grouped "2026-01-01 00:00:00" scenario_gap_rows = Ok (Saved a) /\
    exists data e1 en o0 o1 obs on,
      process_data_REAL parse_decimal scenario_gap_rows = Ok data /\
      head data = Some e1 /\ last data = Some en /\
      accepted (coerce_REAL parse_decimal) scenario_gap_rows
        = o0 :: o1 :: obs /\
      last (o1 :: obs) = Some on /\
      period_start (json a) = date e1 /\ date e1 = ob_date o1 /\
      period_end (json a) = date en /\ date en = ob_date on.
Proof.
  eexists. split; [vm_compute; reflexivity|].
  apply (main_REAL_period parse_decimal sqrt_approx format_fixed format_grouped "2026-01-01 00:00:00" scenario_gap_rows).
  vm_compute. reflexivity.
Defined.

(** With the row of [d1] rejected, the report runs from [d2], the second
    accepted day, to [d3]. *)
Example period_after_rejected_row :
  exists a,
    main_REAL parse_decimal sqrt_approx format_fixed format_grouped "2026-01-01 00:00:00" scenario_gap_rows = Ok (Saved a) /\
    ob_date <$> accepted (coerce_REAL parse_decimal) scenario_gap_rows
      = ["d0"; "d2"; "d3"]%string /\
    period_start (json a) = "d2"%string /\ period_end (json a) = "d3"%string.
Proof.
  eexists. split; [vm_compute; reflexivity|].
  split; [vm_compute; reflexivity|]. split; reflexivity.
Qed.


(** The run on the scenario store ends as [main] does on its rows, with a
    report, and adds eight objects to the four it found: the list [data],
    three entries, the trimmed list, the sorted list and three slices. *)
Example main_st_scenario :
  (main_st parse_decimal sqrt_approx format_fixed format_grouped "2026-01-01 00:00:00" 3 scenario_store).2 = main parse_decimal sqrt_approx format_fixed format_grouped "2026-01-01 00:00:00" store_rows /\
  is_ok (main_st parse_decimal sqrt_approx format_fixed format_grouped "2026-01-01 00:00:00" 3 scenario_store).2 = true /\
  take 4 (main_st parse_decimal sqrt_approx format_fixed format_grouped "2026-01-01 00:00:00" 3 scenario_store).1 = scenario_store /\
  length (main_st parse_decimal sqrt_approx format_fixed format_grouped "2026-01-01 00:00:00" 3 scenario_store).1 = 13%nat.
Proof. repeat split; vm_compute; reflexivity. Qed.

Lemma pipeline_deterministic_witness :
  result_map content (main_st parse_decimal sqrt_approx format_fixed format_grouped "2026-01-01 00:00:00" 3 scenario_store).2 =
    result_map content (main_st parse_decimal sqrt_approx format_fixed format_grouped "2026-06-30 12:00:00" 0 shifted_store).2 /\
  rows_at (main_st parse_decimal sqrt_approx format_fixed format_grouped "2026-01-01 00:00:00" 3 scenario_store).1 3 store_rows /\
  result_map content
    (main_st parse_decimal sqrt_approx format_fixed format_grouped "2026-06-30 12:00:00" 3 (main_st parse_decimal sqrt_approx format_fixed format_grouped "2026-01-01 00:00:00" 3 scenario_store).1).2 =
    result_map content (main_st parse_decimal sqrt_approx format_fixed format_grouped "2026-01-01 00:00:00" 3 scenario_store).2.
Proof.
  apply (pipeline_deterministic parse_decimal sqrt_approx format_fixed format_grouped "2026-01-01 00:00:00" "2026-06-30 12:00:00"
           scenario_store shifted_store 3 0 store_rows);
    eexists; (split; [reflexivity | repeat constructor]).
Defined.

Lemma process_rows_exceptions_witness :
  ZeroDivisionError <> ValueError /\ ZeroDivisionError <> KeyError /\
  (ZeroDivisionError = IndexError \/ ZeroDivisionError = ZeroDivisionError \/
   exists r, In r zero_close_rows /\
     coerce parse_decimal r = Raise ZeroDivisionError).
Proof.
  apply (process_rows_exceptions (coerce parse_decimal) zero_close_rows).
  vm_compute. reflexivity.
Defined.

Lemma single_row_no_report_witness :
  process_data parse_decimal [mkrow "d0" "10" "1"] = Ok [] /\
  NoValidData = NoValidData.
Proof.
  apply (single_row_no_report parse_decimal sqrt_approx format_fixed format_grouped "2026-01-01 00:00:00" (mkrow "d0" "10" "1") NoValidData).
  vm_compute. reflexivity.
Defined.

Lemma top_gain_is_max_gain_witness :
  exists s,
    calculate_statistics sqrt_approx gain_days = Ok (Some s) /\
    exists g,
      head (rank_movements gain_days 2).1 = Some g /\
      first_with (max_gain_pct s) gain_days g /\
      date g = max_gain_date s.
Proof.
  eexists. split; [vm_compute; reflexivity|].
  apply (top_gain_is_max_gain sqrt_approx gain_days 2).
  - vm_compute. reflexivity.
  - repeat constructor; eexists; reflexivity.
  - lia.
Defined.

Lemma top_loss_is_max_loss_witness :
  exists s,
    calculate_statistics sqrt_approx tied_days = Ok (Some s) /\
    exists g f,
      head (rank_movements tied_days 1).2 = Some g /\
      last_with (max_loss_pct s) tied_days g /\
      first_with (max_loss_pct s) tied_days f /\
      date f = max_loss_date s.
Proof.
  eexists. split; [vm_compute; reflexivity|].
  apply (top_loss_is_max_loss sqrt_approx tied_days 1).
  - vm_compute. reflexivity.
  - repeat constructor; eexists; reflexivity.
  - lia.
Defined.

Lemma calculate_statistics_days_witness :
  exists r,
    calculate_statistics sqrt_approx gain_days = Ok r /\
    (r = None <-> Forall (fun e => daily_change_pct e = None) gain_days) /\
    (forall s, r = Some s ->
       total_days s = length (omap daily_change_pct gain_days)).
Proof.
  eexists. split; [vm_compute; reflexivity|].
  apply (calculate_statistics_days sqrt_approx gain_days).
  vm_compute. reflexivity.
Defined.

Lemma main_saves_witness :
  exists a,
    main parse_decimal sqrt_approx format_fixed format_grouped "2026-01-01 00:00:00" scenario_rows = Ok (Saved a) /\
    period_total_days (json a) = length scenario_returns /\
    csv_full a = scenario_returns /\
    length (top_gains (json a)) = (50 `min` length scenario_returns)%nat /\
    length (top_losses (json a)) = (50 `min` length scenario_returns)%nat.
Proof.
  eapply (main_saves parse_decimal sqrt_approx format_fixed format_grouped "2026-01-01 00:00:00" scenario_rows).
  - vm_compute. reflexivity.
  - vm_compute. reflexivity.
Defined.

Lemma calculate_sigma_monotone_witness :
  exists s1 s2,
    calculate_sigma (-10) 0 (8 # 1) = Ok s1 /\
    calculate_sigma 10 0 (8 # 1) = Ok s2 /\ s1 < s2.
Proof. apply (calculate_sigma_monotone (-10) 10 0 (8 # 1)); done. Defined.

Lemma fetched_rows_accepted_witness :
  Forall (fun r => is_ok (coerce_REAL parse_decimal r) = true)
    (fetch_rows parse_decimal day_name (fixed 2) digits
       chart_timestamps chart_closes chart_volumes) /\
  forall e,
    process_data_REAL parse_decimal
      (fetch_rows parse_decimal day_name (fixed 2) digits
         chart_timestamps chart_closes chart_volumes) = Raise e ->
    e = ZeroDivisionError.
Proof.
  apply (fetched_rows_accepted parse_decimal day_name (fixed 2) digits
           chart_timestamps chart_closes chart_volumes).
  - exact chart_closes_read_back.
  - exact chart_volumes_read_back.
Defined.

Lemma fetched_rows_closes_witness :
  ob_close <$> accepted (coerce_REAL parse_decimal)
    (fetch_rows parse_decimal day_name (fixed 2) digits
       chart_timestamps chart_closes chart_volumes)
    = quoted_closes (length chart_timestamps) chart_closes /\
  length (fetch_rows parse_decimal day_name (fixed 2) digits
            chart_timestamps chart_closes chart_volumes)
    = length (quoted_closes (length chart_timestamps) chart_closes).
Proof.
  apply (fetched_rows_closes parse_decimal day_name (fixed 2) digits
           chart_timestamps chart_closes chart_volumes).
  - exact chart_closes_read_back.
  - exact chart_volumes_read_back.
  - repeat constructor.
  - cbn. lia.
  - cbn. lia.
Defined.

(** A timestamp the conversion rejects: no row at all is returned, also
    not the one of the day before it. *)
Example fetch_rows_bad_timestamp :
  fetch_rows parse_decimal day_name (fixed 2) digits
    [0; 1000000000000]%Z [Some 10; Some 11] [Some 5; Some 7] = [].
Proof. vm_compute. reflexivity. Qed.

Lemma fetch_rows_short_witness :
  fetch_rows parse_decimal day_name (fixed 2) digits
    chart_timestamps [Some 10; None] chart_volumes = [] /\
  main_REAL parse_decimal sqrt_approx format_fixed format_grouped "2026-01-01 00:00:00"
    (fetch_rows parse_decimal day_name (fixed 2) digits
       chart_timestamps [Some 10; None] chart_volumes) = Ok NoRows.
Proof.
  apply (fetch_rows_short parse_decimal sqrt_approx format_fixed
           format_grouped day_name (fixed 2) digits "2026-01-01 00:00:00"
           chart_timestamps [Some 10; None] chart_volumes).
  left. cbn. lia.
Defined.

Lemma fetched_daily_rows_keys_witness :
  In unreadable_row (fetch_daily_rows unreadable_response) /\
  coerce_v3 parse_decimal unreadable_row <> Raise KeyError.
Proof.
  assert (In unreadable_row (fetch_daily_rows unreadable_response)) as Hin
    by (vm_compute; left; reflexivity).
  split; [exact Hin|].
  exact (fetched_daily_rows_keys parse_decimal unreadable_response
           unreadable_row Hin).
Defined.


Lemma main_REAL_raises_witness :
  exists s,
    (volatility_std s == 0 ->
     main_REAL parse_decimal sqrt_approx format_fixed format_grouped "2026-01-01 00:00:00" constant_rows = Raise ZeroDivisionError) /\
    (~ volatility_std s == 0 ->
     exists a, main_REAL parse_decimal sqrt_approx format_fixed format_grouped "2026-01-01 00:00:00" constant_rows = Ok (Saved a)).
Proof.
  edestruct (main_REAL_raises parse_decimal sqrt_approx format_fixed format_grouped "2026-01-01 00:00:00" constant_rows) as (s & _ & H);
    [vm_compute; reflexivity | vm_compute; reflexivity |].
  exists s. exact H.
Defined.
